(** * The timetable generator of [backend/app/schedule_generator.py]

    A shallow embedding of the [ScheduleGenerator] class: the entity
    snapshots it reads, the committed schedule and the log list it mutates,
    and every method of the class, then the endpoint of [backend/app/main.py]
    that runs the generator and stores its schedule, followed by the
    properties of the generation run. *)

From stdpp Require Import gmap strings list.
From Stdlib Require Import ZArith Lia Ascii String DecimalString.
From Stdlib Require Import Permutation Sorted DecimalZ.

Local Open Scope Z_scope.

(** ** Python builtins used by the generator *)

Module Py.

(** Exceptions the generator's code can raise on inputs of the declared
    types: [//] by zero, and [int()] or tuple unpacking of a malformed
    [start_time]. *)
Inductive Error := ZeroDivisionError | ValueError.

Inductive Result (A : Type) :=
| Ok (a : A)
| Raise (e : Error).
Arguments Ok {A} a.
Arguments Raise {A} e.

Definition bind {A B} (r : Result A) (k : A -> Result B) : Result B :=
  match r with
  | Ok a => k a
  | Raise e => Raise e
  end.

(** [for x in l: s = body(x, s)], where the body may raise. *)
Fixpoint for_each {A S} (l : list A) (body : A -> S -> Result S) (s : S)
  : Result S :=
  match l with
  | [] => Ok s
  | x :: l' => bind (body x s) (for_each l' body)
  end.

(** [range(a, b)] *)
Definition range (a b : Z) : list Z :=
  List.map (fun k => a + Z.of_nat k) (seq 0 (Z.to_nat (b - a))).

(** [len(l)] as a Python integer *)
Definition len {A} (l : list A) : Z := Z.of_nat (List.length l).

(** [x in l] for a list of strings, and for a list of integers *)
Definition str_in (x : string) (l : list string) : bool :=
  existsb (String.eqb x) l.
Definition int_in (x : Z) (l : list Z) : bool :=
  existsb (Z.eqb x) l.

(** [next((x for x in l if p(x)), None)] *)
Definition next {A} (p : A -> bool) (l : list A) : option A := List.find p l.

(** Truth value of a [str], of an [Optional[str]] and of a list. *)
Definition str_truthy (s : string) : bool := negb (String.eqb s EmptyString).
Definition opt_truthy (o : option string) : bool :=
  match o with
  | Some s => str_truthy s
  | None => false
  end.
Definition list_truthy {A} (l : list A) : bool :=
  match l with
  | [] => false
  | _ :: _ => true
  end.

(** [o == s] for an [Optional[str]] [o] and a [str] [s]. *)
Definition opt_eqb (o : option string) (s : string) : bool :=
  match o with
  | Some s' => String.eqb s' s
  | None => false
  end.

(** [s.split(sep)] for a non-empty separator: [skip] counts the characters
    of a separator occurrence still to be passed over, [cur] is the piece
    being read. *)
Fixpoint split_go (sep : string) (skip : nat) (cur s : string) : list string :=
  match s with
  | EmptyString => [cur]
  | String c s' =>
      match skip with
      | S k => split_go sep k cur s'
      | O =>
          if String.prefix sep s
          then cur :: split_go sep (Nat.pred (String.length sep)) EmptyString s'
          else split_go sep 0 (cur +:+ String c EmptyString) s'
      end
  end.

Definition split (sep s : string) : list string := split_go sep 0 EmptyString s.

(** A [str] is held as its UTF-8 encoding: [==], [+], [in] and [split] by
    an ASCII separator are then those of the bytes.  [chars s] is the
    sequence of the characters of [s], each with its bytes: a leading byte
    announces the bytes that follow it.  [ord] is the code point of one
    character (and [-1] for bytes that encode none). *)
Definition byte (c : ascii) : Z := Z.of_nat (nat_of_ascii c).

Definition followers (c : ascii) : nat :=
  if byte c <? 192 then 0%nat
  else if byte c <? 224 then 1%nat
  else if byte c <? 240 then 2%nat
  else 3%nat.

Fixpoint chars_go (pending : nat) (cur s : string) : list string :=
  match s with
  | EmptyString =>
      match cur with
      | EmptyString => []
      | _ => [cur]
      end
  | String c s' =>
      let cur := cur +:+ String c EmptyString in
      match (match pending with O => followers c | S k => k end) with
      | O => cur :: chars_go 0 EmptyString s'
      | S k => chars_go (S k) cur s'
      end
  end.

Definition chars (s : string) : list string := chars_go 0 EmptyString s.

Definition continuation (b : Z) : bool := (128 <=? b) && (b <? 192).

Definition ord (ch : string) : Z :=
  match List.map byte (list_ascii_of_string ch) with
  | [b0] => if b0 <? 128 then b0 else -1
  | [b0; b1] =>
      if continuation b1 then (b0 - 192) * 64 + (b1 - 128) else -1
  | [b0; b1; b2] =>
      if continuation b1 && continuation b2
      then (b0 - 224) * 4096 + (b1 - 128) * 64 + (b2 - 128)
      else -1
  | [b0; b1; b2; b3] =>
      if continuation b1 && continuation b2 && continuation b3
      then (b0 - 240) * 262144 + (b1 - 128) * 4096 + (b2 - 128) * 64 + (b3 - 128)
      else -1
  | _ => -1
  end.

(** Whitespace, as [str.strip()] and [str.isspace()] have it: the ASCII
    controls 9 to 13 and 28 to 31, the space, and the Unicode line and space
    separators.  [int()] skips the same characters but for the controls 28
    to 31. *)
Definition is_space (ch : string) : bool :=
  let n := ord ch in
  (9 <=? n) && (n <=? 13) || (28 <=? n) && (n <=? 32)
  || (n =? 133) || (n =? 160) || (n =? 5760)
  || (8192 <=? n) && (n <=? 8202)
  || (n =? 8232) || (n =? 8233) || (n =? 8239) || (n =? 8287) || (n =? 12288).

Definition is_int_space (ch : string) : bool :=
  is_space ch && negb ((28 <=? ord ch) && (ord ch <=? 31)).

(** The list without its leading elements that satisfy [p]. *)
Fixpoint drop_while {A} (p : A -> bool) (l : list A) : list A :=
  match l with
  | [] => []
  | x :: l' => if p x then drop_while p l' else l
  end.

Definition strip_chars (p : string -> bool) (l : list string) : list string :=
  List.rev (drop_while p (List.rev (drop_while p l))).

(** [s.strip()] *)
Definition strip (s : string) : string :=
  String.concat EmptyString (strip_chars is_space (chars s)).

(** The decimal digits of Unicode 14.0, which Python 3.11 reads: each code
    point of the list is a digit zero, and the nine code points after it are
    the digits one to nine of the same script. *)
Definition decimal_zeros : list Z :=
  [48; 1632; 1776; 1984; 2406; 2534; 2662; 2790; 2918; 3046; 3174; 3302;
   3430; 3558; 3664; 3792; 3872; 4160; 4240; 6112; 6160; 6470; 6608; 6784;
   6800; 6992; 7088; 7232; 7248; 42528; 43216; 43264; 43472; 43504; 43600;
   44016; 65296; 66720; 68912; 69734; 69872; 69942; 70096; 70384; 70736;
   70864; 71248; 71360; 71472; 71904; 72016; 72784; 73040; 73120; 92768;
   92864; 93008; 120782; 120792; 120802; 120812; 120822; 123200; 123632;
   125264; 130032].

Definition digit_of (ch : string) : option Z :=
  match List.find (fun z => (z <=? ord ch) && (ord ch <? z + 10)) decimal_zeros with
  | Some z => Some (ord ch - z)
  | None => None
  end.

(** The digits of a literal, with single underscores between them: the
    value read and the number of digits. *)
Fixpoint int_digits (after_digit : bool) (acc digits : Z) (l : list string)
  : option (Z * Z) :=
  match l with
  | [] => if after_digit then Some (acc, digits) else None
  | ch :: l' =>
      match digit_of ch with
      | Some d => int_digits true (acc * 10 + d) (digits + 1) l'
      | None =>
          if String.eqb ch "_" && after_digit
          then int_digits false acc digits l'
          else None
      end
  end.

(** [int(s)] for a [str]: surrounding whitespace, an optional sign, decimal
    digits of any script with single underscores between them, and no more
    than 4300 digits (the default of [sys.set_int_max_str_digits]).  Anything
    else raises [ValueError]. *)
Definition int (s : string) : Result Z :=
  let unsigned t :=
    match int_digits false 0 0 t with
    | Some (n, digits) => if 4300 <? digits then Raise ValueError else Ok n
    | None => Raise ValueError
    end in
  match strip_chars is_int_space (chars s) with
  | "-" :: t => bind (unsigned t) (fun n => Ok (- n))
  | "+" :: t => unsigned t
  | t => unsigned t
  end.

(** [str(n)] for an integer, and the format [f'{n:02d}']: decimal digits,
    zero-filled to width two, the sign counting in the width. *)
Definition str (n : Z) : string := NilZero.string_of_int (Z.to_int n).

Definition fmt_02d (n : Z) : string :=
  let s := str n in
  if (String.length s <? 2)%nat then "0" +:+ s else s.

(** The one-character string holding a double quote. *)
Definition quote : string := String (ascii_of_nat 34) EmptyString.

(** [sep.join(l)] *)
Fixpoint join (sep : string) (l : list string) : string :=
  match l with
  | [] => EmptyString
  | [x] => x
  | x :: l' => x +:+ sep +:+ join sep l'
  end.

(** [sorted(l, key=key)]: a stable sort, so an element goes in front of
    the first later element whose key is not smaller. *)
Fixpoint insert_by {A} (key : A -> Z) (x : A) (l : list A) : list A :=
  match l with
  | [] => [x]
  | y :: l' => if key x <=? key y then x :: l else y :: insert_by key x l'
  end.

Fixpoint sorted {A} (key : A -> Z) (l : list A) : list A :=
  match l with
  | [] => []
  | x :: l' => insert_by key x (sorted key l')
  end.

End Py.

(** ** The entity snapshots ([app/models.py], [app/schemas.py])

    Only the columns the generator reads are kept.  Identifiers, names, day
    names and the [type] columns are Python strings. *)

Module Institution.
Record t := mk {
  working_days : list string;
  lessons_per_day : Z;
  lesson_duration : Z;
  break_durations : list Z;
  start_time : string;
  academic_weeks : Z
}.
End Institution.

Module ClassGroup.
(** [subject_hours] is a dict read with [.items()]: its entries in
    insertion order. *)
Record t := mk {
  id : string;
  name : string;
  students_count : Z;
  subject_hours : list (string * Z)
}.
End ClassGroup.

Module Subject.
Record t := mk {
  id : string;
  name : string;
  type : string;
  teacher_ids : list string
}.
End Subject.

Module Classroom.
Record t := mk {
  id : string;
  number : string;
  type : string;
  specialization : option string
}.
End Classroom.

Module Teacher.
(** [available_hours] is a dict read by key and through [.values()]. *)
Record t := mk {
  id : string;
  first_name : string;
  last_name : string;
  available_hours : gmap string (list Z);
  home_classroom : option string
}.
End Teacher.

Module Slot.
(** [ScheduleSlotSchema].  Of the [id], [f'{datetime.now().timestamp()}-{len(available_slots)}'],
    the clock-free part is kept as [ordinal]; [created_at] is a clock reading
    that nothing reads back. *)
Record t := mk {
  ordinal : Z;
  day : string;
  lesson_number : Z;
  class_group_id : string;
  subject_id : string;
  teacher_id : string;
  classroom_id : string;
  start_time : string;
  end_time : string
}.
End Slot.

Module Requirement.
(** [LessonRequirement] *)
Record t := mk {
  id : string;
  group_id : string;
  group_name : string;
  subject_id : string;
  subject_name : string;
  subject_type : string;
  available_teacher_ids : list string;
  priority : Z
}.
End Requirement.

(** The fields of [self] that a run only reads ... *)
Record ScheduleGenerator := {
  institution : Institution.t;
  class_groups : list ClassGroup.t;
  subjects : list Subject.t;
  teachers : list Teacher.t;
  classrooms : list Classroom.t
}.

(** ... and the two it mutates. *)
Record State := {
  schedule : list Slot.t;
  logs : list string
}.

(** The dict returned by [generate_schedule]; [error] is absent from the
    dict of a successful run. *)
Record GenerationResult := {
  success : bool;
  result_schedule : list Slot.t;
  error : option string;
  result_logs : list string
}.

(** [self.log(message)]; the module logger's copy is not kept. *)
Definition log (st : State) (message : string) : State :=
  {| schedule := schedule st; logs := logs st ++ [message] |}.

(** ** The methods of [ScheduleGenerator] *)

Inductive Validation := Valid | Invalid (error : string).

(** [c.specialization.split(', ')], which the code evaluates only after it
    found [c.specialization] truthy. *)
Definition specialization_subjects (c : Classroom.t) : list string :=
  match Classroom.specialization c with
  | Some s => Py.split ", " s
  | None => []
  end.

(** [c.specialization.strip() == ''], evaluated only after
    [not c.specialization] failed. *)
Definition specialization_blank (c : Classroom.t) : bool :=
  match Classroom.specialization c with
  | Some s => String.eqb (Py.strip s) EmptyString
  | None => false
  end.

(** [day in teacher.available_hours and lesson_number in teacher.available_hours[day]] *)
Definition teacher_available (teacher : Teacher.t) (day : string)
  (lesson_number : Z) : bool :=
  match Teacher.available_hours teacher !! day with
  | Some hours => Py.int_in lesson_number hours
  | None => false
  end.

(** [l.index(x)]: the position of the first [x], [None] where Python
    raises. *)
Fixpoint index (x : string) (l : list string) : option Z :=
  match l with
  | [] => None
  | y :: l' =>
      if String.eqb y x then Some 0 else option_map Z.succ (index x l')
  end.

Section Methods.

Variable self : ScheduleGenerator.

Definition _validate_input_data : Validation :=
  if Py.len (class_groups self) =? 0 then Invalid "No class groups configured"
  else if Py.len (subjects self) =? 0 then Invalid "No subjects configured"
  else if Py.len (teachers self) =? 0 then Invalid "No teachers configured"
  else if Py.len (classrooms self) =? 0 then Invalid "No classrooms configured"
  else
    let groups_with_subjects :=
      List.filter
        (fun group =>
           Py.list_truthy (ClassGroup.subject_hours group)
           && (Py.len (ClassGroup.subject_hours group) >? 0))
        (class_groups self) in
    if Py.len groups_with_subjects =? 0
    then Invalid "No subjects assigned to any groups"
    else
      let subjects_with_teachers :=
        List.filter
          (fun subject =>
             Py.list_truthy (Subject.teacher_ids subject)
             && (Py.len (Subject.teacher_ids subject) >? 0))
          (subjects self) in
      if Py.len subjects_with_teachers =? 0
      then Invalid "No teachers assigned to any subjects"
      else Valid.

(** [next((t for t in self.teachers if t.home_classroom == room_id), None)] *)
Definition owner_of (room_id : string) : option Teacher.t :=
  Py.next (fun t => Py.opt_eqb (Teacher.home_classroom t) room_id)
    (teachers self).

Definition teacher_by_id (teacher_id : string) : option Teacher.t :=
  Py.next (fun t => String.eqb (Teacher.id t) teacher_id) (teachers self).

Definition classroom_by_id (classroom_id : string) : option Classroom.t :=
  Py.next (fun c => String.eqb (Classroom.id c) classroom_id) (classrooms self).

Definition subject_by_id (subject_id : string) : option Subject.t :=
  Py.next (fun s => String.eqb (Subject.id s) subject_id) (subjects self).

Definition _log_classroom_info (st : State) : State :=
  let specialized_labs :=
    List.filter
      (fun c => String.eqb (Classroom.type c) "lab"
                && Py.opt_truthy (Classroom.specialization c))
      (classrooms self) in
  let st :=
    if Py.list_truthy specialized_labs then
      let st := log st "🏫 Specialized laboratories detected:" in
      fold_left
        (fun st lab =>
           let subject_ids :=
             if Py.opt_truthy (Classroom.specialization lab)
             then specialization_subjects lab else [] in
           let subject_names :=
             List.map
               (fun subject_id =>
                  match subject_by_id subject_id with
                  | Some subject => Subject.name subject
                  | None => subject_id
                  end)
               subject_ids in
           log st ("   📍 Room " +:+ Classroom.number lab +:+ ": "
                   +:+ Py.join ", " subject_names))
        specialized_labs st
    else st in
  let teacher_labs :=
    List.filter (fun c => String.eqb (Classroom.type c) "teacher_lab")
      (classrooms self) in
  if Py.list_truthy teacher_labs then
    let st := log st "👨‍🏫 Teacher labs detected:" in
    fold_left
      (fun st lab =>
         match owner_of (Classroom.id lab) with
         | Some owner =>
             log st ("   🏠 Room " +:+ Classroom.number lab +:+ ": Owned by "
                     +:+ Teacher.first_name owner +:+ " "
                     +:+ Teacher.last_name owner)
         | None =>
             log st ("   🏠 Room " +:+ Classroom.number lab
                     +:+ ": No assigned owner (available for any teacher)")
         end)
      teacher_labs st
  else st.

Definition _calculate_priority (subject : Subject.t) (group : ClassGroup.t) : Z :=
  let priority := 0 in
  let priority :=
    if String.eqb (Subject.type subject) "lab" then priority - 10
    else priority in
  let has_specialized_classroom :=
    existsb
      (fun c => String.eqb (Classroom.type c) "lab"
                && Py.opt_truthy (Classroom.specialization c)
                && Py.str_in (Subject.id subject) (specialization_subjects c))
      (classrooms self) in
  let priority := if has_specialized_classroom then priority - 20 else priority in
  let priority := priority + Py.len (Subject.teacher_ids subject) in
  let priority := priority - ClassGroup.students_count group / 10 in
  priority.

(** The body of the loop over [group.subject_hours.items()]: the
    requirements list after one entry. *)
Definition requirements_of_entry (group : ClassGroup.t) (entry : string * Z)
  (requirements : list Requirement.t) : Py.Result (list Requirement.t) :=
  let '(subject_id, yearly_hours) := entry in
  if yearly_hours >? 0 then
    match subject_by_id subject_id with
    | Some subject =>
        if Py.list_truthy (Subject.teacher_ids subject) then
          if Institution.academic_weeks (institution self) =? 0
          then Py.Raise Py.ZeroDivisionError
          else
            let weekly_hours :=
              Z.max 1 (yearly_hours / Institution.academic_weeks (institution self)) in
            Py.Ok
              (fold_left
                 (fun requirements i =>
                    requirements ++
                    [Requirement.mk
                       (ClassGroup.id group +:+ "-" +:+ subject_id +:+ "-" +:+ Py.str i)
                       (ClassGroup.id group)
                       (ClassGroup.name group)
                       (Subject.id subject)
                       (Subject.name subject)
                       (Subject.type subject)
                       (Subject.teacher_ids subject)
                       (_calculate_priority subject group)])
                 (Py.range 0 weekly_hours) requirements)
        else Py.Ok requirements
    | None => Py.Ok requirements
    end
  else Py.Ok requirements.

Definition _generate_lesson_requirements : Py.Result (list Requirement.t) :=
  Py.for_each (class_groups self)
    (fun group requirements =>
       if negb (Py.list_truthy (ClassGroup.subject_hours group))
       then Py.Ok requirements
       else
         Py.for_each (ClassGroup.subject_hours group)
           (requirements_of_entry group) requirements)
    [].

Definition _prioritize_requirements (requirements : list Requirement.t)
  : list Requirement.t :=
  Py.sorted Requirement.priority requirements.

Definition _format_time (minutes : Z) : string :=
  let hours := minutes / 60 in
  let mins := minutes mod 60 in
  Py.fmt_02d hours +:+ ":" +:+ Py.fmt_02d mins.

(** [start_hour, start_minute = map(int, self.institution.start_time.split(':'))]:
    a part that is no integer, and any number of parts other than two, raise
    [ValueError]. *)
Definition start_clock : Py.Result (Z * Z) :=
  match Py.split ":" (Institution.start_time (institution self)) with
  | [h; m] =>
      Py.bind (Py.int h) (fun start_hour =>
      Py.bind (Py.int m) (fun start_minute =>
      Py.Ok (start_hour, start_minute)))
  | _ => Py.Raise Py.ValueError
  end.

Definition _calculate_lesson_time (lesson_number : Z)
  : Py.Result (string * string) :=
  Py.bind start_clock (fun '(start_hour, start_minute) =>
  let current_minutes := start_hour * 60 + start_minute in
  let current_minutes :=
    fold_left
      (fun current_minutes i =>
         let current_minutes :=
           current_minutes + Institution.lesson_duration (institution self) in
         if (i <? Institution.lessons_per_day (institution self))
            && (i - 1 <? Py.len (Institution.break_durations (institution self)))
         then current_minutes
              + nth (Z.to_nat (i - 1))
                  (Institution.break_durations (institution self)) 0
         else current_minutes)
      (Py.range 1 lesson_number) current_minutes in
  let start_time := _format_time current_minutes in
  let end_time :=
    _format_time
      (current_minutes + Institution.lesson_duration (institution self)) in
  Py.Ok (start_time, end_time)).

Definition _get_specialized_classrooms_for_subject (subject_id : string)
  : list Classroom.t :=
  List.filter
    (fun classroom =>
       String.eqb (Classroom.type classroom) "lab"
       && Py.opt_truthy (Classroom.specialization classroom)
       && Py.str_in subject_id (specialization_subjects classroom))
    (classrooms self).

Definition _get_suitable_classrooms_for_teacher
  (subject_type subject_id teacher_id : string) : list Classroom.t :=
  if String.eqb subject_type "lab" then
    let specialized_classrooms :=
      _get_specialized_classrooms_for_subject subject_id in
    if Py.list_truthy specialized_classrooms then specialized_classrooms
    else
      List.filter
        (fun c =>
           String.eqb (Classroom.type c) "lab"
           && (negb (Py.opt_truthy (Classroom.specialization c))
               || specialization_blank c))
        (classrooms self)
  else
    let available_classrooms := [] in
    let available_classrooms :=
      match teacher_by_id teacher_id with
      | Some teacher =>
          if Py.opt_truthy (Teacher.home_classroom teacher) then
            match
              Py.next
                (fun c => Py.opt_eqb (Teacher.home_classroom teacher)
                            (Classroom.id c))
                (classrooms self)
            with
            | Some teacher_lab =>
                if String.eqb (Classroom.type teacher_lab) "teacher_lab"
                then available_classrooms ++ [teacher_lab]
                else available_classrooms
            | None => available_classrooms
            end
          else available_classrooms
      | None => available_classrooms
      end in
    let theory_classrooms :=
      List.filter (fun c => String.eqb (Classroom.type c) "theory")
        (classrooms self) in
    let available_classrooms := available_classrooms ++ theory_classrooms in
    let unassigned_teacher_labs :=
      List.filter
        (fun c =>
           String.eqb (Classroom.type c) "teacher_lab"
           && negb (existsb
                      (fun t => Py.opt_eqb (Teacher.home_classroom t)
                                  (Classroom.id c))
                      (teachers self)))
        (classrooms self) in
    available_classrooms ++ unassigned_teacher_labs.

Definition _get_suitable_classrooms_for_subject_type
  (subject_type subject_id : string) : list Classroom.t :=
  if String.eqb subject_type "lab" then
    let specialized := _get_specialized_classrooms_for_subject subject_id in
    if Py.list_truthy specialized then specialized
    else
      List.filter
        (fun c => String.eqb (Classroom.type c) "lab"
                  && negb (Py.opt_truthy (Classroom.specialization c)))
        (classrooms self)
  else
    List.filter
      (fun c => Py.str_in (Classroom.type c) ["theory"; "teacher_lab"])
      (classrooms self).

Definition _is_slot_available (st : State)
  (group_id teacher_id classroom_id day : string) (lesson_number : Z) : bool :=
  let has_conflict :=
    existsb
      (fun slot =>
         (String.eqb (Slot.class_group_id slot) group_id
          || String.eqb (Slot.teacher_id slot) teacher_id
          || String.eqb (Slot.classroom_id slot) classroom_id)
         && String.eqb (Slot.day slot) day
         && (Slot.lesson_number slot =? lesson_number))
      (schedule st) in
  if has_conflict then false
  else
    match classroom_by_id classroom_id with
    | Some classroom =>
        if String.eqb (Classroom.type classroom) "teacher_lab" then
          match owner_of (Classroom.id classroom) with
          | Some owner =>
              if negb (String.eqb (Teacher.id owner) teacher_id) then false
              else true
          | None => true
          end
        else true
    | None => true
    end.

Definition _score_slot (st : State) (slot : Slot.t)
  (requirement : Requirement.t) : Z :=
  let score := 0 in
  let day_index :=
    if Py.str_in (Slot.day slot) (Institution.working_days (institution self))
    then default 0 (index (Slot.day slot)
                      (Institution.working_days (institution self)))
    else 0 in
  let score :=
    score + (Py.len (Institution.working_days (institution self)) - day_index) * 2 in
  let middle_lesson := (Institution.lessons_per_day (institution self) + 1) / 2 in
  let lesson_distance := Z.abs (Slot.lesson_number slot - middle_lesson) in
  let score :=
    score + (Institution.lessons_per_day (institution self) - lesson_distance) * 3 in
  let group_lessons_on_day :=
    Py.len
      (List.filter
         (fun s => String.eqb (Slot.class_group_id s) (Slot.class_group_id slot)
                   && String.eqb (Slot.day s) (Slot.day slot))
         (schedule st)) in
  let score := score - group_lessons_on_day * 5 in
  let score :=
    match teacher_by_id (Slot.teacher_id slot) with
    | Some teacher =>
        if Py.opt_eqb (Teacher.home_classroom teacher) (Slot.classroom_id slot)
        then score + 100 else score
    | None => score
    end in
  let score :=
    match classroom_by_id (Slot.classroom_id slot) with
    | Some classroom =>
        if String.eqb (Classroom.type classroom) "lab"
           && Py.opt_truthy (Classroom.specialization classroom)
        then
          let allowed_subjects := specialization_subjects classroom in
          if Py.str_in (Requirement.subject_id requirement) allowed_subjects
          then score + 50 else score
        else score
    | None => score
    end in
  let score :=
    if String.eqb (Requirement.subject_type requirement) "lab" then
      let has_consecutive :=
        existsb
          (fun s =>
             String.eqb (Slot.class_group_id s) (Slot.class_group_id slot)
             && String.eqb (Slot.subject_id s) (Slot.subject_id slot)
             && String.eqb (Slot.day s) (Slot.day slot)
             && (Z.abs (Slot.lesson_number s - Slot.lesson_number slot) =? 1))
          (schedule st) in
      if has_consecutive then score + 15 else score
    else score in
  score.

(** [scored_slots.sort(key=lambda x: x[1], reverse=True)] keeps equal
    scores in their original order, as a stable ascending sort on the
    negated score does. *)
Definition _select_best_slot (st : State) (available_slots : list Slot.t)
  (requirement : Requirement.t) : option Slot.t :=
  if negb (Py.list_truthy available_slots) then None
  else
    let scored_slots :=
      List.map (fun slot => (slot, _score_slot st slot requirement))
        available_slots in
    let scored_slots := Py.sorted (fun x => - snd x) scored_slots in
    match scored_slots with
    | x :: _ => Some (fst x)
    | [] => None
    end.

Definition _find_available_slots (st : State) (requirement : Requirement.t)
  : Py.Result (list Slot.t) :=
  Py.for_each (Institution.working_days (institution self))
    (fun day =>
       Py.for_each (Py.range 1 (Institution.lessons_per_day (institution self) + 1))
         (fun lesson_number =>
            Py.for_each (Requirement.available_teacher_ids requirement)
              (fun teacher_id available_slots =>
                 match teacher_by_id teacher_id with
                 | None => Py.Ok available_slots
                 | Some teacher =>
                     if negb (teacher_available teacher day lesson_number)
                     then Py.Ok available_slots
                     else
                       let suitable_classrooms :=
                         _get_suitable_classrooms_for_teacher
                           (Requirement.subject_type requirement)
                           (Requirement.subject_id requirement) teacher_id in
                       Py.for_each suitable_classrooms
                         (fun classroom available_slots =>
                            if _is_slot_available st
                                 (Requirement.group_id requirement) teacher_id
                                 (Classroom.id classroom) day lesson_number
                            then
                              Py.bind (_calculate_lesson_time lesson_number)
                                (fun '(start_time, end_time) =>
                                   Py.Ok
                                     (available_slots ++
                                      [Slot.mk (Py.len available_slots) day
                                         lesson_number
                                         (Requirement.group_id requirement)
                                         (Requirement.subject_id requirement)
                                         teacher_id (Classroom.id classroom)
                                         start_time end_time]))
                            else Py.Ok available_slots)
                         available_slots
                 end)))
    [].

(** [_schedule_lesson] raises only from [_find_available_slots], before it
    touches [self]; otherwise it returns the new state with its verdict. *)
Definition _schedule_lesson (st : State) (requirement : Requirement.t)
  : Py.Result (State * bool) :=
  Py.bind (_find_available_slots st requirement) (fun available_slots =>
  if negb (Py.list_truthy available_slots) then
    Py.Ok (log st ("⚠️ No available slots for "
                   +:+ Requirement.subject_name requirement +:+ " - "
                   +:+ Requirement.group_name requirement), false)
  else
    match _select_best_slot st available_slots requirement with
    | Some best_slot =>
        let st := {| schedule := schedule st ++ [best_slot]; logs := logs st |} in
        let classroom := classroom_by_id (Slot.classroom_id best_slot) in
        let teacher := teacher_by_id (Slot.teacher_id best_slot) in
        let room_info :=
          match classroom with
          | Some classroom => "room " +:+ Classroom.number classroom
          | None => "unknown room"
          end in
        let room_info :=
          match classroom with
          | Some classroom =>
              if String.eqb (Classroom.type classroom) "teacher_lab" then
                match owner_of (Classroom.id classroom) with
                | Some owner =>
                    room_info +:+ " (" +:+ Teacher.first_name owner +:+ " "
                    +:+ Teacher.last_name owner +:+ "'s lab)"
                | None => room_info
                end
              else room_info
          | None => room_info
          end in
        let teacher_name :=
          match teacher with
          | Some teacher =>
              Teacher.first_name teacher +:+ " " +:+ Teacher.last_name teacher
          | None => "unknown teacher"
          end in
        Py.Ok (log st ("✅ Scheduled " +:+ Requirement.subject_name requirement
                       +:+ " for " +:+ Requirement.group_name requirement
                       +:+ " on " +:+ Slot.day best_slot +:+ " lesson "
                       +:+ Py.str (Slot.lesson_number best_slot) +:+ " in "
                       +:+ room_info +:+ " with " +:+ teacher_name), true)
    | None => Py.Ok (st, false)
    end).

(** Teacher objects are compared by identity in the conflict analysis
    ([owner not in available_teachers_for_slot]): there a teacher object is
    its position in [self.teachers] with its fields. *)
Definition teacher_objects : list (nat * Teacher.t) :=
  combine (seq 0 (List.length (teachers self))) (teachers self).

Definition object_in (x : nat * Teacher.t) (l : list (nat * Teacher.t)) : bool :=
  existsb (fun y => Nat.eqb (fst y) (fst x)) l.

Record ConflictSummary := {
  teacher_conflicts : Z;
  classroom_conflicts : Z;
  group_conflicts : Z;
  teacher_unavailable : Z;
  total_slots_checked : Z
}.

(** A loop whose body may [return] from the enclosing method: [inl] carries
    the loop state on, [inr] is the method's result. *)
Fixpoint scan {A S R} (l : list A) (body : A -> S -> S + R) (s : S) : S + R :=
  match l with
  | [] => inl s
  | x :: l' =>
      match body x s with
      | inl s' => scan l' body s'
      | inr r => inr r
      end
  end.

Definition busy_at (st : State) (who : Slot.t -> string) (id : string)
  (day : string) (lesson_number : Z) : bool :=
  existsb
    (fun s => String.eqb (who s) id
              && String.eqb (Slot.day s) day
              && (Slot.lesson_number s =? lesson_number))
    (schedule st).

Definition _analyze_time_slot_conflicts (st : State)
  (requirement : Requirement.t) (available_teachers : list (nat * Teacher.t))
  (suitable_classrooms : list Classroom.t) : State :=
  let st :=
    log st ("   🔍 Analyzing time conflicts for "
            +:+ Py.str (Py.len available_teachers) +:+ " teachers and "
            +:+ Py.str (Py.len suitable_classrooms) +:+ " classrooms") in
  let conflict_summary := Build_ConflictSummary 0 0 0 0 0 in
  let scanned :=
    scan (Institution.working_days (institution self))
      (fun day =>
         scan (Py.range 1 (Institution.lessons_per_day (institution self) + 1))
           (fun lesson_number cs =>
              let cs :=
                Build_ConflictSummary (teacher_conflicts cs)
                  (classroom_conflicts cs) (group_conflicts cs)
                  (teacher_unavailable cs) (total_slots_checked cs + 1) in
              let group_busy :=
                busy_at st Slot.class_group_id (Requirement.group_id requirement)
                  day lesson_number in
              if group_busy then
                inl (Build_ConflictSummary (teacher_conflicts cs)
                       (classroom_conflicts cs) (group_conflicts cs + 1)
                       (teacher_unavailable cs) (total_slots_checked cs))
              else
                let '(available_teachers_for_slot, cs) :=
                  fold_left
                    (fun '(acc, cs) teacher =>
                       if teacher_available (snd teacher) day lesson_number then
                         let teacher_busy :=
                           busy_at st Slot.teacher_id (Teacher.id (snd teacher))
                             day lesson_number in
                         if negb teacher_busy then (acc ++ [teacher], cs)
                         else
                           (acc,
                            Build_ConflictSummary (teacher_conflicts cs + 1)
                              (classroom_conflicts cs) (group_conflicts cs)
                              (teacher_unavailable cs) (total_slots_checked cs))
                       else
                         (acc,
                          Build_ConflictSummary (teacher_conflicts cs)
                            (classroom_conflicts cs) (group_conflicts cs)
                            (teacher_unavailable cs + 1) (total_slots_checked cs)))
                    available_teachers ([], cs) in
                if negb (Py.list_truthy available_teachers_for_slot) then inl cs
                else
                  let '(available_classrooms_for_slot, cs) :=
                    fold_left
                      (fun '(acc, cs) classroom =>
                         let classroom_busy :=
                           busy_at st Slot.classroom_id (Classroom.id classroom)
                             day lesson_number in
                         if negb classroom_busy then
                           let skip :=
                             if String.eqb (Classroom.type classroom) "teacher_lab"
                             then
                               match
                                 Py.next
                                   (fun t => Py.opt_eqb
                                               (Teacher.home_classroom (snd t))
                                               (Classroom.id classroom))
                                   teacher_objects
                               with
                               | Some owner =>
                                   negb (object_in owner available_teachers_for_slot)
                               | None => false
                               end
                             else false in
                           if skip then (acc, cs) else (acc ++ [classroom], cs)
                         else
                           (acc,
                            Build_ConflictSummary (teacher_conflicts cs)
                              (classroom_conflicts cs + 1) (group_conflicts cs)
                              (teacher_unavailable cs) (total_slots_checked cs)))
                      suitable_classrooms ([], cs) in
                  if Py.list_truthy available_classrooms_for_slot then
                    inr (log st ("   ✅ Found potential slot: " +:+ day
                                 +:+ " lesson " +:+ Py.str lesson_number
                                 +:+ " with "
                                 +:+ Py.str (Py.len available_teachers_for_slot)
                                 +:+ " teachers and "
                                 +:+ Py.str (Py.len available_classrooms_for_slot)
                                 +:+ " classrooms"))
                  else inl cs))
      conflict_summary in
  match scanned with
  | inr st => st
  | inl cs =>
      let st := log st "   📊 Conflict analysis results:" in
      let st := log st ("      • Total time slots checked: "
                        +:+ Py.str (total_slots_checked cs)) in
      let st := log st ("      • Group already scheduled: "
                        +:+ Py.str (group_conflicts cs) +:+ " slots") in
      let st := log st ("      • Teachers already scheduled: "
                        +:+ Py.str (teacher_conflicts cs) +:+ " conflicts") in
      let st := log st ("      • Teachers not available: "
                        +:+ Py.str (teacher_unavailable cs) +:+ " conflicts") in
      let st := log st ("      • Classrooms already scheduled: "
                        +:+ Py.str (classroom_conflicts cs) +:+ " conflicts") in
      if teacher_unavailable cs >? teacher_conflicts cs then
        log st "   💡 RECOMMENDATION: Increase teacher availability hours for this subject"
      else if classroom_conflicts cs >? teacher_conflicts cs then
        log st ("   💡 RECOMMENDATION: Add more "
                +:+ Requirement.subject_type requirement
                +:+ " classrooms or reduce classroom usage")
      else if group_conflicts cs >? 0 then
        log st "   💡 RECOMMENDATION: The group schedule is too dense, consider reducing total lessons"
      else
        log st "   💡 RECOMMENDATION: Complex scheduling conflict - try adjusting teacher hours or adding resources"
  end.

(** The five messages of the classroom check (step 4). *)
Definition msg_specialized_labs_unavailable (n : Z) : string :=
  "   🚫 CRITICAL: Subject requires specialized lab but all " +:+ Py.str n
  +:+ " specialized labs are unavailable".
Definition msg_no_labs : string :=
  "   🚫 CRITICAL: No laboratory classrooms available in the system".
Definition msg_general_labs_unavailable (n : Z) : string :=
  "   🚫 CRITICAL: All " +:+ Py.str n
  +:+ " general laboratory classrooms are unavailable".
Definition msg_no_theory : string :=
  "   🚫 CRITICAL: No theory classrooms available in the system".
Definition msg_theory_unavailable (n : Z) : string :=
  "   🚫 CRITICAL: All " +:+ Py.str n +:+ " theory classrooms are unavailable".

(** The branch of [_analyze_scheduling_failure] taken when
    [suitable_classrooms] is empty. *)
Definition report_no_suitable_classroom (st : State)
  (requirement : Requirement.t) : State :=
  if String.eqb (Requirement.subject_type requirement) "lab" then
    let specialized_labs :=
      _get_specialized_classrooms_for_subject (Requirement.subject_id requirement) in
    if Py.list_truthy specialized_labs then
      let st := log st (msg_specialized_labs_unavailable (Py.len specialized_labs)) in
      fold_left
        (fun st lab =>
           let occupied_slots :=
             List.filter
               (fun s => String.eqb (Slot.classroom_id s) (Classroom.id lab))
               (schedule st) in
           log st ("      📍 Lab " +:+ Classroom.number lab +:+ ": "
                   +:+ Py.str (Py.len occupied_slots) +:+ " slots occupied"))
        specialized_labs st
    else
      let general_labs :=
        List.filter
          (fun c => String.eqb (Classroom.type c) "lab"
                    && negb (Py.opt_truthy (Classroom.specialization c)))
          (classrooms self) in
      if negb (Py.list_truthy general_labs) then log st msg_no_labs
      else log st (msg_general_labs_unavailable (Py.len general_labs))
  else
    let theory_classrooms :=
      List.filter
        (fun c => Py.str_in (Classroom.type c) ["theory"; "teacher_lab"])
        (classrooms self) in
    if negb (Py.list_truthy theory_classrooms) then log st msg_no_theory
    else log st (msg_theory_unavailable (Py.len theory_classrooms)).

Definition _analyze_scheduling_failure (st : State)
  (requirement : Requirement.t) : State :=
  let st :=
    log st ("❌ Failed to schedule: " +:+ Requirement.subject_name requirement
            +:+ " for " +:+ Requirement.group_name requirement) in
  if negb (Py.list_truthy (Requirement.available_teacher_ids requirement)) then
    log st ("   🚫 CRITICAL: No teachers assigned to subject " +:+ Py.quote
            +:+ Requirement.subject_name requirement +:+ Py.quote)
  else
    let '(existing_teachers, st) :=
      fold_left
        (fun '(existing_teachers, st) teacher_id =>
           match
             Py.next (fun t => String.eqb (Teacher.id (snd t)) teacher_id)
               teacher_objects
           with
           | Some teacher => (existing_teachers ++ [teacher], st)
           | None =>
               (existing_teachers,
                log st ("   ⚠️ WARNING: Teacher ID " +:+ teacher_id
                        +:+ " assigned to subject but not found in system"))
           end)
        (Requirement.available_teacher_ids requirement) ([], st) in
    if negb (Py.list_truthy existing_teachers) then
      log st "   🚫 CRITICAL: None of the assigned teachers exist in the system"
    else
      let '(teachers_with_availability, st) :=
        fold_left
          (fun '(teachers_with_availability, st) teacher =>
             let total_available_hours :=
               fold_right Z.add 0
                 (List.map (fun kv => Py.len (snd kv))
                    (map_to_list (Teacher.available_hours (snd teacher)))) in
             if total_available_hours >? 0
             then (teachers_with_availability ++ [teacher], st)
             else
               (teachers_with_availability,
                log st ("   ⚠️ Teacher " +:+ Teacher.first_name (snd teacher)
                        +:+ " " +:+ Teacher.last_name (snd teacher)
                        +:+ " has no available hours set")))
          existing_teachers ([], st) in
      if negb (Py.list_truthy teachers_with_availability) then
        log st "   🚫 CRITICAL: None of the assigned teachers have any available hours"
      else
        let suitable_classrooms :=
          _get_suitable_classrooms_for_subject_type
            (Requirement.subject_type requirement)
            (Requirement.subject_id requirement) in
        if negb (Py.list_truthy suitable_classrooms)
        then report_no_suitable_classroom st requirement
        else
          _analyze_time_slot_conflicts st requirement
            teachers_with_availability suitable_classrooms.

Definition lessons_of_group_on (st : State) (group_id day : string) : Z :=
  Py.len
    (List.filter
       (fun s => String.eqb (Slot.class_group_id s) group_id
                 && String.eqb (Slot.day s) day)
       (schedule st)).

(** [_optimize_schedule_distribution] only reads the schedule and writes
    log lines.  [daily_lessons] is keyed by day; its maximum and minimum are
    those of the counts over [working_days].  The set of subject ids of a
    lab is consulted for membership only. *)
Definition _optimize_schedule_distribution (st : State) : State :=
  let st := log st "🔧 Optimizing schedule distribution..." in
  let st :=
    fold_left
      (fun st group =>
         let daily_lessons :=
           List.map (lessons_of_group_on st (ClassGroup.id group))
             (Institution.working_days (institution self)) in
         let max_lessons :=
           match daily_lessons with
           | [] => 0
           | x :: l => fold_left Z.max l x
           end in
         let min_lessons :=
           match daily_lessons with
           | [] => 0
           | x :: l => fold_left Z.min l x
           end in
         if max_lessons - min_lessons >? 2 then
           log st ("⚠️ Uneven distribution for group " +:+ ClassGroup.name group
                   +:+ ": " +:+ Py.str min_lessons +:+ "-"
                   +:+ Py.str max_lessons +:+ " lessons per day")
         else st)
      (class_groups self) st in
  let specialized_labs :=
    List.filter
      (fun c => String.eqb (Classroom.type c) "lab"
                && Py.opt_truthy (Classroom.specialization c))
      (classrooms self) in
  let st :=
    fold_left
      (fun st lab =>
         let lessons_in_lab :=
           List.filter
             (fun s => String.eqb (Slot.classroom_id s) (Classroom.id lab))
             (schedule st) in
         let subject_ids := List.map Slot.subject_id lessons_in_lab in
         let allowed_subjects :=
           if Py.opt_truthy (Classroom.specialization lab)
           then specialization_subjects lab else [] in
         let st :=
           log st ("🏫 Specialized Lab " +:+ Classroom.number lab +:+ ": "
                   +:+ Py.str (Py.len lessons_in_lab) +:+ " lessons") in
         let unauthorized_subjects :=
           List.filter
             (fun subject_id => negb (Py.str_in subject_id allowed_subjects))
             subject_ids in
         if Py.list_truthy unauthorized_subjects then
           log st ("⚠️ Room " +:+ Classroom.number lab
                   +:+ ": Unauthorized subjects detected!")
         else
           log st ("✅ Room " +:+ Classroom.number lab
                   +:+ ": Only authorized subjects scheduled"))
      specialized_labs st in
  let teacher_labs :=
    List.filter (fun c => String.eqb (Classroom.type c) "teacher_lab")
      (classrooms self) in
  let st :=
    fold_left
      (fun st lab =>
         let owner := owner_of (Classroom.id lab) in
         let lessons_in_lab :=
           List.filter
             (fun s => String.eqb (Slot.classroom_id s) (Classroom.id lab))
             (schedule st) in
         match owner with
         | Some owner =>
             let owner_lessons :=
               List.filter
                 (fun s => String.eqb (Slot.teacher_id s) (Teacher.id owner))
                 lessons_in_lab in
             let other_teacher_lessons :=
               List.filter
                 (fun s => negb (String.eqb (Slot.teacher_id s) (Teacher.id owner)))
                 lessons_in_lab in
             let st :=
               log st ("👨‍🏫 Teacher Lab " +:+ Classroom.number lab +:+ " ("
                       +:+ Teacher.first_name owner +:+ " "
                       +:+ Teacher.last_name owner +:+ "): "
                       +:+ Py.str (Py.len lessons_in_lab) +:+ " total lessons") in
             let st :=
               log st ("   📚 Owner's lessons: "
                       +:+ Py.str (Py.len owner_lessons)) in
             if Py.list_truthy other_teacher_lessons then
               log st ("   ⚠️ Other teachers' lessons: "
                       +:+ Py.str (Py.len other_teacher_lessons)
                       +:+ " (This should not happen!)")
             else log st "   ✅ Only owner uses this lab"
         | None =>
             log st ("🏫 Unassigned Teacher Lab " +:+ Classroom.number lab
                     +:+ ": " +:+ Py.str (Py.len lessons_in_lab)
                     +:+ " lessons (available to all)")
         end)
      teacher_labs st in
  log st "✅ Distribution optimization complete".

(** The [for requirement in sorted_requirements] loop of
    [generate_schedule], with its two counters.  An exception leaves the
    loop with the state reached so far. *)
Fixpoint schedule_requirements (requirements : list Requirement.t)
  (st : State) (scheduled_count failed_count : Z)
  : State * Py.Result (Z * Z) :=
  match requirements with
  | [] => (st, Py.Ok (scheduled_count, failed_count))
  | requirement :: rest =>
      match _schedule_lesson st requirement with
      | Py.Raise e => (st, Py.Raise e)
      | Py.Ok (st, true) =>
          schedule_requirements rest st (scheduled_count + 1) failed_count
      | Py.Ok (st, false) =>
          let st := _analyze_scheduling_failure st requirement in
          schedule_requirements rest st scheduled_count (failed_count + 1)
      end
  end.

(** [str(error)] of a caught exception is the interpreter's text. *)
Variable str_error : Py.Error -> string.

(** The [except Exception] handler. *)
Definition generation_error (st : State) (e : Py.Error) : GenerationResult :=
  let st := log st ("💥 Generation error: " +:+ str_error e) in
  {| success := false; result_schedule := []; error := Some (str_error e);
     result_logs := logs st |}.

(** [generate_schedule], entered with [self.schedule] and [self.logs] as
    [st] holds them. *)
Definition generate_schedule (st : State) : GenerationResult :=
  let st := log st "🚀 Starting smart schedule generation..." in
  let st := {| schedule := []; logs := [] |} in
  match _validate_input_data with
  | Invalid e =>
      {| success := false; result_schedule := []; error := Some e;
         result_logs := logs st |}
  | Valid =>
      let st := log st "✅ Input validation passed" in
      let st := _log_classroom_info st in
      match _generate_lesson_requirements with
      | Py.Raise e => generation_error st e
      | Py.Ok lesson_requirements =>
          let st :=
            log st ("📋 Generated " +:+ Py.str (Py.len lesson_requirements)
                    +:+ " lesson requirements") in
          let sorted_requirements :=
            _prioritize_requirements lesson_requirements in
          let st := log st "🔄 Prioritized lesson requirements" in
          match schedule_requirements sorted_requirements st 0 0 with
          | (st, Py.Raise e) => generation_error st e
          | (st, Py.Ok (scheduled_count, failed_count)) =>
              let st :=
                log st ("✅ Scheduling complete: " +:+ Py.str scheduled_count
                        +:+ " scheduled, " +:+ Py.str failed_count
                        +:+ " failed") in
              if scheduled_count =? 0 then
                {| success := false; result_schedule := [];
                   error := Some "No lessons could be scheduled. Check teacher availability and classroom assignments.";
                   result_logs := logs st |}
              else
                let st := _optimize_schedule_distribution st in
                {| success := true; result_schedule := schedule st;
                   error := None; result_logs := logs st |}
          end
      end
  end.

End Methods.

(** * Vocabulary of the properties *)

(** The head of a sorted list carries a least key. *)
Definition head_least {A} (key : A -> Z) (l : list A) : Prop :=
  match l with
  | [] => True
  | h :: _ => forall y, In y l -> key h <= key y
  end.

(** What [_find_available_slots] asks of a slot before it offers it for a
    requirement, the committed schedule being that of [st]. *)
Record feasible (self : ScheduleGenerator) (st : State)
  (r : Requirement.t) (s : Slot.t) : Prop := {
  feasible_day :
    In (Slot.day s) (Institution.working_days (institution self));
  feasible_lesson :
    1 <= Slot.lesson_number s <= Institution.lessons_per_day (institution self);
  feasible_group : Slot.class_group_id s = Requirement.group_id r;
  feasible_subject : Slot.subject_id s = Requirement.subject_id r;
  feasible_listed :
    In (Slot.teacher_id s) (Requirement.available_teacher_ids r);
  feasible_teacher :
    exists teacher,
      teacher_by_id self (Slot.teacher_id s) = Some teacher
      /\ teacher_available teacher (Slot.day s) (Slot.lesson_number s) = true;
  feasible_classroom :
    exists classroom,
      In classroom
        (_get_suitable_classrooms_for_teacher self (Requirement.subject_type r)
           (Requirement.subject_id r) (Slot.teacher_id s))
      /\ Slot.classroom_id s = Classroom.id classroom;
  feasible_free :
    _is_slot_available self st (Slot.class_group_id s) (Slot.teacher_id s)
      (Slot.classroom_id s) (Slot.day s) (Slot.lesson_number s) = true
}.

(** Two committed slots, at different positions of the schedule, that share
    day and lesson number differ in group, in teacher and in classroom. *)
Definition no_double_booking (sched : list Slot.t) : Prop :=
  forall i j s1 s2,
    i <> j ->
    nth_error sched i = Some s1 ->
    nth_error sched j = Some s2 ->
    Slot.day s1 = Slot.day s2 ->
    Slot.lesson_number s1 = Slot.lesson_number s2 ->
    Slot.class_group_id s1 <> Slot.class_group_id s2
    /\ Slot.teacher_id s1 <> Slot.teacher_id s2
    /\ Slot.classroom_id s1 <> Slot.classroom_id s2.

(** A slot whose classroom (the one its [classroom_id] resolves to) is a
    [teacher_lab] with an owner (the teacher [owner_of] finds) is taught by
    that owner. *)
Definition owner_only (self : ScheduleGenerator) (s : Slot.t) : Prop :=
  forall classroom owner,
    classroom_by_id self (Slot.classroom_id s) = Some classroom ->
    Classroom.type classroom = "teacher_lab" ->
    owner_of self (Classroom.id classroom) = Some owner ->
    Slot.teacher_id s = Teacher.id owner.

(** A slot lies on a working day, at a lesson number of the day. *)
Definition in_grid (self : ScheduleGenerator) (s : Slot.t) : Prop :=
  In (Slot.day s) (Institution.working_days (institution self))
  /\ 1 <= Slot.lesson_number s <= Institution.lessons_per_day (institution self).

(** The state in which the scheduling loop stands after the first [n] of
    the requirements, started with an empty schedule. *)
Definition state_after (self : ScheduleGenerator)
  (requirements : list Requirement.t) (logs0 : list string) (n : nat) : State :=
  fst (schedule_requirements self (firstn n requirements)
         {| schedule := []; logs := logs0 |} 0 0).

(** The requirements that one entry of a group's [subject_hours] adds to
    the list. *)
Definition emitted (self : ScheduleGenerator) (group : ClassGroup.t)
  (entry : string * Z) : list Requirement.t :=
  match requirements_of_entry self group entry [] with
  | Py.Ok l => l
  | Py.Raise _ => []
  end.









(** A lab specialized for a subject: its specialization lists the subject.
    A lab without specialization, as the specification speaks of it: the
    column holds no string, or the empty one. *)
Definition specialized_for (subject_id : string) (c : Classroom.t) : bool :=
  String.eqb (Classroom.type c) "lab"
  && Py.opt_truthy (Classroom.specialization c)
  && Py.str_in subject_id (specialization_subjects c).

Definition unspecialized_lab (c : Classroom.t) : bool :=
  String.eqb (Classroom.type c) "lab"
  && negb (Py.opt_truthy (Classroom.specialization c)).

(** A lab whose specialization is absent, empty or made of whitespace. *)
Definition blank_lab (c : Classroom.t) : bool :=
  String.eqb (Classroom.type c) "lab"
  && (negb (Py.opt_truthy (Classroom.specialization c))
      || specialization_blank c).

(** ** A small college, on which the generator is run *)

Module Sample.

Definition college : Institution.t :=
  Institution.mk ["Monday"; "Tuesday"; "Wednesday"; "Thursday"; "Friday"]
    4 70 [10; 20; 10] "09:00" 40.

Definition every_day (hours : list Z) : gmap string (list Z) :=
  list_to_map
    (List.map (fun day => (day, hours)) (Institution.working_days college)).

Definition group : ClassGroup.t :=
  ClassGroup.mk "g1" "Group 1" 25 [("chem", 80); ("math", 40)].

Definition chemistry : Subject.t := Subject.mk "chem" "Chemistry" "lab" ["t1"].
Definition mathematics : Subject.t := Subject.mk "math" "Mathematics" "theory" ["t2"].

Definition ann : Teacher.t :=
  Teacher.mk "t1" "Ann" "Lee" (every_day [1; 2]) None.
Definition bob : Teacher.t :=
  Teacher.mk "t2" "Bob" "Ray" (every_day [1; 2; 3]) (Some "c3").

Definition chemistry_lab : Classroom.t := Classroom.mk "c1" "101" "lab" (Some "chem").
Definition lecture_room : Classroom.t := Classroom.mk "c2" "102" "theory" None.
Definition bobs_room : Classroom.t := Classroom.mk "c3" "103" "teacher_lab" None.

Definition generator : ScheduleGenerator :=
  {| institution := college;
     class_groups := [group];
     subjects := [chemistry; mathematics];
     teachers := [ann; bob];
     classrooms := [chemistry_lab; lecture_room; bobs_room] |}.

Definition empty_state : State := {| schedule := []; logs := [] |}.

Definition chemistry_requirement : Requirement.t :=
  Requirement.mk "g1-chem-0" "g1" "Group 1" "chem" "Chemistry" "lab" ["t1"] (-31).

Definition mathematics_requirement : Requirement.t :=
  Requirement.mk "g1-math-0" "g1" "Group 1" "math" "Mathematics" "theory" ["t2"] (-1).

(** The slot the first chemistry lesson is committed to, and the one the
    mathematics lesson is committed to. *)
Definition chemistry_slot : Slot.t :=
  Slot.mk 1 "Monday" 2 "g1" "chem" "t1" "c1" "10:20" "11:30".

Definition mathematics_slot : Slot.t :=
  Slot.mk 2 "Monday" 2 "g1" "math" "t2" "c3" "10:20" "11:30".

Definition no_message (e : Py.Error) : string := "error".

(** The same college before any class group is entered. *)
Definition without_groups : ScheduleGenerator :=
  {| institution := college;
     class_groups := [];
     subjects := [chemistry; mathematics];
     teachers := [ann; bob];
     classrooms := [chemistry_lab; lecture_room; bobs_room] |}.

(** A college whose two labs are a general one and one whose
    specialization was saved as a single space. *)
Definition general_lab : Classroom.t := Classroom.mk "c4" "104" "lab" None.
Definition spaced_lab : Classroom.t := Classroom.mk "c5" "105" "lab" (Some " ").

Definition with_spaced_lab : ScheduleGenerator :=
  {| institution := college;
     class_groups := [group];
     subjects := [chemistry; mathematics];
     teachers := [ann; bob];
     classrooms := [general_lab; spaced_lab] |}.

(** The slots that the search offers for the mathematics lesson, the first
    in Bob's own room and the second in the lecture room at the same time. *)
Definition mathematics_candidates : list Slot.t :=
  match _find_available_slots generator empty_state mathematics_requirement with
  | Py.Ok l => l
  | Py.Raise _ => []
  end.

Definition home_slot : Slot.t :=
  Slot.mk 0 "Monday" 1 "g1" "math" "t2" "c3" "09:00" "10:10".

Definition other_slot : Slot.t :=
  Slot.mk 1 "Monday" 1 "g1" "math" "t2" "c2" "09:00" "10:10".

(** A college with one lesson a week and one lab, specialized for
    chemistry, which two groups need. *)
Definition one_lesson_week : Institution.t :=
  Institution.mk ["Monday"] 1 70 [] "09:00" 40.

Definition monday_first : gmap string (list Z) := {[ "Monday" := [1] ]}.

Definition crowded : ScheduleGenerator :=
  {| institution := one_lesson_week;
     class_groups :=
       [ClassGroup.mk "g1" "Group 1" 25 [("chem", 40)];
        ClassGroup.mk "g2" "Group 2" 25 [("chem", 40)]];
     subjects := [Subject.mk "chem" "Chemistry" "lab" ["t1"; "t2"]];
     teachers :=
       [Teacher.mk "t1" "Ann" "Lee" monday_first None;
        Teacher.mk "t2" "Bob" "Ray" monday_first None];
     classrooms := [chemistry_lab] |}.

(** The three requirements of [generator], and the state in which the loop
    leaves them. *)
Definition requirements : list Requirement.t :=
  [chemistry_requirement;
   Requirement.mk "g1-chem-1" "g1" "Group 1" "chem" "Chemistry" "lab" ["t1"] (-31);
   mathematics_requirement].

Definition final_schedule : list Slot.t :=
  [chemistry_slot;
   Slot.mk 0 "Monday" 1 "g1" "chem" "t1" "c1" "09:00" "10:10";
   Slot.mk 4 "Tuesday" 2 "g1" "math" "t2" "c3" "10:20" "11:30"].

Definition final_state : State :=
  {| schedule := final_schedule;
     logs :=
       ["✅ Scheduled Chemistry for Group 1 on Monday lesson 2 in room 101 with Ann Lee";
        "✅ Scheduled Chemistry for Group 1 on Monday lesson 1 in room 101 with Ann Lee";
        "✅ Scheduled Mathematics for Group 1 on Tuesday lesson 2 in room 103 (Bob Ray's lab) with Bob Ray"] |}.

End Sample.

(** ** The loops of [_find_available_slots], body by body *)

(** The body of the loop over [suitable_classrooms]. *)
Definition try_classroom (self : ScheduleGenerator) (st : State)
  (r : Requirement.t) (day : string) (lesson_number : Z) (teacher_id : string)
  (classroom : Classroom.t) (available_slots : list Slot.t)
  : Py.Result (list Slot.t) :=
  if _is_slot_available self st (Requirement.group_id r) teacher_id
       (Classroom.id classroom) day lesson_number
  then
    Py.bind (_calculate_lesson_time self lesson_number)
      (fun '(start_time, end_time) =>
         Py.Ok
           (available_slots ++
            [Slot.mk (Py.len available_slots) day lesson_number
               (Requirement.group_id r) (Requirement.subject_id r)
               teacher_id (Classroom.id classroom) start_time end_time]))
  else Py.Ok available_slots.

(** The body of the loop over [requirement.available_teacher_ids]. *)
Definition try_teacher (self : ScheduleGenerator) (st : State)
  (r : Requirement.t) (day : string) (lesson_number : Z) (teacher_id : string)
  (available_slots : list Slot.t) : Py.Result (list Slot.t) :=
  match teacher_by_id self teacher_id with
  | None => Py.Ok available_slots
  | Some teacher =>
      if negb (teacher_available teacher day lesson_number)
      then Py.Ok available_slots
      else
        Py.for_each
          (_get_suitable_classrooms_for_teacher self
             (Requirement.subject_type r) (Requirement.subject_id r) teacher_id)
          (try_classroom self st r day lesson_number teacher_id)
          available_slots
  end.

(** The bodies of the loops over the lesson numbers and over the days. *)
Definition try_lesson (self : ScheduleGenerator) (st : State)
  (r : Requirement.t) (day : string) (lesson_number : Z)
  : list Slot.t -> Py.Result (list Slot.t) :=
  Py.for_each (Requirement.available_teacher_ids r)
    (try_teacher self st r day lesson_number).

Definition try_day (self : ScheduleGenerator) (st : State)
  (r : Requirement.t) (day : string)
  : list Slot.t -> Py.Result (list Slot.t) :=
  Py.for_each (Py.range 1 (Institution.lessons_per_day (institution self) + 1))
    (try_lesson self st r day).

(** Two slots that name the same day, lesson, group, subject, teacher and
    classroom. *)
Definition same_placement (s1 s2 : Slot.t) : Prop :=
  Slot.day s1 = Slot.day s2
  /\ Slot.lesson_number s1 = Slot.lesson_number s2
  /\ Slot.class_group_id s1 = Slot.class_group_id s2
  /\ Slot.subject_id s1 = Slot.subject_id s2
  /\ Slot.teacher_id s1 = Slot.teacher_id s2
  /\ Slot.classroom_id s1 = Slot.classroom_id s2.


(** A slot in a lab with a list of subjects (a specialization that is
    neither empty nor blank) holds one of the subjects of the list: what
    [_optimize_schedule_distribution] checks before it reports unauthorized
    subjects. *)
Definition hosts_listed_subject (self : ScheduleGenerator) (s : Slot.t) : Prop :=
  forall lab,
    classroom_by_id self (Slot.classroom_id s) = Some lab ->
    Classroom.type lab = "lab" ->
    Py.opt_truthy (Classroom.specialization lab) = true ->
    specialization_blank lab = false ->
    In (Slot.subject_id s) (specialization_subjects lab).

(** A state reached from another by appending slots and log lines only. *)
Definition appended (st st' : State) : Prop :=
  (exists slots, schedule st' = schedule st ++ slots)
  /\ (exists lines, logs st' = logs st ++ lines).

(** * The caller: [POST /api/schedule/generate] ([app/main.py])

    The database is the tables the endpoint reads and the one it writes,
    each as the list of its rows in the order the queries return them.  The
    statements sent to it are taken to succeed.  A stored slot has the
    columns that [ScheduleSlotCreate] keeps; its [id] and [created_at] are
    given by the database. *)

Module StoredSlot.
Record t := mk {
  day : string;
  lesson_number : Z;
  class_group_id : string;
  subject_id : string;
  teacher_id : string;
  classroom_id : string;
  start_time : string;
  end_time : string
}.
End StoredSlot.

Record Database := {
  db_institutions : list Institution.t;
  db_class_groups : list ClassGroup.t;
  db_subjects : list Subject.t;
  db_teachers : list Teacher.t;
  db_classrooms : list Classroom.t;
  db_schedule_slots : list StoredSlot.t
}.

(** What the endpoint answers: an [HTTPException], or the
    [ScheduleGenerationResult]. *)
Inductive Response :=
| HTTPException (status_code : Z) (detail : string)
| Returned (result : GenerationResult).

(** [crud.clear_schedule(db)] *)
Definition clear_schedule (db : Database) : Database :=
  {| db_institutions := db_institutions db;
     db_class_groups := db_class_groups db;
     db_subjects := db_subjects db;
     db_teachers := db_teachers db;
     db_classrooms := db_classrooms db;
     db_schedule_slots := [] |}.

(** [crud.create_schedule_slots_bulk(db, slots)] *)
Definition create_schedule_slots_bulk (db : Database)
  (slots : list StoredSlot.t) : Database :=
  {| db_institutions := db_institutions db;
     db_class_groups := db_class_groups db;
     db_subjects := db_subjects db;
     db_teachers := db_teachers db;
     db_classrooms := db_classrooms db;
     db_schedule_slots := db_schedule_slots db ++ slots |}.

(** The [schemas.ScheduleSlotCreate] made of the fields of [slot_data]. *)
Definition slot_create (slot_data : Slot.t) : StoredSlot.t :=
  StoredSlot.mk (Slot.day slot_data) (Slot.lesson_number slot_data)
    (Slot.class_group_id slot_data) (Slot.subject_id slot_data)
    (Slot.teacher_id slot_data) (Slot.classroom_id slot_data)
    (Slot.start_time slot_data) (Slot.end_time slot_data).

(** The generator that the endpoint builds from the tables. *)
Definition generator_of (institution : Institution.t) (db : Database)
  : ScheduleGenerator :=
  {| institution := institution;
     class_groups := db_class_groups db;
     subjects := db_subjects db;
     teachers := db_teachers db;
     classrooms := db_classrooms db |}.

(** [main.generate_schedule(request, db)], with [request.clear_existing]. *)
Definition generate_schedule_endpoint (str_error : Py.Error -> string)
  (clear_existing : bool) (db : Database) : Database * Response :=
  let db := if clear_existing then clear_schedule db else db in
  match hd_error (db_institutions db) with
  | None => (db, HTTPException 400 "Institution not configured")
  | Some institution =>
      let generator := generator_of institution db in
      let result :=
        generate_schedule generator str_error {| schedule := []; logs := [] |} in
      let db :=
        if success result then
          let schedule_slots := List.map slot_create (result_schedule result) in
          if Py.list_truthy schedule_slots
          then create_schedule_slots_bulk db schedule_slots
          else db
        else db in
      (db, Returned result)
  end.

(** Two stored slots that book a group, a teacher or a classroom twice. *)
Definition double_booked (r1 r2 : StoredSlot.t) : Prop :=
  StoredSlot.day r1 = StoredSlot.day r2
  /\ StoredSlot.lesson_number r1 = StoredSlot.lesson_number r2
  /\ (StoredSlot.class_group_id r1 = StoredSlot.class_group_id r2
      \/ StoredSlot.teacher_id r1 = StoredSlot.teacher_id r2
      \/ StoredSlot.classroom_id r1 = StoredSlot.classroom_id r2).

(** ** More cases, for the further properties *)

Module Cases.

(** The crowded college after the first group's lesson, and what the second
    group asks for. *)
Definition crowded_state : State :=
  {| schedule := [Slot.mk 0 "Monday" 1 "g1" "chem" "t1" "c1" "09:00" "10:10"];
     logs := [] |}.

Definition second_group_requirement : Requirement.t :=
  Requirement.mk "g2-chem-0" "g2" "Group 2" "chem" "Chemistry" "lab"
    ["t1"; "t2"] (-30).

(** A requirement whose subject lost its teachers. *)
Definition orphan_requirement : Requirement.t :=
  Requirement.mk "g1-draw-0" "g1" "Group 1" "draw" "Drawing" "theory" [] (-2).

(** The sample college with a start time that does not parse. *)
Definition late_typo : ScheduleGenerator :=
  {| institution :=
       Institution.mk ["Monday"; "Tuesday"; "Wednesday"; "Thursday"; "Friday"]
         4 70 [10; 20; 10] "9h00" 40;
     class_groups := class_groups Sample.generator;
     subjects := subjects Sample.generator;
     teachers := teachers Sample.generator;
     classrooms := classrooms Sample.generator |}.

(** The sample college with no academic week. *)
Definition no_weeks : ScheduleGenerator :=
  {| institution :=
       Institution.mk ["Monday"; "Tuesday"; "Wednesday"; "Thursday"; "Friday"]
         4 70 [10; 20; 10] "09:00" 0;
     class_groups := class_groups Sample.generator;
     subjects := subjects Sample.generator;
     teachers := teachers Sample.generator;
     classrooms := classrooms Sample.generator |}.

(** The tables of the sample college, before any schedule is stored. *)
Definition database : Database :=
  {| db_institutions := [Sample.college];
     db_class_groups := class_groups Sample.generator;
     db_subjects := subjects Sample.generator;
     db_teachers := teachers Sample.generator;
     db_classrooms := classrooms Sample.generator;
     db_schedule_slots := [] |}.

(** A college with one lesson a week, two groups that need chemistry, a
    general lab and a lab whose specialization was saved as a single
    space. *)
Definition two_groups_spaced_lab : ScheduleGenerator :=
  {| institution := Sample.one_lesson_week;
     class_groups := class_groups Sample.crowded;
     subjects := subjects Sample.crowded;
     teachers := teachers Sample.crowded;
     classrooms := [Sample.general_lab; Sample.spaced_lab] |}.

(** The no-break space U+00A0, and a lab whose specialization is one. *)
Definition no_break_space : string :=
  String (ascii_of_nat 194) (String (ascii_of_nat 160) EmptyString).

Definition no_break_lab : Classroom.t :=
  Classroom.mk "c6" "106" "lab" (Some no_break_space).

(** The sample college with another start time. *)
Definition starting_at (start_time : string) : ScheduleGenerator :=
  {| institution :=
       Institution.mk ["Monday"; "Tuesday"; "Wednesday"; "Thursday"; "Friday"]
         4 70 [10; 20; 10] start_time 40;
     class_groups := class_groups Sample.generator;
     subjects := subjects Sample.generator;
     teachers := teachers Sample.generator;
     classrooms := classrooms Sample.generator |}.

End Cases.

(** * Properties *)

(** Case analysis on the condition of a conditional of the goal. *)
Ltac case_if :=
  match goal with |- context [if ?c then _ else _] => destruct c end.

(** ** Loops, ranges and sorting *)

Lemma for_each_invariant {A S} (P : S -> Prop) (l : list A)
  (body : A -> S -> Py.Result S) (s r : S) :
  P s ->
  (forall x s s', In x l -> P s -> body x s = Py.Ok s' -> P s') ->
  Py.for_each l body s = Py.Ok r ->
  P r.
Proof.
  revert s. induction l as [|x l IH]; intros s Hs Hbody Hrun; simpl in Hrun.
  - congruence.
  - destruct (body x s) as [s'|e] eqn:Hx; simpl in Hrun; [|discriminate].
    apply (IH s'); auto.
    + apply (Hbody x s); simpl; auto.
    + intros y t t' Hy. apply Hbody. simpl. auto.
Qed.

Lemma for_each_total {A S} (l : list A) (body : A -> S -> Py.Result S) (s : S) :
  (forall x s, In x l -> exists s', body x s = Py.Ok s') ->
  exists r, Py.for_each l body s = Py.Ok r.
Proof.
  revert s. induction l as [|x l IH]; intros s Hbody; simpl.
  - eauto.
  - destruct (Hbody x s) as [s' Hs']; [simpl; auto|].
    rewrite Hs'. simpl. apply IH. intros y t Hy. apply Hbody. simpl. auto.
Qed.

Lemma range_In (a b i : Z) : In i (Py.range a b) <-> a <= i < b.
Proof.
  unfold Py.range. rewrite in_map_iff. split.
  - intros (k & <- & Hk). apply in_seq in Hk. lia.
  - intros H. exists (Z.to_nat (i - a)). split; [lia|].
    apply in_seq. lia.
Qed.

Lemma range_length (a b : Z) : List.length (Py.range a b) = Z.to_nat (b - a).
Proof. unfold Py.range. now rewrite length_map, length_seq. Qed.


Lemma str_in_In (x : string) (l : list string) :
  Py.str_in x l = true <-> In x l.
Proof.
  unfold Py.str_in. rewrite existsb_exists. split.
  - intros (y & Hy & E). apply String.eqb_eq in E. now subst.
  - intros H. exists x. split; [assumption|apply String.eqb_refl].
Qed.

Lemma insert_by_In {A} (key : A -> Z) (x y : A) (l : list A) :
  In y (Py.insert_by key x l) <-> y = x \/ In y l.
Proof.
  induction l as [|z l IH]; simpl.
  - intuition.
  - destruct (key x <=? key z); simpl; rewrite ?IH; intuition.
Qed.

Lemma sorted_In {A} (key : A -> Z) (y : A) (l : list A) :
  In y (Py.sorted key l) <-> In y l.
Proof.
  induction l as [|x l IH]; simpl; [tauto|].
  rewrite insert_by_In, IH. intuition.
Qed.

Lemma insert_by_head_least {A} (key : A -> Z) (x : A) (l : list A) :
  head_least key l -> head_least key (Py.insert_by key x l).
Proof.
  destruct l as [|z l]; simpl.
  - intros _ y [<-|[]]. lia.
  - intros Hz. destruct (key x <=? key z) eqn:E.
    + intros y [<-|Hy]; [lia|]. specialize (Hz y Hy). lia.
    + intros y [<-|Hy]; [lia|]. apply insert_by_In in Hy.
      destruct Hy as [->|Hy]; [lia|]. apply Hz. simpl. auto.
Qed.

Lemma sorted_head_least {A} (key : A -> Z) (l : list A) :
  head_least key (Py.sorted key l).
Proof.
  induction l as [|x l IH]; simpl; [exact I|].
  now apply insert_by_head_least.
Qed.

Lemma sorted_nonempty {A} (key : A -> Z) (l : list A) :
  l <> [] -> Py.sorted key l <> [].
Proof.
  destruct l as [|x l]; [congruence|]. intros _ E.
  assert (H : In x (Py.sorted key (x :: l))) by (apply sorted_In; simpl; auto).
  rewrite E in H. destruct H.
Qed.

Lemma sorted_length {A} (key : A -> Z) (l : list A) :
  List.length (Py.sorted key l) = List.length l.
Proof.
  induction l as [|x l IH]; simpl; [reflexivity|].
  rewrite <- IH. generalize (Py.sorted key l). intros m.
  induction m as [|z m IHm]; simpl; [reflexivity|].
  destruct (key x <=? key z); simpl; [reflexivity|]. now rewrite IHm.
Qed.

(** ** The slot search *)

Lemma find_available_slots_feasible (self : ScheduleGenerator) (st : State)
  (r : Requirement.t) (l : list Slot.t) :
  _find_available_slots self st r = Py.Ok l ->
  Forall (feasible self st r) l.
Proof.
  unfold _find_available_slots.
  apply for_each_invariant; [constructor|].
  intros day acc1 acc1' Hday H1.
  apply for_each_invariant; [assumption|].
  intros n acc2 acc2' Hn H2. apply range_In in Hn.
  apply for_each_invariant; [assumption|].
  intros tid acc3 acc3' Htid H3.
  destruct (teacher_by_id self tid) as [teacher|] eqn:Ht; [|congruence].
  destruct (teacher_available teacher day n) eqn:Hav; simpl; [|congruence].
  apply for_each_invariant; [assumption|].
  intros c acc4 acc4' Hc H4.
  destruct (_is_slot_available self st _ tid _ day n) eqn:Hfree; [|congruence].
  destruct (_calculate_lesson_time self n) as [[t1 t2]|e]; simpl; [|discriminate].
  intros [= <-]. apply Forall_app. split; [assumption|].
  constructor; [|constructor].
  constructor; simpl; eauto. lia.
Qed.

(** ** The selector *)

Lemma select_best_slot_some (self : ScheduleGenerator) (st : State)
  (l : list Slot.t) (r : Requirement.t) :
  l <> [] -> exists s, _select_best_slot self st l r = Some s.
Proof.
  intros Hl. unfold _select_best_slot.
  destruct l as [|x l]; [congruence|]. cbn [Py.list_truthy negb].
  set (scored := List.map _ (x :: l)).
  destruct (Py.sorted _ scored) as [|y m] eqn:E; [|eauto].
  exfalso. revert E. apply sorted_nonempty. discriminate.
Qed.

Lemma select_best_slot_best (self : ScheduleGenerator) (st : State)
  (l : list Slot.t) (r : Requirement.t) (s : Slot.t) :
  _select_best_slot self st l r = Some s ->
  In s l
  /\ forall x, In x l -> _score_slot self st x r <= _score_slot self st s r.
Proof.
  unfold _select_best_slot.
  destruct (negb (Py.list_truthy l)); [discriminate|].
  set (scored := List.map _ l).
  pose proof (sorted_head_least (fun x : Slot.t * Z => - snd x) scored) as Hmin.
  destruct (Py.sorted _ scored) as [|y m] eqn:E; [discriminate|].
  intros [= <-].
  assert (Hy : In y scored).
  { apply (sorted_In (fun x : Slot.t * Z => - snd x)). rewrite E. simpl. auto. }
  apply in_map_iff in Hy. destruct Hy as (s & <- & Hs). simpl. split; [assumption|].
  intros x Hx.
  assert (Hxin : In (x, _score_slot self st x r)
                   ((s, _score_slot self st s r) :: m)).
  { rewrite <- E. apply sorted_In. apply in_map_iff. eauto. }
  specialize (Hmin _ Hxin). simpl in Hmin. lia.
Qed.

(** ** One scheduling step *)

Lemma schedule_lesson_cases (self : ScheduleGenerator) (st st' : State)
  (r : Requirement.t) (b : bool) :
  _schedule_lesson self st r = Py.Ok (st', b) ->
  (b = false /\ schedule st' = schedule st)
  \/ (b = true
      /\ exists s, feasible self st r s /\ schedule st' = schedule st ++ [s]).
Proof.
  unfold _schedule_lesson.
  destruct (_find_available_slots self st r) as [l|e] eqn:Hfind; simpl;
    [|discriminate].
  apply find_available_slots_feasible in Hfind.
  destruct l as [|x l]; simpl.
  - intros [= <- <-]. left. auto.
  - destruct (_select_best_slot self st (x :: l) r) as [s|] eqn:Hsel.
    + intros [= <- <-]. right. split; [reflexivity|]. exists s. split.
      * apply select_best_slot_best in Hsel. destruct Hsel as [Hin _].
        rewrite List.Forall_forall in Hfind. now apply Hfind.
      * reflexivity.
    + intros [= <- <-]. left. auto.
Qed.

(** A requirement is scheduled exactly when the search finds a slot. *)
Lemma schedule_lesson_verdict (self : ScheduleGenerator) (st : State)
  (r : Requirement.t) (l : list Slot.t) :
  _find_available_slots self st r = Py.Ok l ->
  exists st', _schedule_lesson self st r = Py.Ok (st', Py.list_truthy l).
Proof.
  intros Hfind. unfold _schedule_lesson. rewrite Hfind. simpl.
  destruct l as [|x l]; simpl; [eauto|].
  destruct (select_best_slot_some self st (x :: l) r) as [s Hs]; [discriminate|].
  rewrite Hs. eauto.
Qed.

(** ** The diagnostics and the optimizer leave the schedule alone *)

Lemma fold_log_schedule {A} (f : State -> A -> State) (l : list A) (st : State) :
  (forall st x, schedule (f st x) = schedule st) ->
  schedule (fold_left f l st) = schedule st.
Proof.
  intros Hf. revert st. induction l as [|x l IH]; intros st; simpl; [reflexivity|].
  now rewrite IH, Hf.
Qed.

Lemma fold_pair_schedule {A B} (f : list B * State -> A -> list B * State)
  (l : list A) (acc : list B) (st : State) :
  (forall acc st x, schedule (snd (f (acc, st) x)) = schedule st) ->
  schedule (snd (fold_left f l (acc, st))) = schedule st.
Proof.
  intros Hf. revert acc st.
  induction l as [|x l IH]; intros acc st; simpl; [reflexivity|].
  destruct (f (acc, st) x) as [acc' st'] eqn:E. rewrite IH.
  specialize (Hf acc st x). now rewrite E in Hf.
Qed.

Lemma scan_inr {A S R} (Q : R -> Prop) (l : list A) (body : A -> S -> S + R)
  (s : S) (r : R) :
  (forall x s r, body x s = inr r -> Q r) ->
  scan l body s = inr r -> Q r.
Proof.
  intros Hbody. revert s. induction l as [|x l IH]; intros s; simpl; [discriminate|].
  destruct (body x s) as [s'|r'] eqn:E.
  - apply IH.
  - intros [= <-]. eapply Hbody; eauto.
Qed.

Lemma analyze_time_slot_conflicts_schedule (self : ScheduleGenerator)
  (st : State) (r : Requirement.t) (ts : list (nat * Teacher.t))
  (cs : list Classroom.t) :
  schedule (_analyze_time_slot_conflicts self st r ts cs) = schedule st.
Proof.
  unfold _analyze_time_slot_conflicts.
  match goal with |- context [scan ?l ?b ?s] => destruct (scan l b s) as [sm|st'] eqn:E end.
  - repeat case_if;
      reflexivity.
  - revert E. apply (scan_inr (fun r => schedule r = schedule st)).
    intros day sm st1.
    apply (scan_inr (fun r => schedule r = schedule st)). intros n sm' st2.
    destruct (busy_at _ _ _ day n); [discriminate|].
    match goal with |- context [fold_left ?f ?l ?a] => destruct (fold_left f l a) as [ats sm1] end.
    destruct (negb (Py.list_truthy ats)); [discriminate|].
    match goal with |- context [fold_left ?f ?l ?a] => destruct (fold_left f l a) as [acs sm2] end.
    destruct (Py.list_truthy acs); [|discriminate].
    intros [= <-]. reflexivity.
Qed.

Lemma report_no_suitable_classroom_schedule (self : ScheduleGenerator)
  (st : State) (r : Requirement.t) :
  schedule (report_no_suitable_classroom self st r) = schedule st.
Proof.
  unfold report_no_suitable_classroom.
  repeat case_if;
    try reflexivity.
  now rewrite fold_log_schedule.
Qed.

Lemma analyze_scheduling_failure_schedule (self : ScheduleGenerator)
  (st : State) (r : Requirement.t) :
  schedule (_analyze_scheduling_failure self st r) = schedule st.
Proof.
  unfold _analyze_scheduling_failure.
  destruct (negb (Py.list_truthy (Requirement.available_teacher_ids r)));
    [reflexivity|].
  match goal with |- context [fold_left ?f ?l (?a, ?s)] =>
    pose proof (fold_pair_schedule f l a s) as H1;
    destruct (fold_left f l (a, s)) as [existing st1] end.
  simpl in H1.
  assert (E1 : schedule st1 = schedule st).
  { apply H1. intros acc st0 x.
    destruct (Py.next _ (teacher_objects self)); reflexivity. }
  clear H1.
  destruct (negb (Py.list_truthy existing)); [simpl; assumption|].
  match goal with |- context [fold_left ?f ?l (?a, ?s)] =>
    pose proof (fold_pair_schedule f l a s) as H2;
    destruct (fold_left f l (a, s)) as [avail st2] end.
  simpl in H2.
  assert (E2 : schedule st2 = schedule st1).
  { apply H2. intros acc st0 x.
    case_if;
      reflexivity. }
  clear H2.
  destruct (negb (Py.list_truthy avail)); [simpl; congruence|].
  destruct (negb (Py.list_truthy _)).
  - rewrite report_no_suitable_classroom_schedule. congruence.
  - rewrite analyze_time_slot_conflicts_schedule. congruence.
Qed.

Lemma optimize_schedule_distribution_schedule (self : ScheduleGenerator)
  (st : State) :
  schedule (_optimize_schedule_distribution self st) = schedule st.
Proof.
  unfold _optimize_schedule_distribution. cbn [log schedule].
  rewrite !fold_log_schedule; [reflexivity| | |].
  - intros st0 g.
    case_if; reflexivity.
  - intros st0 lab.
    case_if; reflexivity.
  - intros st0 lab. destruct (owner_of self (Classroom.id lab)); [|reflexivity].
    case_if; reflexivity.
Qed.

Lemma schedule_log (st : State) (message : string) :
  schedule (log st message) = schedule st.
Proof. reflexivity. Qed.

Lemma log_classroom_info_schedule (self : ScheduleGenerator) (st : State) :
  schedule (_log_classroom_info self st) = schedule st.
Proof.
  unfold _log_classroom_info.
  repeat case_if;
    repeat (rewrite schedule_log || rewrite fold_log_schedule);
    try reflexivity;
    intros st0 lab; try reflexivity;
    destruct (owner_of self (Classroom.id lab)); reflexivity.
Qed.

(** ** The scheduling loop *)

(** The search, the selector and the verdict read the schedule, not the
    logs. *)
Lemma schedule_lesson_reads_schedule (self : ScheduleGenerator)
  (st1 st2 : State) (r : Requirement.t) :
  schedule st1 = schedule st2 ->
  match _schedule_lesson self st1 r, _schedule_lesson self st2 r with
  | Py.Ok (a1, b1), Py.Ok (a2, b2) => schedule a1 = schedule a2 /\ b1 = b2
  | Py.Raise e1, Py.Raise e2 => e1 = e2
  | _, _ => False
  end.
Proof.
  destruct st1 as [sched l1], st2 as [sched2 l2]. simpl. intros <-.
  unfold _schedule_lesson.
  change (_find_available_slots self {| schedule := sched; logs := l2 |} r)
    with (_find_available_slots self {| schedule := sched; logs := l1 |} r).
  destruct (_find_available_slots self _ r) as [l|e]; simpl; [|reflexivity].
  destruct (negb (Py.list_truthy l)); [simpl; auto|].
  change (_select_best_slot self {| schedule := sched; logs := l2 |} l r)
    with (_select_best_slot self {| schedule := sched; logs := l1 |} l r).
  destruct (_select_best_slot self _ l r); simpl; auto.
Qed.

Lemma schedule_requirements_reads_schedule (self : ScheduleGenerator)
  (reqs : list Requirement.t) (st1 st2 : State) (sc fc : Z) :
  schedule st1 = schedule st2 ->
  schedule (fst (schedule_requirements self reqs st1 sc fc))
  = schedule (fst (schedule_requirements self reqs st2 sc fc))
  /\ snd (schedule_requirements self reqs st1 sc fc)
     = snd (schedule_requirements self reqs st2 sc fc).
Proof.
  revert st1 st2 sc fc.
  induction reqs as [|r reqs IH]; intros st1 st2 sc fc E; simpl; [auto|].
  pose proof (schedule_lesson_reads_schedule self st1 st2 r E) as H.
  destruct (_schedule_lesson self st1 r) as [[a1 b1]|e1],
           (_schedule_lesson self st2 r) as [[a2 b2]|e2]; try contradiction.
  - destruct H as [Ea <-]. destruct b1.
    + now apply IH.
    + apply IH. now rewrite !analyze_scheduling_failure_schedule.
  - subst. simpl. auto.
Qed.

Lemma schedule_requirements_invariant (self : ScheduleGenerator)
  (P : list Slot.t -> Prop) :
  (forall st r s,
     P (schedule st) -> feasible self st r s -> P (schedule st ++ [s])) ->
  forall reqs st sc fc,
    P (schedule st) ->
    P (schedule (fst (schedule_requirements self reqs st sc fc))).
Proof.
  intros Hstep reqs.
  induction reqs as [|r reqs IH]; intros st sc fc Hst; simpl; [assumption|].
  destruct (_schedule_lesson self st r) as [[st' b]|e] eqn:E; [|assumption].
  apply schedule_lesson_cases in E.
  destruct E as [[-> E]|[-> (s & Hs & E)]].
  - apply IH. rewrite analyze_scheduling_failure_schedule. congruence.
  - apply IH. rewrite E. eauto.
Qed.

(** The scheduled counter counts the commits, and each requirement is
    counted once. *)
Lemma schedule_requirements_counts (self : ScheduleGenerator)
  (reqs : list Requirement.t) (st st' : State) (sc fc sc' fc' : Z) :
  schedule_requirements self reqs st sc fc = (st', Py.Ok (sc', fc')) ->
  Py.len (schedule st') - Py.len (schedule st) = sc' - sc
  /\ (sc' - sc) + (fc' - fc) = Py.len reqs
  /\ 0 <= fc' - fc.
Proof.
  revert st sc fc.
  induction reqs as [|r reqs IH]; intros st sc fc; simpl.
  - intros [= <- <- <-]. unfold Py.len. simpl. lia.
  - destruct (_schedule_lesson self st r) as [[st1 b]|e] eqn:E; [|discriminate].
    apply schedule_lesson_cases in E.
    destruct E as [[-> E]|[-> (s & Hs & E)]]; intros Hrun; apply IH in Hrun;
      revert Hrun; unfold Py.len; simpl.
    + rewrite analyze_scheduling_failure_schedule, E. lia.
    + rewrite E, length_app. simpl. lia.
Qed.

Lemma state_after_all (self : ScheduleGenerator) (reqs : list Requirement.t)
  (st : State) :
  schedule st = [] ->
  schedule (fst (schedule_requirements self reqs st 0 0))
  = schedule (state_after self reqs [] (List.length reqs)).
Proof.
  intros E. unfold state_after. rewrite firstn_all.
  now apply schedule_requirements_reads_schedule.
Qed.

(** The schedule that [generate_schedule] returns is empty, or the one the
    loop stands in after all the requirements. *)
Lemma generate_schedule_schedule (self : ScheduleGenerator)
  (str_error : Py.Error -> string) (st : State) :
  result_schedule (generate_schedule self str_error st) = []
  \/ exists reqs,
       result_schedule (generate_schedule self str_error st)
       = schedule (state_after self reqs [] (List.length reqs)).
Proof.
  unfold generate_schedule.
  destruct (_validate_input_data self); [|left; reflexivity].
  destruct (_generate_lesson_requirements self) as [reqs|e]; [|left; reflexivity].
  match goal with |- context [schedule_requirements self ?l ?s 0 0] =>
    pose proof (state_after_all self l s) as H;
    destruct (schedule_requirements self l s 0 0) as [st' [[sc fc]|e]] end;
    [|left; reflexivity].
  destruct (sc =? 0); [left; reflexivity|].
  right. exists (_prioritize_requirements reqs).
  cbn [fst] in H. cbn [result_schedule].
  rewrite optimize_schedule_distribution_schedule, schedule_log. apply H.
  now rewrite !schedule_log, log_classroom_info_schedule.
Qed.

(** ** What the availability check guarantees *)

Lemma is_slot_available_free (self : ScheduleGenerator) (st : State)
  (g t c d : string) (n : Z) :
  _is_slot_available self st g t c d n = true ->
  forall x, In x (schedule st) ->
    Slot.day x = d -> Slot.lesson_number x = n ->
    Slot.class_group_id x <> g /\ Slot.teacher_id x <> t
    /\ Slot.classroom_id x <> c.
Proof.
  unfold _is_slot_available.
  destruct (existsb _ (schedule st)) eqn:E; [discriminate|]. intros _.
  intros x Hx Hd Hn.
  assert (H : ~ (Slot.class_group_id x = g \/ Slot.teacher_id x = t
                 \/ Slot.classroom_id x = c)).
  { intros Hor. apply Bool.not_true_iff_false in E. apply E.
    apply existsb_exists. exists x. split; [assumption|].
    rewrite !Bool.andb_true_iff, !Bool.orb_true_iff, !String.eqb_eq, Z.eqb_eq.
    tauto. }
  tauto.
Qed.

Lemma is_slot_available_owner (self : ScheduleGenerator) (st : State)
  (g t c d : string) (n : Z) (classroom : Classroom.t) (owner : Teacher.t) :
  _is_slot_available self st g t c d n = true ->
  classroom_by_id self c = Some classroom ->
  Classroom.type classroom = "teacher_lab" ->
  owner_of self (Classroom.id classroom) = Some owner ->
  t = Teacher.id owner.
Proof.
  unfold _is_slot_available. intros H Hc Ht Ho.
  destruct (existsb _ (schedule st)); [discriminate|].
  rewrite Hc, Ht, Ho in H. simpl in H.
  destruct (String.eqb (Teacher.id owner) t) eqn:E; [|discriminate].
  apply String.eqb_eq in E. congruence.
Qed.

(** ** Committing a feasible slot *)

Lemma no_double_booking_nil : no_double_booking [].
Proof. intros [|i] j s1 s2 _ H; discriminate. Qed.

Lemma no_double_booking_commit (self : ScheduleGenerator) (st : State)
  (r : Requirement.t) (s : Slot.t) :
  no_double_booking (schedule st) ->
  feasible self st r s ->
  no_double_booking (schedule st ++ [s]).
Proof.
  intros Hinv Hs.
  pose proof (is_slot_available_free _ _ _ _ _ _ _ (feasible_free _ _ _ _ Hs))
    as Hfree.
  assert (Hlast : forall k x, nth_error (schedule st ++ [s]) k = Some x ->
                    (k < List.length (schedule st))%nat
                    /\ nth_error (schedule st) k = Some x
                    \/ k = List.length (schedule st) /\ x = s).
  { intros k x Hk.
    destruct (Nat.lt_ge_cases k (List.length (schedule st))) as [Hlt|Hge].
    - left. split; [assumption|]. now rewrite nth_error_app1 in Hk.
    - right. rewrite nth_error_app2 in Hk by assumption.
      destruct (k - List.length (schedule st))%nat as [|m] eqn:Em; simpl in Hk.
      + split; [lia|congruence].
      + destruct m; discriminate. }
  intros i j s1 s2 Hij H1 H2 Hd Hn.
  apply Hlast in H1. apply Hlast in H2.
  destruct H1 as [[Hi H1]|[Hi ->]], H2 as [[Hj H2]|[Hj ->]].
  - now apply (Hinv i j).
  - apply nth_error_In in H1. now apply Hfree.
  - apply nth_error_In in H2.
    destruct (Hfree s2 H2) as (Hg & Ht & Hc); [congruence|congruence|].
    repeat split; congruence.
  - lia.
Qed.

Lemma owner_only_commit (self : ScheduleGenerator) (st : State)
  (r : Requirement.t) (s : Slot.t) :
  Forall (owner_only self) (schedule st) ->
  feasible self st r s ->
  Forall (owner_only self) (schedule st ++ [s]).
Proof.
  intros Hinv Hs. apply Forall_app. split; [assumption|].
  constructor; [|constructor].
  intros classroom owner Hc Ht Ho.
  exact (is_slot_available_owner _ _ _ _ _ _ _ _ _
           (feasible_free _ _ _ _ Hs) Hc Ht Ho).
Qed.

Lemma in_grid_commit (self : ScheduleGenerator) (st : State)
  (r : Requirement.t) (s : Slot.t) :
  Forall (in_grid self) (schedule st) ->
  feasible self st r s ->
  Forall (in_grid self) (schedule st ++ [s]).
Proof.
  intros Hinv Hs. apply Forall_app. split; [assumption|].
  constructor; [|constructor].
  split; [exact (feasible_day _ _ _ _ Hs)|exact (feasible_lesson _ _ _ _ Hs)].
Qed.

(** An invariant of the committed schedule that the empty schedule has and
    that committing a feasible slot keeps holds after every step of
    [_schedule_lesson], at every point of the loop and for the schedule
    that [generate_schedule] returns. *)
Lemma committed_invariant (self : ScheduleGenerator) (P : list Slot.t -> Prop) :
  P [] ->
  (forall st r s,
     P (schedule st) -> feasible self st r s -> P (schedule st ++ [s])) ->
  (forall st r st' b,
     P (schedule st) -> _schedule_lesson self st r = Py.Ok (st', b) ->
     P (schedule st'))
  /\ (forall reqs logs0 n, P (schedule (state_after self reqs logs0 n)))
  /\ (forall str_error st,
        P (result_schedule (generate_schedule self str_error st))).
Proof.
  intros Hnil Hstep. split; [|split].
  - intros st r st' b Hst Hrun. apply schedule_lesson_cases in Hrun.
    destruct Hrun as [[_ ->]|[_ (s & Hs & ->)]]; eauto.
  - intros reqs logs0 n. unfold state_after.
    now apply schedule_requirements_invariant.
  - intros str_error st.
    destruct (generate_schedule_schedule self str_error st) as [->|[reqs ->]];
      [assumption|].
    unfold state_after. now apply schedule_requirements_invariant.
Qed.

(** ** C1: no double booking *)

(** C1.  No double-booking: two committed slots that share day and lesson
    number differ in group, in teacher and in classroom.  Every step of
    [_schedule_lesson] keeps this, it holds in the state the loop stands in
    after any number of requirements of any run, and for the schedule that
    [generate_schedule] returns. *)
Theorem no_double_booking_invariant (self : ScheduleGenerator) :
  (forall st r st' b,
     no_double_booking (schedule st) ->
     _schedule_lesson self st r = Py.Ok (st', b) ->
     no_double_booking (schedule st'))
  /\ (forall reqs logs0 n,
        no_double_booking (schedule (state_after self reqs logs0 n)))
  /\ (forall str_error st,
        no_double_booking
          (result_schedule (generate_schedule self str_error st))).
Proof.
  apply committed_invariant.
  - exact no_double_booking_nil.
  - apply no_double_booking_commit.
Qed.

Lemma no_double_booking_invariant_witness :
  no_double_booking (schedule Sample.empty_state)
  /\ _schedule_lesson Sample.generator Sample.empty_state
       Sample.chemistry_requirement
     = Py.Ok ({| schedule := [Sample.chemistry_slot];
                 logs := ["✅ Scheduled Chemistry for Group 1 on Monday lesson 2 in room 101 with Ann Lee"] |},
              true)
  /\ no_double_booking [Sample.chemistry_slot].
Proof.
  assert (H0 : no_double_booking (schedule Sample.empty_state))
    by exact no_double_booking_nil.
  assert (H1 : _schedule_lesson Sample.generator Sample.empty_state
                 Sample.chemistry_requirement
               = Py.Ok ({| schedule := [Sample.chemistry_slot];
                           logs := ["✅ Scheduled Chemistry for Group 1 on Monday lesson 2 in room 101 with Ann Lee"] |},
                        true))
    by (vm_compute; reflexivity).
  split; [exact H0|]. split; [exact H1|].
  exact (proj1 (no_double_booking_invariant Sample.generator) _ _ _ _ H0 H1).
Defined.

(** ** C2: teacher labs are used by their owner only *)

(** C2.  Teacher-lab exclusivity: a committed slot whose classroom is a
    [teacher_lab] with an owner is taught by the owner.  Every step of
    [_schedule_lesson] keeps this, it holds at every point of the loop of any
    run, and for the schedule that [generate_schedule] returns. *)
Theorem teacher_lab_exclusivity (self : ScheduleGenerator) :
  (forall st r st' b,
     Forall (owner_only self) (schedule st) ->
     _schedule_lesson self st r = Py.Ok (st', b) ->
     Forall (owner_only self) (schedule st'))
  /\ (forall reqs logs0 n,
        Forall (owner_only self) (schedule (state_after self reqs logs0 n)))
  /\ (forall str_error st,
        Forall (owner_only self)
          (result_schedule (generate_schedule self str_error st))).
Proof.
  apply committed_invariant.
  - constructor.
  - apply owner_only_commit.
Qed.

Lemma teacher_lab_exclusivity_witness :
  Forall (owner_only Sample.generator) (schedule Sample.empty_state)
  /\ _schedule_lesson Sample.generator Sample.empty_state
       Sample.mathematics_requirement
     = Py.Ok ({| schedule := [Sample.mathematics_slot];
                 logs := ["✅ Scheduled Mathematics for Group 1 on Monday lesson 2 in room 103 (Bob Ray's lab) with Bob Ray"] |},
              true)
  /\ Forall (owner_only Sample.generator) [Sample.mathematics_slot].
Proof.
  assert (H0 : Forall (owner_only Sample.generator) (schedule Sample.empty_state))
    by constructor.
  assert (H1 : _schedule_lesson Sample.generator Sample.empty_state
                 Sample.mathematics_requirement
               = Py.Ok ({| schedule := [Sample.mathematics_slot];
                           logs := ["✅ Scheduled Mathematics for Group 1 on Monday lesson 2 in room 103 (Bob Ray's lab) with Bob Ray"] |},
                        true))
    by (vm_compute; reflexivity).
  split; [exact H0|]. split; [exact H1|].
  exact (proj1 (teacher_lab_exclusivity Sample.generator) _ _ _ _ H0 H1).
Defined.

(** ** C10: committed slots lie in the institution's grid *)

(** C10.  Slot domain: every committed slot has its day among the
    institution's working days and its lesson number between 1 and
    [lessons_per_day].  Every step of [_schedule_lesson] keeps this, it holds
    at every point of the loop of any run, and for the schedule that
    [generate_schedule] returns. *)
Theorem slot_domain_invariant (self : ScheduleGenerator) :
  (forall st r st' b,
     Forall (in_grid self) (schedule st) ->
     _schedule_lesson self st r = Py.Ok (st', b) ->
     Forall (in_grid self) (schedule st'))
  /\ (forall reqs logs0 n,
        Forall (in_grid self) (schedule (state_after self reqs logs0 n)))
  /\ (forall str_error st,
        Forall (in_grid self)
          (result_schedule (generate_schedule self str_error st))).
Proof.
  apply committed_invariant.
  - constructor.
  - apply in_grid_commit.
Qed.

Lemma slot_domain_invariant_witness :
  Forall (in_grid Sample.generator) (schedule Sample.empty_state)
  /\ _schedule_lesson Sample.generator Sample.empty_state
       Sample.chemistry_requirement
     = Py.Ok ({| schedule := [Sample.chemistry_slot];
                 logs := ["✅ Scheduled Chemistry for Group 1 on Monday lesson 2 in room 101 with Ann Lee"] |},
              true)
  /\ Forall (in_grid Sample.generator) [Sample.chemistry_slot].
Proof.
  assert (H0 : Forall (in_grid Sample.generator) (schedule Sample.empty_state))
    by constructor.
  assert (H1 : _schedule_lesson Sample.generator Sample.empty_state
                 Sample.chemistry_requirement
               = Py.Ok ({| schedule := [Sample.chemistry_slot];
                           logs := ["✅ Scheduled Chemistry for Group 1 on Monday lesson 2 in room 101 with Ann Lee"] |},
                        true))
    by (vm_compute; reflexivity).
  split; [exact H0|]. split; [exact H1|].
  exact (proj1 (slot_domain_invariant Sample.generator) _ _ _ _ H0 H1).
Defined.

(** ** C4: what the result says about the run *)

Lemma optimize_schedule_distribution_logs (self : ScheduleGenerator) (st : State) :
  logs (_optimize_schedule_distribution self st) <> [].
Proof.
  unfold _optimize_schedule_distribution.
  match goal with |- logs (log ?s ?m) <> [] =>
    change (logs s ++ [m] <> []) end.
  intros E. apply app_eq_nil in E. destruct E as [_ E]. discriminate.
Qed.

(** C4.  Overall success: when validation passes and neither the derivation
    of the requirements nor the loop raises, [sc] requirements were scheduled
    ([sc] is the number of committed slots) and [fc] failed; the result is a
    success exactly when [sc] is positive; with [sc = 0] it is a failure with
    the generic message and an empty schedule; with [sc > 0] it is a success
    carrying the accumulated schedule, whatever [fc] is. *)
Theorem overall_success_semantics (self : ScheduleGenerator)
  (str_error : Py.Error -> string) (st : State)
  (reqs : list Requirement.t) (logs0 : list string) (st' : State) (sc fc : Z) :
  _validate_input_data self = Valid ->
  _generate_lesson_requirements self = Py.Ok reqs ->
  schedule_requirements self (_prioritize_requirements reqs)
    {| schedule := []; logs := logs0 |} 0 0 = (st', Py.Ok (sc, fc)) ->
  sc = Py.len (schedule st') /\ sc + fc = Py.len reqs /\ 0 <= fc
  /\ (success (generate_schedule self str_error st) = true <-> 0 < sc)
  /\ (sc = 0 ->
      success (generate_schedule self str_error st) = false
      /\ result_schedule (generate_schedule self str_error st) = []
      /\ error (generate_schedule self str_error st)
         = Some "No lessons could be scheduled. Check teacher availability and classroom assignments.")
  /\ (0 < sc ->
      success (generate_schedule self str_error st) = true
      /\ result_schedule (generate_schedule self str_error st) = schedule st'
      /\ error (generate_schedule self str_error st) = None).
Proof.
  intros Hvalid Hreqs Hrun.
  pose proof (schedule_requirements_counts _ _ _ _ _ _ _ _ Hrun) as (Hsc & Hall & Hfc).
  unfold Py.len in Hsc at 2. simpl in Hsc.
  assert (Hlen : Py.len (_prioritize_requirements reqs) = Py.len reqs).
  { unfold Py.len, _prioritize_requirements. now rewrite sorted_length. }
  rewrite Hlen in Hall.
  assert (Hpos : 0 <= sc) by (unfold Py.len in Hsc; lia).
  split; [lia|]. split; [lia|]. split; [lia|].
  unfold generate_schedule. rewrite Hvalid, Hreqs.
  match goal with |- context [schedule_requirements self ?l ?s 0 0] =>
    assert (Hentry : schedule s = schedule {| schedule := []; logs := logs0 |})
      by (now rewrite !schedule_log, log_classroom_info_schedule);
    pose proof (schedule_requirements_reads_schedule self l s _ 0 0 Hentry)
      as Hsame;
    destruct (schedule_requirements self l s 0 0) as [st2 res2] end.
  rewrite Hrun in Hsame. cbn [fst snd] in Hsame.
  destruct Hsame as [Hsched ->].
  destruct (sc =? 0) eqn:Ez.
  - apply Z.eqb_eq in Ez. cbn [success result_schedule error].
    repeat split; intros; try lia; try discriminate; reflexivity.
  - apply Z.eqb_neq in Ez. cbn [success result_schedule error].
    rewrite optimize_schedule_distribution_schedule, schedule_log.
    repeat split; intros; try lia; try assumption.
Qed.

Lemma overall_success_semantics_witness :
  _validate_input_data Sample.generator = Valid
  /\ _generate_lesson_requirements Sample.generator = Py.Ok Sample.requirements
  /\ schedule_requirements Sample.generator
       (_prioritize_requirements Sample.requirements) Sample.empty_state 0 0
     = (Sample.final_state, Py.Ok (3, 0))
  /\ (success (generate_schedule Sample.generator Sample.no_message
                 Sample.empty_state) = true <-> 0 < 3)
  /\ result_schedule (generate_schedule Sample.generator Sample.no_message
                        Sample.empty_state) = Sample.final_schedule.
Proof.
  assert (H0 : _validate_input_data Sample.generator = Valid)
    by (vm_compute; reflexivity).
  assert (H1 : _generate_lesson_requirements Sample.generator
               = Py.Ok Sample.requirements)
    by (vm_compute; reflexivity).
  assert (H2 : schedule_requirements Sample.generator
                 (_prioritize_requirements Sample.requirements)
                 {| schedule := []; logs := [] |} 0 0
               = (Sample.final_state, Py.Ok (3, 0)))
    by (vm_compute; reflexivity).
  pose proof (overall_success_semantics Sample.generator Sample.no_message
                Sample.empty_state _ _ _ _ _ H0 H1 H2) as (_ & _ & _ & H3 & _ & H4).
  split; [exact H0|]. split; [exact H1|]. split; [exact H2|].
  split; [exact H3|]. apply H4. lia.
Defined.

(** ** C8: the logs of the result *)

(** C8.  The logs of the result: on a validation failure the result carries
    no log line at all, the start-up line having been appended before
    [self.logs] is reset; once validation has passed, the logs of the result
    are not empty. *)
Theorem logs_of_result (self : ScheduleGenerator)
  (str_error : Py.Error -> string) (st : State) :
  (forall e,
     _validate_input_data self = Invalid e ->
     generate_schedule self str_error st
     = {| success := false; result_schedule := []; error := Some e;
          result_logs := [] |})
  /\ (_validate_input_data self = Valid ->
      result_logs (generate_schedule self str_error st) <> []).
Proof.
  unfold generate_schedule. split.
  - intros e ->. reflexivity.
  - intros ->.
    assert (Hlog : forall s m, logs (log s m) <> []).
    { intros s m E. apply app_eq_nil in E. destruct E as [_ E]. discriminate. }
    destruct (_generate_lesson_requirements self) as [reqs|e]; [|apply Hlog].
    match goal with |- context [schedule_requirements self ?l ?s 0 0] =>
      destruct (schedule_requirements self l s 0 0) as [st' [[sc fc]|e]] end;
      [|apply Hlog].
    destruct (sc =? 0); [apply Hlog|].
    apply optimize_schedule_distribution_logs.
Qed.

Lemma logs_of_result_witness :
  _validate_input_data Sample.without_groups
  = Invalid "No class groups configured"
  /\ generate_schedule Sample.without_groups Sample.no_message Sample.empty_state
     = {| success := false; result_schedule := [];
          error := Some "No class groups configured"; result_logs := [] |}.
Proof.
  assert (H0 : _validate_input_data Sample.without_groups
               = Invalid "No class groups configured")
    by (vm_compute; reflexivity).
  split; [exact H0|].
  exact (proj1 (logs_of_result Sample.without_groups Sample.no_message
                  Sample.empty_state) _ H0).
Defined.

(** ** C5: derivation of the requirements *)

Lemma fold_left_snoc {A B} (f : A -> B) (l : list A) (acc : list B) :
  fold_left (fun acc x => acc ++ [f x]) l acc = acc ++ List.map f l.
Proof.
  revert acc. induction l as [|x l IH]; intros acc; simpl.
  - now rewrite app_nil_r.
  - now rewrite IH, <- app_assoc.
Qed.

Lemma requirements_of_entry_emitted (self : ScheduleGenerator)
  (group : ClassGroup.t) (entry : string * Z) (acc : list Requirement.t) :
  Institution.academic_weeks (institution self) <> 0 ->
  requirements_of_entry self group entry acc
  = Py.Ok (acc ++ emitted self group entry).
Proof.
  intros Hweeks. apply Z.eqb_neq in Hweeks.
  unfold emitted, requirements_of_entry. destruct entry as [sid yh].
  destruct (yh >? 0); [|now rewrite app_nil_r].
  destruct (subject_by_id self sid) as [subject|]; [|now rewrite app_nil_r].
  destruct (Py.list_truthy (Subject.teacher_ids subject)); [|now rewrite app_nil_r].
  rewrite Hweeks. now rewrite !fold_left_snoc.
Qed.

Lemma for_each_entries (self : ScheduleGenerator) (group : ClassGroup.t)
  (entries : list (string * Z)) (acc : list Requirement.t) :
  Institution.academic_weeks (institution self) <> 0 ->
  Py.for_each entries (requirements_of_entry self group) acc
  = Py.Ok (acc ++ flat_map (emitted self group) entries).
Proof.
  intros Hweeks. revert acc.
  induction entries as [|e entries IH]; intros acc; simpl.
  - now rewrite app_nil_r.
  - rewrite requirements_of_entry_emitted by assumption. simpl.
    now rewrite IH, <- app_assoc.
Qed.

(** C5.  Requirement derivation, the number of academic weeks not being
    zero: the requirements are, group after group and entry after entry, those
    that each entry emits; an entry with positive yearly hours whose subject
    id resolves to a subject with teachers emits exactly
    [max 1 (yearly_hours / academic_weeks)] requirements, all for that group
    and subject; an entry with yearly hours not positive, with an unresolvable
    subject or with a subject without teachers emits none. *)
Theorem requirement_derivation (self : ScheduleGenerator) :
  Institution.academic_weeks (institution self) <> 0 ->
  _generate_lesson_requirements self
  = Py.Ok (flat_map
             (fun group =>
                flat_map (emitted self group) (ClassGroup.subject_hours group))
             (class_groups self))
  /\ (forall group subject_id yearly_hours subject,
        0 < yearly_hours ->
        subject_by_id self subject_id = Some subject ->
        Subject.teacher_ids subject <> [] ->
        Py.len (emitted self group (subject_id, yearly_hours))
        = Z.max 1 (yearly_hours / Institution.academic_weeks (institution self))
        /\ Forall
             (fun r => Requirement.group_id r = ClassGroup.id group
                       /\ Requirement.subject_id r = subject_id)
             (emitted self group (subject_id, yearly_hours)))
  /\ (forall group subject_id yearly_hours,
        yearly_hours <= 0
        \/ subject_by_id self subject_id = None
        \/ (exists subject,
              subject_by_id self subject_id = Some subject
              /\ Subject.teacher_ids subject = []) ->
        emitted self group (subject_id, yearly_hours) = []).
Proof.
  intros Hweeks. split; [|split].
  - unfold _generate_lesson_requirements.
    enough (H : forall groups acc,
              Py.for_each groups
                (fun group requirements =>
                   if negb (Py.list_truthy (ClassGroup.subject_hours group))
                   then Py.Ok requirements
                   else Py.for_each (ClassGroup.subject_hours group)
                          (requirements_of_entry self group) requirements)
                acc
              = Py.Ok (acc ++ flat_map
                                (fun group =>
                                   flat_map (emitted self group)
                                     (ClassGroup.subject_hours group))
                                groups))
      by apply (H (class_groups self) []).
    induction groups as [|g groups IH]; intros acc; simpl.
    + now rewrite app_nil_r.
    + destruct (ClassGroup.subject_hours g) as [|e entries] eqn:E; simpl.
      * apply IH.
      * rewrite requirements_of_entry_emitted by assumption. simpl.
        rewrite for_each_entries by assumption. simpl.
        rewrite IH. now rewrite <- !app_assoc.
  - intros group sid yh subject Hyh Hsub Hteach.
    unfold emitted, requirements_of_entry.
    rewrite (proj2 (Z.gtb_lt yh 0) Hyh), Hsub.
    destruct (Subject.teacher_ids subject) as [|t ts] eqn:Et; [congruence|].
    cbn [Py.list_truthy]. rewrite (proj2 (Z.eqb_neq _ 0) Hweeks).
    rewrite fold_left_snoc. cbn [app]. split.
    + unfold Py.len. rewrite length_map, range_length. lia.
    + apply List.Forall_forall. intros r Hr. apply in_map_iff in Hr.
      destruct Hr as (i & <- & _). cbn. split; [reflexivity|].
      unfold subject_by_id, Py.next in Hsub. apply find_some in Hsub.
      now apply String.eqb_eq.
  - intros group sid yh Hcase. unfold emitted, requirements_of_entry.
    destruct (yh >? 0) eqn:Eyh; [|reflexivity].
    apply Z.gtb_lt in Eyh.
    destruct Hcase as [Hle|[->|(subject & -> & ->)]]; [lia|reflexivity|reflexivity].
Qed.

Lemma requirement_derivation_witness :
  Institution.academic_weeks (institution Sample.generator) <> 0
  /\ _generate_lesson_requirements Sample.generator
     = Py.Ok (flat_map
                (fun group =>
                   flat_map (emitted Sample.generator group)
                     (ClassGroup.subject_hours group))
                (class_groups Sample.generator))
  /\ Py.len (emitted Sample.generator Sample.group ("chem", 280)) = 7
  /\ Py.len (emitted Sample.generator Sample.group ("chem", 10)) = 1.
Proof.
  assert (H0 : Institution.academic_weeks (institution Sample.generator) <> 0)
    by (vm_compute; discriminate).
  pose proof (requirement_derivation Sample.generator H0) as (H1 & H2 & _).
  split; [exact H0|]. split; [exact H1|]. split.
  - refine (proj1 (H2 Sample.group "chem" 280 Sample.chemistry _ _ _));
      [reflexivity|reflexivity|discriminate].
  - refine (proj1 (H2 Sample.group "chem" 10 Sample.chemistry _ _ _));
      [reflexivity|reflexivity|discriminate].
Defined.

(** ** C6: lesson times *)




















(** ** States that only grow *)

Lemma appended_refl (st : State) : appended st st.
Proof. split; exists []; now rewrite app_nil_r. Qed.

Lemma appended_trans (st1 st2 st3 : State) :
  appended st1 st2 -> appended st2 st3 -> appended st1 st3.
Proof.
  intros [[s1 E1] [l1 F1]] [[s2 E2] [l2 F2]]. split.
  - exists (s1 ++ s2). now rewrite E2, E1, app_assoc.
  - exists (l1 ++ l2). now rewrite F2, F1, app_assoc.
Qed.

Lemma appended_log (st : State) (m : string) : appended st (log st m).
Proof. split; [exists []; cbn; now rewrite app_nil_r|exists [m]; reflexivity]. Qed.

Lemma appended_log_after (st st' : State) (m : string) :
  appended st st' -> appended st (log st' m).
Proof. intros H. eapply appended_trans; [exact H|apply appended_log]. Qed.

Lemma fold_appended {A} (f : State -> A -> State) (l : list A) (st : State) :
  (forall st x, appended st (f st x)) ->
  appended st (fold_left f l st).
Proof.
  intros Hf. revert st. induction l as [|x l IH]; intros st; cbn.
  - apply appended_refl.
  - eapply appended_trans; [apply Hf|apply IH].
Qed.

Lemma fold_pair_appended {A B} (f : list B * State -> A -> list B * State)
  (l : list A) (acc : list B) (st : State) :
  (forall acc st x, appended st (snd (f (acc, st) x))) ->
  appended st (snd (fold_left f l (acc, st))).
Proof.
  intros Hf. revert acc st. induction l as [|x l IH]; intros acc st; cbn.
  - apply appended_refl.
  - specialize (Hf acc st x). destruct (f (acc, st) x) as [acc' st'].
    eapply appended_trans; [exact Hf|apply IH].
Qed.

(** One step of the proof that a method only appends. *)
Ltac appended_step :=
  match goal with
  | |- appended ?a ?a => apply appended_refl
  | |- appended ?a (log ?b ?m) => apply appended_log_after
  | |- appended ?a (fold_left ?f ?l ?b) =>
      apply (appended_trans a b); [|apply fold_appended; intros]
  | |- appended _ (match ?x with _ => _ end) => destruct x
  end.

(** ** C3: the classrooms offered to a lab subject *)

Lemma filter_truthy {A} (p : A -> bool) (l : list A) :
  Py.list_truthy (List.filter p l) = existsb p l.
Proof.
  induction l as [|x l IH]; simpl; [reflexivity|].
  destruct (p x); simpl; [reflexivity|assumption].
Qed.

Lemma suitable_for_lab (self : ScheduleGenerator) (subject_id teacher_id : string) :
  _get_suitable_classrooms_for_teacher self "lab" subject_id teacher_id
  = if existsb (specialized_for subject_id) (classrooms self)
    then List.filter (specialized_for subject_id) (classrooms self)
    else List.filter blank_lab (classrooms self).
Proof.
  unfold _get_suitable_classrooms_for_teacher,
    _get_specialized_classrooms_for_subject.
  cbn [String.eqb Ascii.eqb Bool.eqb andb].
  fold (specialized_for subject_id). now rewrite filter_truthy.
Qed.

Lemma appended_logs_In (st st' : State) (line : string) :
  appended st st' -> In line (logs st) -> In line (logs st').
Proof. intros [_ [lines ->]] H. apply in_or_app. now left. Qed.

Lemma fold_logs_In {A} (f : State -> A -> State) (l : list A) (st : State)
  (x : A) (line : string) :
  (forall st y, appended st (f st y)) ->
  (forall st y, schedule (f st y) = schedule st) ->
  In x l ->
  (forall st', schedule st' = schedule st -> In line (logs (f st' x))) ->
  In line (logs (fold_left f l st)).
Proof.
  intros Happ Hsched. revert st.
  induction l as [|y l IH]; intros st Hx Hline; [destruct Hx|].
  cbn [fold_left]. destruct Hx as [->|Hx].
  - apply (appended_logs_In (f st x)); [now apply fold_appended|].
    now apply Hline.
  - apply IH; [exact Hx|]. intros st' E. apply Hline. now rewrite E, Hsched.
Qed.

Lemma optimizer_reports_unauthorized (self : ScheduleGenerator) (st : State)
  (lab : Classroom.t) (s : Slot.t) :
  In lab (classrooms self) ->
  Classroom.type lab = "lab" ->
  Py.opt_truthy (Classroom.specialization lab) = true ->
  In s (schedule st) ->
  Slot.classroom_id s = Classroom.id lab ->
  Py.str_in (Slot.subject_id s) (specialization_subjects lab) = false ->
  In ("⚠️ Room " +:+ Classroom.number lab +:+ ": Unauthorized subjects detected!")
    (logs (_optimize_schedule_distribution self st)).
Proof.
  intros Hin Htype Htruthy Hs Hroom Hsubject.
  unfold _optimize_schedule_distribution. cbv zeta.
  match goal with |- In _ (logs (log ?X _)) =>
    apply (appended_logs_In X); [apply appended_log|]
  end.
  match goal with |- In _ (logs (fold_left ?f ?l ?X)) =>
    apply (appended_logs_In X);
      [apply fold_appended; intros; repeat appended_step|]
  end.
  match goal with
  | |- In ?line (logs (fold_left ?f (List.filter ?p ?l) ?st0)) =>
      apply (fold_logs_In f (List.filter p l) st0 lab line)
  end.
  - intros st' y. repeat appended_step.
  - intros st' y. destruct (Py.list_truthy _); reflexivity.
  - apply filter_In. split; [exact Hin|]. rewrite Htype, Htruthy. reflexivity.
  - intros st' E.
    assert (Hst : schedule st' = schedule st).
    { rewrite E. rewrite fold_log_schedule; [reflexivity|].
      intros st1 g. destruct (_ >? 2); reflexivity. }
    rewrite Htruthy.
    match goal with |- context [Py.list_truthy ?u] =>
      assert (Hu : Py.list_truthy u = true)
    end.
    { rewrite filter_truthy. apply existsb_exists. exists (Slot.subject_id s).
      split; [|now rewrite Hsubject].
      apply in_map. cbn [schedule log]. apply filter_In.
      split; [now rewrite Hst|]. rewrite Hroom. apply String.eqb_refl. }
    rewrite Hu. cbn [logs log]. apply in_or_app. right. now left.
Qed.

Lemma specialized_for_not (self : ScheduleGenerator) (subject_id : string)
  (lab : Classroom.t) :
  existsb (specialized_for subject_id) (classrooms self) = false ->
  In lab (classrooms self) ->
  Classroom.type lab = "lab" ->
  Py.opt_truthy (Classroom.specialization lab) = true ->
  Py.str_in subject_id (specialization_subjects lab) = false.
Proof.
  intros Hnone Hin Htype Htruthy.
  destruct (Py.str_in subject_id (specialization_subjects lab)) eqn:E;
    [|reflexivity].
  assert (H : existsb (specialized_for subject_id) (classrooms self) = true).
  { apply existsb_exists. exists lab. split; [exact Hin|].
    unfold specialized_for. now rewrite Htype, Htruthy, E. }
  congruence.
Qed.

(** C3.  The classrooms offered to a lab subject.  When some lab is
    specialized for the subject, they are exactly the labs specialized for
    it, none of them a lab without specialization.  When none is, every lab
    without specialization is offered, and so is every lab whose
    specialization is not empty but made of whitespace: the search offers
    such a lab although it is no lab without specialization, the
    diagnostics do not count it as suitable for the subject, and the
    optimizer reports a lesson of the subject held in it as unauthorized. *)
Theorem specialized_lab_exclusivity (self : ScheduleGenerator)
  (subject_id teacher_id : string) :
  (existsb (specialized_for subject_id) (classrooms self) = true ->
   _get_suitable_classrooms_for_teacher self "lab" subject_id teacher_id
   = List.filter (specialized_for subject_id) (classrooms self)
   /\ Forall (fun c => unspecialized_lab c = false)
        (_get_suitable_classrooms_for_teacher self "lab" subject_id teacher_id))
  /\ (existsb (specialized_for subject_id) (classrooms self) = false ->
      _get_suitable_classrooms_for_teacher self "lab" subject_id teacher_id
      = List.filter blank_lab (classrooms self)
      /\ (forall c,
            In c (classrooms self) ->
            unspecialized_lab c = true ->
            In c (_get_suitable_classrooms_for_teacher self "lab" subject_id
                    teacher_id))
      /\ forall lab,
           In lab (classrooms self) ->
           Classroom.type lab = "lab" ->
           Py.opt_truthy (Classroom.specialization lab) = true ->
           specialization_blank lab = true ->
           In lab (_get_suitable_classrooms_for_teacher self "lab" subject_id
                     teacher_id)
           /\ unspecialized_lab lab = false
           /\ ~ In lab (_get_suitable_classrooms_for_subject_type self "lab"
                          subject_id)
           /\ forall st s,
                In s (schedule st) ->
                Slot.classroom_id s = Classroom.id lab ->
                Slot.subject_id s = subject_id ->
                In ("⚠️ Room " +:+ Classroom.number lab
                    +:+ ": Unauthorized subjects detected!")
                  (logs (_optimize_schedule_distribution self st))).
Proof.
  rewrite suitable_for_lab. split; intros Hsome; rewrite Hsome.
  - split; [reflexivity|].
    apply List.Forall_forall. intros c Hc. apply filter_In in Hc.
    destruct Hc as [_ Hc]. unfold specialized_for in Hc. unfold unspecialized_lab.
    destruct (String.eqb (Classroom.type c) "lab"); [|reflexivity].
    destruct (Py.opt_truthy (Classroom.specialization c)); [reflexivity|discriminate].
  - split; [reflexivity|]. split.
    + intros c Hin Hc. apply filter_In. split; [exact Hin|].
      unfold unspecialized_lab in Hc. unfold blank_lab.
      apply andb_prop in Hc. destruct Hc as [-> ->]. reflexivity.
    + intros lab Hin Htype Htruthy Hblank. split; [|split; [|split]].
      * apply filter_In. split; [exact Hin|].
        unfold blank_lab. rewrite Htype, Htruthy, Hblank. reflexivity.
      * unfold unspecialized_lab. rewrite Htype, Htruthy. reflexivity.
      * unfold _get_suitable_classrooms_for_subject_type,
          _get_specialized_classrooms_for_subject.
        cbn [String.eqb Ascii.eqb Bool.eqb andb].
        fold (specialized_for subject_id). rewrite filter_truthy, Hsome.
        intros H. apply filter_In in H. destruct H as [_ H].
        rewrite Htruthy in H. rewrite Bool.andb_false_r in H. discriminate.
      * intros st s Hs Hroom Hsubject.
        apply (optimizer_reports_unauthorized self st lab s); auto.
        rewrite Hsubject.
        now apply (specialized_for_not self subject_id lab).
Qed.

Lemma specialized_lab_exclusivity_witness :
  existsb (specialized_for "chem") (classrooms Sample.generator) = true
  /\ _get_suitable_classrooms_for_teacher Sample.generator "lab" "chem" "t1"
     = [Sample.chemistry_lab]
  /\ existsb (specialized_for "chem") (classrooms Cases.two_groups_spaced_lab)
     = false
  /\ In Sample.spaced_lab
       (_get_suitable_classrooms_for_teacher Cases.two_groups_spaced_lab "lab"
          "chem" "t2")
  /\ ~ In Sample.spaced_lab
         (_get_suitable_classrooms_for_subject_type Cases.two_groups_spaced_lab
            "lab" "chem")
  /\ result_schedule
       (generate_schedule Cases.two_groups_spaced_lab Sample.no_message
          Sample.empty_state)
     = [Slot.mk 0 "Monday" 1 "g1" "chem" "t1" "c4" "09:00" "10:10";
        Slot.mk 0 "Monday" 1 "g2" "chem" "t2" "c5" "09:00" "10:10"]
  /\ In "⚠️ Room 105: Unauthorized subjects detected!"
       (result_logs
          (generate_schedule Cases.two_groups_spaced_lab Sample.no_message
             Sample.empty_state)).
Proof.
  assert (H0 : existsb (specialized_for "chem") (classrooms Sample.generator) = true)
    by reflexivity.
  assert (H1 : existsb (specialized_for "chem")
                 (classrooms Cases.two_groups_spaced_lab) = false)
    by reflexivity.
  assert (Hin : In Sample.spaced_lab (classrooms Cases.two_groups_spaced_lab))
    by (right; left; reflexivity).
  destruct (proj2 (proj2 (proj2 (specialized_lab_exclusivity
                                   Cases.two_groups_spaced_lab "chem" "t2") H1))
              Sample.spaced_lab Hin eq_refl eq_refl eq_refl)
    as (Hoffered & _ & Hdiagnostics & _).
  split; [exact H0|]. split.
  { exact (proj1 (proj1 (specialized_lab_exclusivity Sample.generator "chem" "t1") H0)). }
  split; [exact H1|]. split; [exact Hoffered|]. split; [exact Hdiagnostics|].
  split; [vm_compute; reflexivity|].
  vm_compute. do 40 (try (left; reflexivity); try right).
Defined.

(** The same on the sample college with the two labs: no lab is specialized
    for chemistry, and room 105, whose specialization is a single space, is
    offered with the general lab. *)
Remark spaced_lab_is_offered :
  existsb (specialized_for "chem") (classrooms Sample.with_spaced_lab) = false
  /\ _get_suitable_classrooms_for_teacher Sample.with_spaced_lab "lab" "chem" "t1"
     = [Sample.general_lab; Sample.spaced_lab]
  /\ unspecialized_lab Sample.spaced_lab = false.
Proof. repeat split. Qed.

(** A specialization made of a no-break space is whitespace too. *)
Remark no_break_lab_is_blank :
  Py.opt_truthy (Classroom.specialization Cases.no_break_lab) = true
  /\ specialization_blank Cases.no_break_lab = true
  /\ blank_lab Cases.no_break_lab = true.
Proof. repeat split. Qed.

(** The lab whose specialization is a single space is the specialized lab
    of the subject whose id is a single space, and is then the only
    classroom offered. *)
Remark whitespace_specialization_is_a_specialization :
  _get_suitable_classrooms_for_teacher Sample.with_spaced_lab "lab" " " "t1"
  = [Sample.spaced_lab]
  /\ blank_lab Sample.spaced_lab = true.
Proof. split; reflexivity. Qed.

(** ** C7: the home classroom wins *)

Lemma classroom_by_id_unique (self : ScheduleGenerator) (c : Classroom.t) :
  List.NoDup (List.map Classroom.id (classrooms self)) ->
  In c (classrooms self) ->
  classroom_by_id self (Classroom.id c) = Some c.
Proof.
  unfold classroom_by_id, Py.next.
  induction (classrooms self) as [|x l IH]; simpl; [contradiction|].
  intros Hnd Hin. apply NoDup_cons_iff in Hnd. destruct Hnd as [Hx Hnd].
  destruct (String.eqb (Classroom.id x) (Classroom.id c)) eqn:E.
  - destruct Hin as [->|Hin]; [reflexivity|].
    apply String.eqb_eq in E. exfalso. apply Hx. rewrite E.
    now apply in_map.
  - destruct Hin as [->|Hin]; [|now apply IH].
    now rewrite String.eqb_refl in E.
Qed.

Lemma suitable_in_classrooms (self : ScheduleGenerator)
  (subject_type subject_id teacher_id : string) (c : Classroom.t) :
  In c (_get_suitable_classrooms_for_teacher self subject_type subject_id teacher_id) ->
  In c (classrooms self).
Proof.
  unfold _get_suitable_classrooms_for_teacher,
    _get_specialized_classrooms_for_subject.
  destruct (String.eqb subject_type "lab").
  - destruct (Py.list_truthy _); intros H; apply filter_In in H; tauto.
  - rewrite !in_app_iff, !filter_In. intros [[H|H]|H]; try tauto.
    destruct (teacher_by_id self teacher_id) as [teacher|]; [|destruct H].
    destruct (Py.opt_truthy (Teacher.home_classroom teacher)); [|destruct H].
    destruct (Py.next _ (classrooms self)) as [lab|] eqn:E; [|destruct H].
    destruct (String.eqb (Classroom.type lab) "teacher_lab"); [|destruct H].
    destruct H as [<-|[]]. unfold Py.next in E. now apply find_some in E.
Qed.

(** All the classrooms offered for one requirement and teacher earn the
    specialization bonus, or none does. *)
Lemma suitable_specialized (self : ScheduleGenerator)
  (subject_type subject_id teacher_id : string) (c : Classroom.t) :
  In c (_get_suitable_classrooms_for_teacher self subject_type subject_id teacher_id) ->
  specialized_for subject_id c
  = String.eqb subject_type "lab"
    && existsb (specialized_for subject_id) (classrooms self).
Proof.
  destruct (String.eqb subject_type "lab") eqn:Ety.
  - apply String.eqb_eq in Ety. subst subject_type. rewrite suitable_for_lab.
    destruct (existsb (specialized_for subject_id) (classrooms self)) eqn:Ex;
      intros H; apply filter_In in H; destruct H as [Hin Hc]; [assumption|].
    simpl. apply Bool.not_true_iff_false. intros Hs.
    apply Bool.not_true_iff_false in Ex. apply Ex.
    apply existsb_exists. eauto.
  - unfold _get_suitable_classrooms_for_teacher. rewrite Ety.
    assert (Hty : forall ty, String.eqb (Classroom.type c) ty = true ->
                    String.eqb ty "lab" = false ->
                    specialized_for subject_id c = false && false).
    { intros ty E1 E2. apply String.eqb_eq in E1. unfold specialized_for.
      now rewrite E1, E2. }
    rewrite !in_app_iff, !filter_In. intros [[H|H]|H].
    + destruct (teacher_by_id self teacher_id) as [teacher|]; [|destruct H].
      destruct (Py.opt_truthy (Teacher.home_classroom teacher)); [|destruct H].
      destruct (Py.next _ (classrooms self)) as [lab|]; [|destruct H].
      destruct (String.eqb (Classroom.type lab) "teacher_lab") eqn:E; [|destruct H].
      destruct H as [<-|[]]. now apply (Hty "teacher_lab").
    + destruct H as [_ H]. now apply (Hty "theory").
    + destruct H as [_ H]. apply Bool.andb_true_iff in H.
      now apply (Hty "teacher_lab").
Qed.

Lemma select_best_of_two (self : ScheduleGenerator) (st : State)
  (r : Requirement.t) (a b : Slot.t) :
  _score_slot self st b r < _score_slot self st a r ->
  _select_best_slot self st [a; b] r = Some a
  /\ _select_best_slot self st [b; a] r = Some a.
Proof.
  intros H. unfold _select_best_slot.
  cbn [Py.list_truthy negb List.map Py.sorted Py.insert_by snd fst].
  replace (- _score_slot self st a r <=? - _score_slot self st b r) with true
    by (symmetry; apply Z.leb_le; lia).
  replace (- _score_slot self st b r <=? - _score_slot self st a r) with false
    by (symmetry; apply Z.leb_gt; lia).
  split; reflexivity.
Qed.

(** The score as the sum of its six terms. *)
Lemma score_slot_terms (self : ScheduleGenerator) (st : State) (slot : Slot.t)
  (r : Requirement.t) :
  _score_slot self st slot r
  = (Py.len (Institution.working_days (institution self))
     - (if Py.str_in (Slot.day slot) (Institution.working_days (institution self))
        then default 0 (index (Slot.day slot)
                          (Institution.working_days (institution self)))
        else 0)) * 2
    + (Institution.lessons_per_day (institution self)
       - Z.abs (Slot.lesson_number slot
                - (Institution.lessons_per_day (institution self) + 1) / 2)) * 3
    - Py.len
        (List.filter
           (fun s => String.eqb (Slot.class_group_id s) (Slot.class_group_id slot)
                     && String.eqb (Slot.day s) (Slot.day slot))
           (schedule st)) * 5
    + match teacher_by_id self (Slot.teacher_id slot) with
      | Some teacher =>
          if Py.opt_eqb (Teacher.home_classroom teacher) (Slot.classroom_id slot)
          then 100 else 0
      | None => 0
      end
    + match classroom_by_id self (Slot.classroom_id slot) with
      | Some classroom =>
          if specialized_for (Requirement.subject_id r) classroom then 50 else 0
      | None => 0
      end
    + (if String.eqb (Requirement.subject_type r) "lab"
          && existsb
               (fun s =>
                  String.eqb (Slot.class_group_id s) (Slot.class_group_id slot)
                  && String.eqb (Slot.subject_id s) (Slot.subject_id slot)
                  && String.eqb (Slot.day s) (Slot.day slot)
                  && (Z.abs (Slot.lesson_number s - Slot.lesson_number slot) =? 1))
               (schedule st)
       then 15 else 0).
Proof.
  unfold _score_slot, specialized_for.
  destruct (teacher_by_id self (Slot.teacher_id slot)) as [teacher|];
    [destruct (Py.opt_eqb (Teacher.home_classroom teacher) (Slot.classroom_id slot))|];
    (destruct (classroom_by_id self (Slot.classroom_id slot)) as [classroom|];
     [destruct (String.eqb (Classroom.type classroom) "lab"
                && Py.opt_truthy (Classroom.specialization classroom));
      [destruct (Py.str_in (Requirement.subject_id r)
                   (specialization_subjects classroom))|]|]);
    cbn [andb];
    (destruct (String.eqb (Requirement.subject_type r) "lab");
     [destruct (existsb _ (schedule st))|]);
    cbn [andb]; lia.
Qed.

(** C7.  Scoring dominance, the classroom ids being distinct: of two slots
    that the search offers for one requirement, on the same day, at the same
    lesson and with the same teacher, one in the teacher's home classroom and
    the other not, the first scores 100 points more than the second (so at
    least 100 more); the selector picks it from the two, in either order,
    and never picks the second from any list that holds the first. *)
Theorem home_classroom_dominance (self : ScheduleGenerator) (st : State)
  (r : Requirement.t) (l : list Slot.t) (a b : Slot.t) (teacher : Teacher.t) :
  List.NoDup (List.map Classroom.id (classrooms self)) ->
  _find_available_slots self st r = Py.Ok l ->
  In a l -> In b l ->
  Slot.day a = Slot.day b ->
  Slot.lesson_number a = Slot.lesson_number b ->
  Slot.teacher_id a = Slot.teacher_id b ->
  teacher_by_id self (Slot.teacher_id a) = Some teacher ->
  Py.opt_eqb (Teacher.home_classroom teacher) (Slot.classroom_id a) = true ->
  Py.opt_eqb (Teacher.home_classroom teacher) (Slot.classroom_id b) = false ->
  Slot.class_group_id a = Slot.class_group_id b
  /\ Slot.subject_id a = Slot.subject_id b
  /\ _score_slot self st a r = _score_slot self st b r + 100
  /\ _score_slot self st b r + 100 <= _score_slot self st a r
  /\ _select_best_slot self st [a; b] r = Some a
  /\ _select_best_slot self st [b; a] r = Some a
  /\ (forall l', In a l' -> _select_best_slot self st l' r <> Some b).
Proof.
  intros Hnd Hfind Ha Hb Hday Hlesson Hteacher Hlookup Hhome_a Hhome_b.
  apply find_available_slots_feasible in Hfind.
  rewrite List.Forall_forall in Hfind.
  pose proof (Hfind a Ha) as Fa. pose proof (Hfind b Hb) as Fb.
  assert (Hgroup : Slot.class_group_id a = Slot.class_group_id b)
    by (rewrite (feasible_group _ _ _ _ Fa), (feasible_group _ _ _ _ Fb);
        reflexivity).
  assert (Hsubject : Slot.subject_id a = Slot.subject_id b)
    by (rewrite (feasible_subject _ _ _ _ Fa), (feasible_subject _ _ _ _ Fb);
        reflexivity).
  assert (Hscore : _score_slot self st a r = _score_slot self st b r + 100).
  { destruct (feasible_classroom _ _ _ _ Fa) as (ca & Hca & Eca).
    destruct (feasible_classroom _ _ _ _ Fb) as (cb & Hcb & Ecb).
    rewrite <- Hteacher in Hcb.
    pose proof (suitable_specialized _ _ _ _ _ Hca) as Sa.
    pose proof (suitable_specialized _ _ _ _ _ Hcb) as Sb.
    pose proof (classroom_by_id_unique self ca Hnd
                  (suitable_in_classrooms _ _ _ _ _ Hca)) as La.
    pose proof (classroom_by_id_unique self cb Hnd
                  (suitable_in_classrooms _ _ _ _ _ Hcb)) as Lb.
    rewrite <- Eca in La. rewrite <- Ecb in Lb.
    rewrite !score_slot_terms.
    rewrite La, Lb, Sa, Sb, <- Hteacher, Hlookup, Hhome_a, Hhome_b.
    rewrite <- Hday, <- Hlesson, <- Hgroup, <- Hsubject. lia. }
  split; [exact Hgroup|]. split; [exact Hsubject|].
  split; [exact Hscore|]. split; [lia|].
  destruct (select_best_of_two self st r a b) as [H1 H2]; [lia|].
  split; [exact H1|]. split; [exact H2|].
  intros l' Hin Hsel. apply select_best_slot_best in Hsel.
  destruct Hsel as [_ Hmax]. specialize (Hmax a Hin). lia.
Qed.

(** The search matters: between two slots it would not offer together, one
    in Bob's room and one in the chemistry lab, the gap is of 50 points. *)
Remark score_gap_outside_the_search :
  _score_slot Sample.generator Sample.empty_state
    (Slot.mk 0 "Monday" 1 "g1" "chem" "t2" "c3" "09:00" "10:10")
    Sample.chemistry_requirement
  = _score_slot Sample.generator Sample.empty_state
      (Slot.mk 1 "Monday" 1 "g1" "chem" "t2" "c1" "09:00" "10:10")
      Sample.chemistry_requirement + 50.
Proof. vm_compute. reflexivity. Qed.

Lemma home_classroom_dominance_witness :
  In Sample.home_slot Sample.mathematics_candidates
  /\ In Sample.other_slot Sample.mathematics_candidates
  /\ _score_slot Sample.generator Sample.empty_state Sample.home_slot
       Sample.mathematics_requirement
     = _score_slot Sample.generator Sample.empty_state Sample.other_slot
         Sample.mathematics_requirement + 100
  /\ _select_best_slot Sample.generator Sample.empty_state
       [Sample.other_slot; Sample.home_slot] Sample.mathematics_requirement
     = Some Sample.home_slot.
Proof.
  assert (Hnd : List.NoDup (List.map Classroom.id (classrooms Sample.generator))).
  { cbn. repeat (apply List.NoDup_cons; [cbn; intuition discriminate|]).
    apply List.NoDup_nil. }
  assert (Hfind : _find_available_slots Sample.generator Sample.empty_state
                    Sample.mathematics_requirement
                  = Py.Ok Sample.mathematics_candidates)
    by (vm_compute; reflexivity).
  assert (Ha : In Sample.home_slot Sample.mathematics_candidates)
    by (vm_compute; left; reflexivity).
  assert (Hb : In Sample.other_slot Sample.mathematics_candidates)
    by (vm_compute; right; left; reflexivity).
  assert (Hlookup : teacher_by_id Sample.generator (Slot.teacher_id Sample.home_slot)
                    = Some Sample.bob)
    by reflexivity.
  pose proof (home_classroom_dominance Sample.generator Sample.empty_state
                Sample.mathematics_requirement Sample.mathematics_candidates
                Sample.home_slot Sample.other_slot Sample.bob
                Hnd Hfind Ha Hb eq_refl eq_refl eq_refl Hlookup eq_refl eq_refl)
    as (_ & _ & Hscore & _ & _ & Hsel & _).
  split; [exact Ha|]. split; [exact Hb|]. split; [exact Hscore|exact Hsel].
Defined.

(** ** C9: the classroom check of the failure diagnostics *)

(** C9.  The classroom check: when no classroom is suitable for the subject
    and type of a requirement, the branch logs one critical line and stops,
    and the line is always the one for no lab in the system (lab subjects) or
    the one for no theory classroom in the system (other subjects); the
    whole diagnostics then end on one of the critical lines of steps 1 to 4.
    The lines for specialized labs, general labs or theory classrooms that
    exist and are unavailable are never written: with both teachers free and
    the only lab, specialized for chemistry, booked at the only lesson of the
    week, the second group's chemistry lesson is diagnosed by the conflict
    analysis. *)
Theorem classroom_check_messages (self : ScheduleGenerator) (st : State)
  (r : Requirement.t) :
  _get_suitable_classrooms_for_subject_type self (Requirement.subject_type r)
    (Requirement.subject_id r) = [] ->
  report_no_suitable_classroom self st r
  = log st (if String.eqb (Requirement.subject_type r) "lab"
            then msg_no_labs else msg_no_theory)
  /\ (exists st1 m,
        _analyze_scheduling_failure self st r = log st1 m
        /\ (m = "   🚫 CRITICAL: No teachers assigned to subject " +:+ Py.quote
                +:+ Requirement.subject_name r +:+ Py.quote
            \/ m = "   🚫 CRITICAL: None of the assigned teachers exist in the system"
            \/ m = "   🚫 CRITICAL: None of the assigned teachers have any available hours"
            \/ m = if String.eqb (Requirement.subject_type r) "lab"
                   then msg_no_labs else msg_no_theory))
  /\ result_logs (generate_schedule Sample.crowded Sample.no_message
                    Sample.empty_state)
     = ["✅ Input validation passed";
        "🏫 Specialized laboratories detected:";
        "   📍 Room 101: Chemistry";
        "📋 Generated 2 lesson requirements";
        "🔄 Prioritized lesson requirements";
        "✅ Scheduled Chemistry for Group 1 on Monday lesson 1 in room 101 with Ann Lee";
        "⚠️ No available slots for Chemistry - Group 2";
        "❌ Failed to schedule: Chemistry for Group 2";
        "   🔍 Analyzing time conflicts for 2 teachers and 1 classrooms";
        "   📊 Conflict analysis results:";
        "      • Total time slots checked: 1";
        "      • Group already scheduled: 0 slots";
        "      • Teachers already scheduled: 1 conflicts";
        "      • Teachers not available: 0 conflicts";
        "      • Classrooms already scheduled: 1 conflicts";
        "   💡 RECOMMENDATION: Complex scheduling conflict - try adjusting teacher hours or adding resources";
        "✅ Scheduling complete: 1 scheduled, 1 failed";
        "🔧 Optimizing schedule distribution...";
        "🏫 Specialized Lab 101: 1 lessons";
        "✅ Room 101: Only authorized subjects scheduled";
        "✅ Distribution optimization complete"].
Proof.
  intros Hnone.
  assert (Hreport : forall st0,
            report_no_suitable_classroom self st0 r
            = log st0 (if String.eqb (Requirement.subject_type r) "lab"
                       then msg_no_labs else msg_no_theory)).
  { intros st0. revert Hnone.
    unfold _get_suitable_classrooms_for_subject_type,
      report_no_suitable_classroom.
    destruct (String.eqb (Requirement.subject_type r) "lab").
    - destruct (_get_specialized_classrooms_for_subject self
                  (Requirement.subject_id r)); cbn [Py.list_truthy];
        [|discriminate].
      intros ->. reflexivity.
    - intros ->. reflexivity. }
  split; [apply Hreport|]. split; [|vm_compute; reflexivity].
  assert (Hstop : forall st0 m,
            (m = "   🚫 CRITICAL: No teachers assigned to subject " +:+ Py.quote
                 +:+ Requirement.subject_name r +:+ Py.quote
             \/ m = "   🚫 CRITICAL: None of the assigned teachers exist in the system"
             \/ m = "   🚫 CRITICAL: None of the assigned teachers have any available hours"
             \/ m = if String.eqb (Requirement.subject_type r) "lab"
                    then msg_no_labs else msg_no_theory) ->
            exists st1 m', log st0 m = log st1 m'
              /\ (m' = "   🚫 CRITICAL: No teachers assigned to subject " +:+ Py.quote
                        +:+ Requirement.subject_name r +:+ Py.quote
                  \/ m' = "   🚫 CRITICAL: None of the assigned teachers exist in the system"
                  \/ m' = "   🚫 CRITICAL: None of the assigned teachers have any available hours"
                  \/ m' = if String.eqb (Requirement.subject_type r) "lab"
                          then msg_no_labs else msg_no_theory))
    by (intros st0 m Hm; exists st0, m; split; [reflexivity|exact Hm]).
  unfold _analyze_scheduling_failure.
  destruct (negb (Py.list_truthy (Requirement.available_teacher_ids r)));
    [apply Hstop; left; reflexivity|].
  match goal with |- context [fold_left ?f ?l ?a] =>
    destruct (fold_left f l a) as [existing st1] end.
  destruct (negb (Py.list_truthy existing));
    [apply Hstop; right; left; reflexivity|].
  match goal with |- context [fold_left ?f ?l ?a] =>
    destruct (fold_left f l a) as [avail st2] end.
  destruct (negb (Py.list_truthy avail));
    [apply Hstop; right; right; left; reflexivity|].
  rewrite Hnone. cbn [Py.list_truthy negb]. rewrite Hreport.
  apply Hstop. right; right; right. reflexivity.
Qed.

Lemma classroom_check_messages_witness :
  _get_suitable_classrooms_for_subject_type Sample.with_spaced_lab
    (Requirement.subject_type Sample.mathematics_requirement)
    (Requirement.subject_id Sample.mathematics_requirement) = []
  /\ report_no_suitable_classroom Sample.with_spaced_lab Sample.empty_state
       Sample.mathematics_requirement
     = log Sample.empty_state msg_no_theory.
Proof.
  assert (H0 : _get_suitable_classrooms_for_subject_type Sample.with_spaced_lab
                 (Requirement.subject_type Sample.mathematics_requirement)
                 (Requirement.subject_id Sample.mathematics_requirement) = [])
    by reflexivity.
  split; [exact H0|].
  exact (proj1 (classroom_check_messages Sample.with_spaced_lab
                  Sample.empty_state Sample.mathematics_requirement H0)).
Defined.

(** ** The builtins on small inputs *)

Example split_two : Py.split ", " "chem, bio" = ["chem"; "bio"].
Proof. reflexivity. Qed.

Example split_nothing : Py.split ", " EmptyString = [EmptyString].
Proof. reflexivity. Qed.

Example split_separator_only : Py.split ", " ", " = [EmptyString; EmptyString].
Proof. reflexivity. Qed.

Example split_space : Py.split ", " " " = [" "].
Proof. reflexivity. Qed.

Example strip_space : Py.strip "  chem " = "chem".
Proof. reflexivity. Qed.

Example int_leading_zero : Py.int "09" = Py.Ok 9.
Proof. reflexivity. Qed.

Example int_signed : Py.int " -1_0 " = Py.Ok (-10).
Proof. reflexivity. Qed.

Example int_malformed : Py.int "9h" = Py.Raise Py.ValueError.
Proof. reflexivity. Qed.

(** Whitespace and digits outside ASCII: [strip] drops a no-break space and
    the separator control 28, [int] skips the first and not the second, and
    reads the digits of other scripts; a literal of more than 4300 digits is
    refused. *)
Example strip_no_break_space :
  Py.strip (Cases.no_break_space +:+ "chem" +:+ Cases.no_break_space) = "chem".
Proof. reflexivity. Qed.

Example strip_separator_control :
  Py.strip (String (ascii_of_nat 28) "chem") = "chem".
Proof. reflexivity. Qed.

Example int_separator_control :
  Py.int (String (ascii_of_nat 28) "5") = Py.Raise Py.ValueError.
Proof. reflexivity. Qed.

Example int_no_break_space :
  Py.int ("9" +:+ Cases.no_break_space) = Py.Ok 9.
Proof. reflexivity. Qed.

Example int_arabic_indic : Py.int "٠٩" = Py.Ok 9.
Proof. reflexivity. Qed.

Example int_fullwidth_signed : Py.int "-１_２" = Py.Ok (-12).
Proof. reflexivity. Qed.

Example int_digit_limit :
  Py.int (String.concat EmptyString (List.repeat "0" 4300)) = Py.Ok 0
  /\ Py.int (String.concat EmptyString (List.repeat "0" 4301))
     = Py.Raise Py.ValueError.
Proof. split; vm_compute; reflexivity. Qed.

Example fmt_one_digit : Py.fmt_02d 5 = "05".
Proof. reflexivity. Qed.

Example fmt_three_digits : Py.fmt_02d 123 = "123".
Proof. reflexivity. Qed.

Example fmt_negative : Py.fmt_02d (-5) = "-5".
Proof. reflexivity. Qed.

Example sorted_is_stable :
  Py.sorted fst [(2, "a"); (1, "b"); (2, "c"); (1, "d")]
  = [(1, "b"); (1, "d"); (2, "a"); (2, "c")].
Proof. reflexivity. Qed.

Example start_clock_malformed :
  start_clock
    {| institution := Institution.mk ["Monday"] 1 70 [] "9h00" 40;
       class_groups := []; subjects := []; teachers := []; classrooms := [] |}
  = Py.Raise Py.ValueError.
Proof. reflexivity. Qed.

Example start_clock_arabic_indic :
  start_clock (Cases.starting_at "٠٩:٠٠") = Py.Ok (9, 0).
Proof. reflexivity. Qed.

Example start_clock_no_break_space :
  start_clock (Cases.starting_at ("9" +:+ Cases.no_break_space +:+ ":00"))
  = Py.Ok (9, 0).
Proof. reflexivity. Qed.

(** A full run of the sample college. *)
Example sample_run :
  success (generate_schedule Sample.generator Sample.no_message Sample.empty_state)
  = true
  /\ result_schedule
       (generate_schedule Sample.generator Sample.no_message Sample.empty_state)
     = Sample.final_schedule.
Proof. split; vm_compute; reflexivity. Qed.

(** * Further properties *)

(** ** The slot search, in full *)

Lemma for_each_extends {A B} (l : list A)
  (body : A -> list B -> Py.Result (list B)) (acc r : list B) :
  (forall y s s', In y l -> body y s = Py.Ok s' -> exists more, s' = s ++ more) ->
  Py.for_each l body acc = Py.Ok r ->
  exists more, r = acc ++ more.
Proof.
  intros Hbody.
  apply (for_each_invariant (fun s => exists more, s = acc ++ more)).
  - exists []. now rewrite app_nil_r.
  - intros y s s' Hy [m1 ->] Hs. destruct (Hbody y _ _ Hy Hs) as [m2 ->].
    exists (m1 ++ m2). now rewrite app_assoc.
Qed.

(** A loop that ran to its end ran its body on every element, and what the
    body left is still in the result when bodies only append. *)
Lemma for_each_visit {A B} (l : list A)
  (body : A -> list B -> Py.Result (list B)) (acc r : list B) (x : A) :
  (forall y s s', In y l -> body y s = Py.Ok s' -> exists more, s' = s ++ more) ->
  Py.for_each l body acc = Py.Ok r ->
  In x l ->
  exists a a' more, body x a = Py.Ok a' /\ r = a' ++ more.
Proof.
  revert acc. induction l as [|y l IH]; intros acc Hbody Hrun Hx; [destruct Hx|].
  simpl in Hrun. destruct (body y acc) as [s'|e] eqn:Ey; [|discriminate].
  simpl in Hrun. destruct Hx as [->|Hx].
  - destruct (for_each_extends l body s' r) as [more ->]; auto.
    + intros z s t Hz. apply Hbody. simpl. auto.
    + eauto.
  - apply (IH s'); auto. intros z s t Hz. apply Hbody. simpl. auto.
Qed.

Lemma start_clock_raises (self : ScheduleGenerator) (e : Py.Error) :
  start_clock self = Py.Raise e -> e = Py.ValueError.
Proof.
  assert (Hint : forall s e', Py.int s = Py.Raise e' -> e' = Py.ValueError).
  { intros s e'. unfold Py.int.
    destruct (Py.strip_chars Py.is_int_space (Py.chars s)) as [|c t];
      repeat match goal with
             | |- context [match ?x with _ => _ end] => destruct x; simpl
             end; congruence. }
  unfold start_clock.
  destruct (Py.split ":" _) as [|a [|b [|c l]]]; try (intros [= <-]; reflexivity).
  destruct (Py.int a) as [x|e1] eqn:Ea; simpl.
  - destruct (Py.int b) as [y|e2] eqn:Eb; simpl; [discriminate|].
    intros [= <-]. eauto.
  - intros [= <-]. eauto.
Qed.

Lemma calculate_lesson_time_ok (self : ScheduleGenerator) (hm : Z * Z) (n : Z) :
  start_clock self = Py.Ok hm ->
  exists t, _calculate_lesson_time self n = Py.Ok t.
Proof.
  intros H. unfold _calculate_lesson_time. rewrite H. destruct hm. simpl. eauto.
Qed.

Lemma calculate_lesson_time_raise (self : ScheduleGenerator) (e : Py.Error) (n : Z) :
  start_clock self = Py.Raise e ->
  _calculate_lesson_time self n = Py.Raise e.
Proof. intros H. unfold _calculate_lesson_time. now rewrite H. Qed.

Lemma find_available_slots_loops (self : ScheduleGenerator) (st : State)
  (r : Requirement.t) :
  _find_available_slots self st r
  = Py.for_each (Institution.working_days (institution self))
      (try_day self st r) [].
Proof. reflexivity. Qed.

Lemma for_each_raise {A S} (l : list A) (body : A -> S -> Py.Result S)
  (s : S) (e : Py.Error) :
  Py.for_each l body s = Py.Raise e ->
  exists x a, In x l /\ body x a = Py.Raise e.
Proof.
  revert s. induction l as [|x l IH]; intros s; simpl; [discriminate|].
  destruct (body x s) as [s'|e'] eqn:E; simpl.
  - intros H. destruct (IH _ H) as (y & a & Hy & Ha). eauto 6.
  - intros [= <-]. eauto 6.
Qed.

Lemma try_classroom_cases (self : ScheduleGenerator) (st : State)
  (r : Requirement.t) (day : string) (n : Z) (tid : string)
  (c : Classroom.t) (acc acc' : list Slot.t) :
  try_classroom self st r day n tid c acc = Py.Ok acc' ->
  (_is_slot_available self st (Requirement.group_id r) tid (Classroom.id c)
     day n = false /\ acc' = acc)
  \/ (_is_slot_available self st (Requirement.group_id r) tid (Classroom.id c)
        day n = true
      /\ exists t1 t2,
           _calculate_lesson_time self n = Py.Ok (t1, t2)
           /\ acc' = acc ++ [Slot.mk (Py.len acc) day n (Requirement.group_id r)
                               (Requirement.subject_id r) tid (Classroom.id c)
                               t1 t2]).
Proof.
  unfold try_classroom.
  destruct (_is_slot_available self st _ tid _ day n); [|intros [= <-]; auto].
  destruct (_calculate_lesson_time self n) as [[t1 t2]|e]; simpl; [|discriminate].
  intros [= <-]. right. eauto.
Qed.

Lemma try_classroom_extends (self : ScheduleGenerator) (st : State)
  (r : Requirement.t) (day : string) (n : Z) (tid : string)
  (c : Classroom.t) (acc acc' : list Slot.t) :
  try_classroom self st r day n tid c acc = Py.Ok acc' ->
  exists more, acc' = acc ++ more.
Proof.
  intros H. apply try_classroom_cases in H.
  destruct H as [[_ ->]|[_ (t1 & t2 & _ & ->)]]; [exists []|eauto].
  now rewrite app_nil_r.
Qed.

Lemma try_teacher_extends (self : ScheduleGenerator) (st : State)
  (r : Requirement.t) (day : string) (n : Z) (tid : string)
  (acc acc' : list Slot.t) :
  try_teacher self st r day n tid acc = Py.Ok acc' ->
  exists more, acc' = acc ++ more.
Proof.
  unfold try_teacher.
  destruct (teacher_by_id self tid) as [teacher|];
    [|intros [= <-]; exists []; now rewrite app_nil_r].
  destruct (negb (teacher_available teacher day n));
    [intros [= <-]; exists []; now rewrite app_nil_r|].
  apply for_each_extends. intros c s s' _. apply try_classroom_extends.
Qed.

Lemma try_lesson_extends (self : ScheduleGenerator) (st : State)
  (r : Requirement.t) (day : string) (n : Z) (acc acc' : list Slot.t) :
  try_lesson self st r day n acc = Py.Ok acc' ->
  exists more, acc' = acc ++ more.
Proof.
  apply for_each_extends. intros tid s s' _. apply try_teacher_extends.
Qed.

Lemma try_day_extends (self : ScheduleGenerator) (st : State)
  (r : Requirement.t) (day : string) (acc acc' : list Slot.t) :
  try_day self st r day acc = Py.Ok acc' ->
  exists more, acc' = acc ++ more.
Proof.
  apply for_each_extends. intros n s s' _. apply try_lesson_extends.
Qed.

(** Every feasible placement is offered. *)
Lemma find_available_slots_complete (self : ScheduleGenerator) (st : State)
  (r : Requirement.t) (l : list Slot.t) (s : Slot.t) :
  _find_available_slots self st r = Py.Ok l ->
  feasible self st r s ->
  exists s', In s' l /\ same_placement s' s.
Proof.
  intros Hrun Hs. rewrite find_available_slots_loops in Hrun.
  destruct Hs as [Hday Hn Hg Hsub Hlisted [teacher [Hteacher Hav]]
                   [c [Hc Hid]] Hfree].
  destruct (for_each_visit _ _ _ _ (Slot.day s)
              (fun y a a' _ => try_day_extends self st r y a a') Hrun Hday)
    as (a1 & a1' & m1 & H1 & ->).
  unfold try_day in H1.
  destruct (for_each_visit _ _ _ _ (Slot.lesson_number s)
              (fun y a a' _ => try_lesson_extends self st r _ y a a') H1)
    as (a2 & a2' & m2 & H2 & ->); [apply range_In; lia|].
  unfold try_lesson in H2.
  destruct (for_each_visit _ _ _ _ (Slot.teacher_id s)
              (fun y a a' _ => try_teacher_extends self st r _ _ y a a') H2 Hlisted)
    as (a3 & a3' & m3 & H3 & ->).
  unfold try_teacher in H3. rewrite Hteacher, Hav in H3. cbn [negb] in H3.
  destruct (for_each_visit _ _ _ _ c
              (fun y a a' _ => try_classroom_extends self st r _ _ _ y a a') H3 Hc)
    as (a4 & a4' & m4 & H4 & ->).
  apply try_classroom_cases in H4. rewrite <- Hid, <- Hg in H4.
  destruct H4 as [[H4 _]|[_ (t1 & t2 & _ & ->)]]; [congruence|].
  eexists. split.
  - rewrite !in_app_iff. do 4 left. right. left. reflexivity.
  - unfold same_placement. cbn. repeat split; congruence.
Qed.

(** A property of the list of offered slots that the empty list has and
    that appending an offered slot keeps holds of the result. *)
Lemma find_available_slots_invariant (self : ScheduleGenerator) (st : State)
  (r : Requirement.t) (P : list Slot.t -> Prop) :
  P [] ->
  (forall acc day n tid c t1 t2,
     P acc ->
     _calculate_lesson_time self n = Py.Ok (t1, t2) ->
     P (acc ++ [Slot.mk (Py.len acc) day n (Requirement.group_id r)
                  (Requirement.subject_id r) tid (Classroom.id c) t1 t2])) ->
  forall l, _find_available_slots self st r = Py.Ok l -> P l.
Proof.
  intros Hnil Hstep l. rewrite find_available_slots_loops.
  apply (for_each_invariant P); [exact Hnil|].
  intros day a1 a1' _ I1. apply (for_each_invariant P); [exact I1|].
  intros n a2 a2' _ I2. apply (for_each_invariant P); [exact I2|].
  intros tid a3 a3' _ I3. unfold try_teacher.
  destruct (teacher_by_id self tid) as [teacher|]; [|congruence].
  destruct (negb (teacher_available teacher day n)); [congruence|].
  apply (for_each_invariant P); [exact I3|].
  intros c a4 a4' _ I4 H4. apply try_classroom_cases in H4.
  destruct H4 as [[_ ->]|[_ (t1 & t2 & Ht & ->)]]; [assumption|].
  now apply Hstep.
Qed.


(** With a start time that parses, the search returns. *)
Lemma find_available_slots_returns (self : ScheduleGenerator) (st : State)
  (r : Requirement.t) (hm : Z * Z) :
  start_clock self = Py.Ok hm ->
  exists l, _find_available_slots self st r = Py.Ok l.
Proof.
  intros Hclock. rewrite find_available_slots_loops.
  apply for_each_total. intros day a1 _. apply for_each_total.
  intros n a2 _. apply for_each_total. intros tid a3 _. unfold try_teacher.
  destruct (teacher_by_id self tid) as [teacher|]; [|eauto].
  destruct (negb (teacher_available teacher day n)); [eauto|].
  apply for_each_total. intros c a4 _. unfold try_classroom.
  destruct (_is_slot_available self st _ tid _ day n); [|eauto].
  destruct (calculate_lesson_time_ok self hm n Hclock) as [[t1 t2] ->].
  simpl. eauto.
Qed.

(** The times of an offered slot are those of its lesson number. *)
Lemma find_available_slots_times (self : ScheduleGenerator) (st : State)
  (r : Requirement.t) (l : list Slot.t) :
  _find_available_slots self st r = Py.Ok l ->
  forall s, In s l ->
    _calculate_lesson_time self (Slot.lesson_number s)
    = Py.Ok (Slot.start_time s, Slot.end_time s).
Proof.
  apply (find_available_slots_invariant self st r
           (fun l => forall s, In s l ->
              _calculate_lesson_time self (Slot.lesson_number s)
              = Py.Ok (Slot.start_time s, Slot.end_time s))).
  { intros s []. }
  intros acc day n tid c t1 t2 Iacc Ht s Hs.
  apply in_app_iff in Hs. destruct Hs as [Hs|[<-|[]]]; auto.
Qed.




(** X2.  A start time that does not parse is noticed only when a placement
    is feasible: the search then raises [ValueError]; with no feasible
    placement it returns the empty list. *)
Theorem slot_search_malformed_start_time (self : ScheduleGenerator)
  (st : State) (r : Requirement.t) (e : Py.Error) :
  start_clock self = Py.Raise e ->
  ((exists s, feasible self st r s) ->
   _find_available_slots self st r = Py.Raise Py.ValueError)
  /\ ((forall s, ~ feasible self st r s) ->
      _find_available_slots self st r = Py.Ok []).
Proof.
  intros Hclock.
  assert (Hraise : forall e', _find_available_slots self st r = Py.Raise e' ->
                     e' = Py.ValueError /\ exists s, feasible self st r s).
  { intros e'. rewrite find_available_slots_loops. intros H.
    apply for_each_raise in H. destruct H as (day & a1 & Hday & H).
    apply for_each_raise in H. destruct H as (n & a2 & Hn & H).
    apply range_In in Hn.
    apply for_each_raise in H. destruct H as (tid & a3 & Htid & H).
    unfold try_teacher in H.
    destruct (teacher_by_id self tid) as [teacher|] eqn:Ht; [|discriminate].
    destruct (teacher_available teacher day n) eqn:Hav; [|discriminate].
    cbn [negb] in H.
    apply for_each_raise in H. destruct H as (c & a4 & Hc & H).
    unfold try_classroom in H.
    destruct (_is_slot_available self st _ tid _ day n) eqn:Hfree; [|discriminate].
    rewrite (calculate_lesson_time_raise self e n Hclock) in H.
    injection H as <-. split; [now apply (start_clock_raises self)|].
    exists (Slot.mk 0 day n (Requirement.group_id r) (Requirement.subject_id r)
              tid (Classroom.id c) EmptyString EmptyString).
    constructor; cbn; eauto. lia. }
  split.
  - intros [s Hs].
    destruct (_find_available_slots self st r) as [l|e'] eqn:Hl.
    + destruct (find_available_slots_complete self st r l s Hl Hs) as (s' & Hin & _).
      pose proof (find_available_slots_times self st r l Hl s' Hin) as Ht.
      rewrite (calculate_lesson_time_raise self e _ Hclock) in Ht. discriminate.
    + destruct (Hraise e' eq_refl) as [-> _]. reflexivity.
  - intros Hnone.
    destruct (_find_available_slots self st r) as [l|e'] eqn:Hl.
    + destruct l as [|s l]; [reflexivity|]. exfalso.
      pose proof (find_available_slots_feasible self st r _ Hl) as H.
      rewrite List.Forall_forall in H. apply (Hnone s). apply H. simpl. auto.
    + destruct (Hraise e' eq_refl) as [_ [s Hs]]. now destruct (Hnone s).
Qed.

Lemma slot_search_malformed_start_time_witness :
  start_clock Cases.late_typo = Py.Raise Py.ValueError
  /\ _find_available_slots Cases.late_typo Sample.empty_state
       Sample.chemistry_requirement = Py.Raise Py.ValueError.
Proof.
  assert (H0 : start_clock Cases.late_typo = Py.Raise Py.ValueError)
    by (vm_compute; reflexivity).
  split; [exact H0|].
  apply (proj1 (slot_search_malformed_start_time Cases.late_typo
                  Sample.empty_state Sample.chemistry_requirement
                  Py.ValueError H0)).
  exists Sample.chemistry_slot.
  constructor; try (vm_compute; tauto); try (vm_compute; intuition congruence).
  - exists Sample.ann. split; vm_compute; reflexivity.
  - exists Sample.chemistry_lab. split; vm_compute; auto.
Defined.



(** ** Sorting by a key *)

Lemma insert_by_permutation {A} (key : A -> Z) (x : A) (l : list A) :
  Permutation (Py.insert_by key x l) (x :: l).
Proof.
  induction l as [|y l IH]; simpl; [reflexivity|].
  destruct (key x <=? key y); [reflexivity|].
  rewrite IH. apply perm_swap.
Qed.

Lemma sorted_permutation {A} (key : A -> Z) (l : list A) :
  Permutation (Py.sorted key l) l.
Proof.
  induction l as [|x l IH]; simpl; [reflexivity|].
  rewrite insert_by_permutation. now constructor.
Qed.

Lemma insert_by_sorted {A} (key : A -> Z) (x : A) (l : list A) :
  StronglySorted (fun a b => key a <= key b) l ->
  StronglySorted (fun a b => key a <= key b) (Py.insert_by key x l).
Proof.
  induction 1 as [|y l Hl IH Hy]; simpl.
  - repeat constructor.
  - destruct (key x <=? key y) eqn:E.
    + apply Z.leb_le in E. constructor; [now constructor|].
      constructor; [assumption|].
      rewrite List.Forall_forall in Hy |- *. intros z Hz.
      specialize (Hy z Hz). lia.
    + apply Z.leb_gt in E. constructor; [assumption|].
      rewrite List.Forall_forall in Hy |- *. intros z Hz.
      apply insert_by_In in Hz. destruct Hz as [->|Hz]; [lia|auto].
Qed.

Lemma sorted_sorted {A} (key : A -> Z) (l : list A) :
  StronglySorted (fun a b => key a <= key b) (Py.sorted key l).
Proof.
  induction l as [|x l IH]; simpl; [constructor|]. now apply insert_by_sorted.
Qed.

Lemma insert_by_stable {A} (key : A -> Z) (p : Z) (x : A) (l : list A) :
  List.filter (fun a => key a =? p) (Py.insert_by key x l)
  = List.filter (fun a => key a =? p) (x :: l).
Proof.
  induction l as [|y l IH]; [reflexivity|].
  cbn [Py.insert_by]. destruct (key x <=? key y) eqn:E; [reflexivity|].
  apply Z.leb_gt in E. cbn [List.filter] in IH |- *. rewrite IH.
  destruct (key x =? p) eqn:Ex; [|reflexivity].
  apply Z.eqb_eq in Ex.
  replace (key y =? p) with false by (symmetry; apply Z.eqb_neq; lia).
  reflexivity.
Qed.

Lemma sorted_stable {A} (key : A -> Z) (p : Z) (l : list A) :
  List.filter (fun a => key a =? p) (Py.sorted key l)
  = List.filter (fun a => key a =? p) l.
Proof.
  induction l as [|x l IH]; [reflexivity|].
  cbn [Py.sorted]. rewrite insert_by_stable. cbn [List.filter]. now rewrite IH.
Qed.

(** The head of a sorted list is the first element of the input that
    carries the least key. *)
Lemma sorted_head_first_least {A} (key : A -> Z) (l : list A) (h : A)
  (t : list A) :
  Py.sorted key l = h :: t ->
  exists l1 l2,
    l = l1 ++ h :: l2
    /\ (forall x, In x l1 -> key h < key x)
    /\ (forall x, In x l2 -> key h <= key x).
Proof.
  revert h t. induction l as [|x l IH]; intros h t; [discriminate|].
  cbn [Py.sorted]. destruct (Py.sorted key l) as [|h' t'] eqn:E.
  - intros [= <- <-].
    assert (l = []) as ->.
    { apply length_zero_iff_nil. rewrite <- (sorted_length key l), E.
      reflexivity. }
    exists [], []. repeat split; intros y [].
  - destruct (IH h' t' eq_refl) as (l1 & l2 & -> & H1 & H2).
    cbn [Py.insert_by]. destruct (key x <=? key h') eqn:Ex.
    + apply Z.leb_le in Ex. intros [= <- <-].
      exists [], (l1 ++ h' :: l2). split; [reflexivity|].
      split; [intros y []|].
      intros y Hy. apply in_app_iff in Hy.
      destruct Hy as [Hy|[<-|Hy]]; [specialize (H1 y Hy)|assumption
                                    |specialize (H2 y Hy)]; lia.
    + apply Z.leb_gt in Ex. intros [= <- <-].
      exists (x :: l1), l2. split; [reflexivity|]. split; [|assumption].
      intros y [<-|Hy]; auto.
Qed.

(** X4.  [_prioritize_requirements] is a stable ascending sort: its result
    holds the same requirements, in non-decreasing priority, and requirements
    of equal priority keep the order in which they were derived. *)
Theorem prioritize_requirements_stable_sort (l : list Requirement.t) :
  Permutation (_prioritize_requirements l) l
  /\ StronglySorted
       (fun a b => Requirement.priority a <= Requirement.priority b)
       (_prioritize_requirements l)
  /\ forall p,
       List.filter (fun a => Requirement.priority a =? p)
         (_prioritize_requirements l)
       = List.filter (fun a => Requirement.priority a =? p) l.
Proof.
  unfold _prioritize_requirements. split; [apply sorted_permutation|].
  split; [apply sorted_sorted|]. intros p. apply sorted_stable.
Qed.

(** X5.  The selector returns nothing for no slot, and otherwise the first
    slot, in the order of the list, of the highest score: the slots before
    it score strictly less and those after it score no more. *)
Theorem select_best_slot_first_maximum (self : ScheduleGenerator) (st : State)
  (r : Requirement.t) (l : list Slot.t) :
  (_select_best_slot self st l r = None <-> l = [])
  /\ forall s,
       _select_best_slot self st l r = Some s ->
       exists l1 l2,
         l = l1 ++ s :: l2
         /\ (forall x, In x l1 -> _score_slot self st x r < _score_slot self st s r)
         /\ (forall x, In x l2 -> _score_slot self st x r <= _score_slot self st s r).
Proof.
  split.
  - split.
    + intros H. destruct l as [|x l]; [reflexivity|].
      destruct (select_best_slot_some self st (x :: l) r) as [s Hs];
        [discriminate|congruence].
    + intros ->. reflexivity.
  - intros s. unfold _select_best_slot.
    destruct (negb (Py.list_truthy l)); [discriminate|].
    destruct (Py.sorted _ _) as [|[s0 v] t] eqn:E; [discriminate|].
    intros [= <-].
    apply sorted_head_first_least in E.
    destruct E as (m1 & m2 & Hl & H1 & H2).
    apply map_eq_app in Hl. destruct Hl as (l1 & l' & -> & <- & Hl).
    apply map_eq_cons in Hl. destruct Hl as (s1 & l2 & -> & Hs & <-).
    injection Hs as <- <-.
    exists l1, l2. split; [reflexivity|]. split.
    + intros x Hx.
      specialize (H1 (x, _score_slot self st x r)). cbn in H1.
      enough (- _score_slot self st s1 r < - _score_slot self st x r) by lia.
      apply H1. apply in_map_iff. eauto.
    + intros x Hx.
      specialize (H2 (x, _score_slot self st x r)). cbn in H2.
      enough (- _score_slot self st s1 r <= - _score_slot self st x r) by lia.
      apply H2. apply in_map_iff. eauto.
Qed.

Lemma select_best_slot_first_maximum_witness :
  _select_best_slot Sample.generator Sample.empty_state
    [Sample.other_slot; Sample.home_slot] Sample.mathematics_requirement
  = Some Sample.home_slot
  /\ exists l1 l2,
       [Sample.other_slot; Sample.home_slot] = l1 ++ Sample.home_slot :: l2
       /\ (forall x, In x l1 ->
             _score_slot Sample.generator Sample.empty_state x
               Sample.mathematics_requirement
             < _score_slot Sample.generator Sample.empty_state Sample.home_slot
                 Sample.mathematics_requirement).
Proof.
  assert (H0 : _select_best_slot Sample.generator Sample.empty_state
                 [Sample.other_slot; Sample.home_slot]
                 Sample.mathematics_requirement
               = Some Sample.home_slot)
    by (vm_compute; reflexivity).
  split; [exact H0|].
  destruct (proj2 (select_best_slot_first_maximum Sample.generator
                     Sample.empty_state Sample.mathematics_requirement
                     [Sample.other_slot; Sample.home_slot]) _ H0)
    as (l1 & l2 & H1 & H2 & _).
  exists l1, l2. split; [exact H1|exact H2].
Defined.

(** ** The result of a run *)

Lemma success_iff_schedule (self : ScheduleGenerator)
  (str_error : Py.Error -> string) (st : State) :
  success (generate_schedule self str_error st) = true
  <-> result_schedule (generate_schedule self str_error st) <> [].
Proof.
  unfold generate_schedule.
  destruct (_validate_input_data self); [|cbn; split; [discriminate|congruence]].
  destruct (_generate_lesson_requirements self) as [reqs|e];
    [|cbn; split; [discriminate|congruence]].
  match goal with |- context [schedule_requirements self ?l ?s 0 0] =>
    assert (Hentry : schedule s = [])
      by (now rewrite !schedule_log, log_classroom_info_schedule);
    destruct (schedule_requirements self l s 0 0) as [st' [[sc fc]|e]] eqn:Hrun
  end; [|cbn; split; [discriminate|congruence]].
  destruct (sc =? 0) eqn:Ez; [cbn; split; [discriminate|congruence]|].
  apply Z.eqb_neq in Ez. cbn [success result_schedule].
  split; [intros _|reflexivity].
  rewrite optimize_schedule_distribution_schedule, schedule_log.
  apply schedule_requirements_counts in Hrun. destruct Hrun as (Hsc & _ & _).
  rewrite Hentry in Hsc. intros E. rewrite E in Hsc. cbn in Hsc. lia.
Qed.

(** X6.  The result is coherent and owes nothing to earlier runs: it reports
    success exactly when it carries a schedule that is not empty, and exactly
    when it carries no error; and the state in which [generate_schedule] is
    entered has no influence on it. *)
Theorem result_coherence (self : ScheduleGenerator)
  (str_error : Py.Error -> string) (st : State) :
  (success (generate_schedule self str_error st) = true
   <-> result_schedule (generate_schedule self str_error st) <> [])
  /\ (success (generate_schedule self str_error st) = true
      <-> error (generate_schedule self str_error st) = None)
  /\ forall st',
       generate_schedule self str_error st' = generate_schedule self str_error st.
Proof.
  split; [apply success_iff_schedule|]. split; [|reflexivity].
  unfold generate_schedule.
  destruct (_validate_input_data self); [|cbn; split; discriminate].
  destruct (_generate_lesson_requirements self) as [reqs|e];
    [|cbn; split; discriminate].
  match goal with |- context [schedule_requirements self ?l ?s 0 0] =>
    destruct (schedule_requirements self l s 0 0) as [st' [[sc fc]|e]]
  end; [|cbn; split; discriminate].
  destruct (sc =? 0); cbn; split; congruence.
Qed.

(** ** Validation *)

Lemma len_zero {A} (l : list A) : (Py.len l =? 0) = negb (Py.list_truthy l).
Proof. destruct l; reflexivity. Qed.

Lemma filter_nonempty {A} (p : A -> bool) (l : list A) :
  (Py.len (List.filter p l) =? 0) = negb (existsb p l).
Proof. now rewrite len_zero, filter_truthy. Qed.

(** X7.  Validation accepts exactly the inputs with at least one class
    group, one subject, one teacher and one classroom, a class group with
    subject hours and a subject with teachers; and it names the first thing
    missing, in that order. *)
Theorem validation_decides (self : ScheduleGenerator) :
  (_validate_input_data self = Valid
   <-> class_groups self <> [] /\ subjects self <> [] /\ teachers self <> []
       /\ classrooms self <> []
       /\ (exists g, In g (class_groups self) /\ ClassGroup.subject_hours g <> [])
       /\ (exists s, In s (subjects self) /\ Subject.teacher_ids s <> []))
  /\ (class_groups self = [] ->
      _validate_input_data self = Invalid "No class groups configured")
  /\ (class_groups self <> [] -> subjects self = [] ->
      _validate_input_data self = Invalid "No subjects configured")
  /\ (class_groups self <> [] -> subjects self <> [] -> teachers self = [] ->
      _validate_input_data self = Invalid "No teachers configured")
  /\ (class_groups self <> [] -> subjects self <> [] -> teachers self <> [] ->
      classrooms self = [] ->
      _validate_input_data self = Invalid "No classrooms configured")
  /\ (class_groups self <> [] -> subjects self <> [] -> teachers self <> [] ->
      classrooms self <> [] ->
      (forall g, In g (class_groups self) -> ClassGroup.subject_hours g = []) ->
      _validate_input_data self = Invalid "No subjects assigned to any groups")
  /\ (class_groups self <> [] -> subjects self <> [] -> teachers self <> [] ->
      classrooms self <> [] ->
      (exists g, In g (class_groups self) /\ ClassGroup.subject_hours g <> []) ->
      (forall s, In s (subjects self) -> Subject.teacher_ids s = []) ->
      _validate_input_data self = Invalid "No teachers assigned to any subjects").
Proof.
  assert (Hex : forall {A B} (f : A -> list B) (l : list A),
            existsb (fun x => Py.list_truthy (f x) && (Py.len (f x) >? 0)) l = true
            <-> exists x, In x l /\ f x <> []).
  { intros A B f l. rewrite existsb_exists. split; intros (x & Hx & H); exists x;
      (split; [assumption|]); destruct (f x); try discriminate; try congruence.
    reflexivity. }
  unfold _validate_input_data. rewrite !filter_nonempty, !len_zero.
  destruct (class_groups self) as [|g gs] eqn:Eg; cbn [Py.list_truthy negb].
  { split; [split; [discriminate|tauto]|]. repeat split; congruence. }
  destruct (subjects self) as [|s ss] eqn:Es; cbn [Py.list_truthy negb].
  { split; [split; [discriminate|tauto]|]. repeat split; congruence. }
  destruct (teachers self) as [|t ts] eqn:Et; cbn [Py.list_truthy negb].
  { split; [split; [discriminate|tauto]|]. repeat split; congruence. }
  destruct (classrooms self) as [|c cs] eqn:Ec; cbn [Py.list_truthy negb].
  { split; [split; [discriminate|tauto]|]. repeat split; congruence. }
  pose proof (Hex _ _ ClassGroup.subject_hours (g :: gs)) as Hg.
  pose proof (Hex _ _ Subject.teacher_ids (s :: ss)) as Hs.
  destruct (existsb _ (g :: gs)) eqn:E1; cbn [negb].
  - destruct (existsb _ (s :: ss)) eqn:E2; cbn [negb].
    + split; [split; [intros _|reflexivity]|].
      * repeat split; try discriminate; [now apply Hg|now apply Hs].
      * repeat split; try congruence.
        -- intros _ _ _ _ Hall. exfalso. destruct (proj1 Hg eq_refl) as (x & Hx & H).
           now apply H, Hall.
        -- intros _ _ _ _ _ Hall. exfalso. destruct (proj1 Hs eq_refl) as (x & Hx & H).
           now apply H, Hall.
    + split; [split; [discriminate|]|].
      * intros (_ & _ & _ & _ & _ & H). apply Hs in H. discriminate.
      * repeat split; try congruence.
        intros _ _ _ _ Hall. exfalso. destruct (proj1 Hg eq_refl) as (x & Hx & H).
        now apply H, Hall.
  - split; [split; [discriminate|]|].
    + intros (_ & _ & _ & _ & H & _). apply Hg in H. discriminate.
    + repeat split; try congruence.
      intros _ _ _ _ H. apply Hg in H. discriminate.
Qed.

(** ** Capacity of the week *)

Lemma no_double_booking_cons (x : Slot.t) (l : list Slot.t) :
  no_double_booking (x :: l) ->
  no_double_booking l
  /\ forall y, In y l ->
       Slot.day x = Slot.day y -> Slot.lesson_number x = Slot.lesson_number y ->
       Slot.class_group_id x <> Slot.class_group_id y
       /\ Slot.teacher_id x <> Slot.teacher_id y
       /\ Slot.classroom_id x <> Slot.classroom_id y.
Proof.
  intros H. split.
  - intros i j s1 s2 Hij H1 H2. apply (H (S i) (S j)); auto.
  - intros y Hy. apply In_nth_error in Hy. destruct Hy as [k Hk].
    apply (H 0%nat (S k)); auto.
Qed.

(** Slots that agree on one of the three resources take distinct places in
    the grid of the week, so there are no more of them than places. *)
Lemma resource_capacity (self : ScheduleGenerator) (who : Slot.t -> string)
  (id : string) (sched : list Slot.t) :
  (forall x y,
     Slot.class_group_id x <> Slot.class_group_id y
     /\ Slot.teacher_id x <> Slot.teacher_id y
     /\ Slot.classroom_id x <> Slot.classroom_id y ->
     who x <> who y) ->
  no_double_booking sched ->
  Forall (in_grid self) sched ->
  Py.len (List.filter (fun s => String.eqb (who s) id) sched)
  <= Py.len (Institution.working_days (institution self))
     * Z.max 0 (Institution.lessons_per_day (institution self)).
Proof.
  intros Hwho Hndb Hgrid.
  set (place := fun s : Slot.t => (Slot.day s, Slot.lesson_number s)).
  set (mine := List.filter (fun s => String.eqb (who s) id) sched).
  set (grid := list_prod (Institution.working_days (institution self))
                 (Py.range 1 (Institution.lessons_per_day (institution self) + 1))).
  assert (Hnd : List.NoDup (List.map place mine)).
  { subst mine. clear Hgrid. induction sched as [|x l IH]; [constructor|].
    apply no_double_booking_cons in Hndb. destruct Hndb as [Hl Hx].
    cbn [List.filter]. destruct (String.eqb (who x) id) eqn:Ex; [|auto].
    cbn [List.map]. constructor; [|auto].
    intros Hin. apply in_map_iff in Hin. destruct Hin as (y & Hp & Hy).
    apply filter_In in Hy. destruct Hy as [Hy Ey].
    injection Hp as Hd Hn.
    apply (Hwho x y); [apply Hx; auto|].
    apply String.eqb_eq in Ex, Ey. congruence. }
  assert (Hincl : incl (List.map place mine) grid).
  { intros p Hp. apply in_map_iff in Hp. destruct Hp as (s & <- & Hs).
    apply filter_In in Hs. destruct Hs as [Hs _].
    rewrite List.Forall_forall in Hgrid. destruct (Hgrid s Hs) as [Hd Hn].
    apply in_prod; [assumption|]. apply range_In. lia. }
  pose proof (List.NoDup_incl_length Hnd Hincl) as Hlen.
  rewrite length_map in Hlen. subst grid. rewrite length_prod, range_length in Hlen.
  unfold Py.len. fold mine. lia.
Qed.

(** X8.  The week bounds the schedule: in the schedule that
    [generate_schedule] returns, a class group, a teacher and a classroom
    each hold at most [len(working_days) * lessons_per_day] slots. *)
Theorem weekly_capacity (self : ScheduleGenerator)
  (str_error : Py.Error -> string) (st : State) (id : string) :
  let sched := result_schedule (generate_schedule self str_error st) in
  let capacity :=
    Py.len (Institution.working_days (institution self))
    * Z.max 0 (Institution.lessons_per_day (institution self)) in
  Py.len (List.filter (fun s => String.eqb (Slot.class_group_id s) id) sched)
  <= capacity
  /\ Py.len (List.filter (fun s => String.eqb (Slot.teacher_id s) id) sched)
     <= capacity
  /\ Py.len (List.filter (fun s => String.eqb (Slot.classroom_id s) id) sched)
     <= capacity.
Proof.
  intros sched capacity.
  assert (Hndb : no_double_booking sched).
  { apply (committed_invariant self no_double_booking);
      [exact no_double_booking_nil|apply no_double_booking_commit]. }
  assert (Hgrid : Forall (in_grid self) sched).
  { apply (committed_invariant self (Forall (in_grid self)));
      [constructor|apply in_grid_commit]. }
  repeat split; apply resource_capacity; auto; tauto.
Qed.

(** ** Start times and lesson times *)

Lemma start_clock_reads_start_time (self self' : ScheduleGenerator) :
  Institution.start_time (institution self)
  = Institution.start_time (institution self') ->
  start_clock self = start_clock self'.
Proof. intros H. unfold start_clock. now rewrite H. Qed.

(** X9.  Reading back a formatted time: an institution whose start time is
    the [HH:MM] text of minute [m] of the day, for [m] below 100 hours,
    starts its clock at [m]; its first lesson (and any lesson number below)
    starts at that very text and ends one lesson later. *)
Theorem start_time_round_trip (self : ScheduleGenerator) (m n : Z) :
  0 <= m < 6000 ->
  Institution.start_time (institution self) = _format_time m ->
  n <= 1 ->
  start_clock self = Py.Ok (m / 60, m mod 60)
  /\ _calculate_lesson_time self n
     = Py.Ok (Institution.start_time (institution self),
              _format_time (m + Institution.lesson_duration (institution self))).
Proof.
  intros Hm Hstart Hn.
  set (probe := fun k =>
         {| institution := Institution.mk [] 0 0 [] (_format_time k) 0;
            class_groups := []; subjects := []; teachers := [];
            classrooms := [] |}).
  assert (Hall : forallb
                   (fun k => match start_clock (probe k) with
                             | Py.Ok (h, mi) => (h =? k / 60) && (mi =? k mod 60)
                             | Py.Raise _ => false
                             end)
                   (Py.range 0 6000) = true)
    by (vm_compute; reflexivity).
  rewrite forallb_forall in Hall.
  specialize (Hall m (proj2 (range_In 0 6000 m) Hm)).
  rewrite (start_clock_reads_start_time self (probe m) Hstart).
  destruct (start_clock (probe m)) as [[h mi]|e] eqn:E; [|discriminate].
  apply Bool.andb_true_iff in Hall. destruct Hall as [Hh Hmi].
  apply Z.eqb_eq in Hh, Hmi. subst h mi.
  split; [reflexivity|].
  unfold _calculate_lesson_time.
  rewrite (start_clock_reads_start_time self (probe m) Hstart), E.
  cbn [Py.bind].
  replace (Py.range 1 n) with (@nil Z)
    by (unfold Py.range; replace (Z.to_nat (n - 1)) with 0%nat by lia; reflexivity).
  cbn [fold_left]. rewrite Hstart.
  replace (m / 60 * 60 + m mod 60) with m
    by (pose proof (Z.div_mod m 60); lia).
  reflexivity.
Qed.

Lemma start_time_round_trip_witness :
  0 <= 540 < 6000
  /\ Institution.start_time (institution Sample.generator) = _format_time 540
  /\ start_clock Sample.generator = Py.Ok (9, 0)
  /\ _calculate_lesson_time Sample.generator 1 = Py.Ok ("09:00", "10:10").
Proof.
  assert (H0 : 0 <= 540 < 6000) by lia.
  assert (H1 : Institution.start_time (institution Sample.generator)
               = _format_time 540) by reflexivity.
  assert (H2 : 1 <= 1) by lia.
  destruct (start_time_round_trip Sample.generator 540 1 H0 H1 H2) as [H3 H4].
  split; [exact H0|]. split; [exact H1|]. split; [exact H3|exact H4].
Defined.





(** ** Derivation of the requirements: division by zero, identifiers *)

Lemma requirements_of_entry_extends (self : ScheduleGenerator)
  (group : ClassGroup.t) (entry : string * Z) (acc acc' : list Requirement.t) :
  requirements_of_entry self group entry acc = Py.Ok acc' ->
  exists more, acc' = acc ++ more.
Proof.
  unfold requirements_of_entry. destruct entry as [sid yh].
  assert (Hsame : exists more, acc = acc ++ more)
    by (exists []; now rewrite app_nil_r).
  destruct (yh >? 0); [|intros [= <-]; exact Hsame].
  destruct (subject_by_id self sid) as [subject|]; [|intros [= <-]; exact Hsame].
  destruct (Py.list_truthy _); [|intros [= <-]; exact Hsame].
  destruct (_ =? 0); [discriminate|].
  rewrite fold_left_snoc. intros [= <-]. eauto.
Qed.

(** X11.  Zero academic weeks: the derivation raises [ZeroDivisionError]
    exactly when some entry qualifies (positive hours, a subject that
    resolves and has teachers), and the run then ends as a failure carrying
    the text of the exception and no schedule; when no entry qualifies the
    division is never reached and the derivation yields no requirement. *)
Theorem derivation_division_by_zero (self : ScheduleGenerator)
  (str_error : Py.Error -> string) (st : State) :
  Institution.academic_weeks (institution self) = 0 ->
  ((exists group subject_id yearly_hours subject,
      In group (class_groups self)
      /\ In (subject_id, yearly_hours) (ClassGroup.subject_hours group)
      /\ 0 < yearly_hours
      /\ subject_by_id self subject_id = Some subject
      /\ Subject.teacher_ids subject <> []) ->
   _generate_lesson_requirements self = Py.Raise Py.ZeroDivisionError
   /\ (_validate_input_data self = Valid ->
       success (generate_schedule self str_error st) = false
       /\ result_schedule (generate_schedule self str_error st) = []
       /\ error (generate_schedule self str_error st)
          = Some (str_error Py.ZeroDivisionError)))
  /\ ((forall group subject_id yearly_hours subject,
         In group (class_groups self) ->
         In (subject_id, yearly_hours) (ClassGroup.subject_hours group) ->
         0 < yearly_hours ->
         subject_by_id self subject_id = Some subject ->
         Subject.teacher_ids subject = []) ->
      _generate_lesson_requirements self = Py.Ok []).
Proof.
  intros Hweeks.
  assert (Hbody : forall g entry acc e,
            requirements_of_entry self g entry acc = Py.Raise e ->
            e = Py.ZeroDivisionError
            /\ exists subject,
                 0 < snd entry
                 /\ subject_by_id self (fst entry) = Some subject
                 /\ Subject.teacher_ids subject <> []).
  { intros g [sid yh] acc e. unfold requirements_of_entry.
    destruct (yh >? 0) eqn:Ey; [|discriminate]. apply Z.gtb_lt in Ey.
    destruct (subject_by_id self sid) as [subject|] eqn:Es; [|discriminate].
    destruct (Subject.teacher_ids subject) as [|t ts] eqn:Et; [discriminate|].
    cbn [Py.list_truthy]. rewrite Hweeks. cbn. intros [= <-].
    split; [reflexivity|]. exists subject. rewrite Et.
    split; [exact Ey|]. split; [exact Es|discriminate]. }
  assert (Hraise : forall e, _generate_lesson_requirements self = Py.Raise e ->
            e = Py.ZeroDivisionError
            /\ exists g sid yh subject,
                 In g (class_groups self)
                 /\ In (sid, yh) (ClassGroup.subject_hours g)
                 /\ 0 < yh
                 /\ subject_by_id self sid = Some subject
                 /\ Subject.teacher_ids subject <> []).
  { intros e H. unfold _generate_lesson_requirements in H.
    apply for_each_raise in H. destruct H as (g & a & Hg & H).
    destruct (negb (Py.list_truthy (ClassGroup.subject_hours g))); [discriminate|].
    apply for_each_raise in H. destruct H as ([sid yh] & a' & Hentry & H).
    apply Hbody in H. destruct H as (-> & subject & H1 & H2 & H3).
    split; [reflexivity|]. exists g, sid, yh, subject. auto. }
  assert (Hgroup : forall g a a',
            (if negb (Py.list_truthy (ClassGroup.subject_hours g))
             then Py.Ok a
             else Py.for_each (ClassGroup.subject_hours g)
                    (requirements_of_entry self g) a) = Py.Ok a' ->
            exists more, a' = a ++ more).
  { intros g a a'. destruct (negb _).
    - intros [= <-]. exists []. now rewrite app_nil_r.
    - apply for_each_extends. intros y s s' _.
      apply requirements_of_entry_extends. }
  split.
  - intros (g & sid & yh & subject & Hg & Hentry & Hyh & Hsub & Hteach).
    assert (Hgen : _generate_lesson_requirements self
                   = Py.Raise Py.ZeroDivisionError).
    { destruct (_generate_lesson_requirements self) as [l|e] eqn:E.
      - exfalso. unfold _generate_lesson_requirements in E.
        destruct (for_each_visit _ _ _ _ g (fun y a a' _ => Hgroup y a a') E Hg)
          as (a1 & a1' & m1 & H1 & _).
        destruct (ClassGroup.subject_hours g) as [|e0 es] eqn:Eh; [destruct Hentry|].
        cbn [Py.list_truthy negb] in H1.
        destruct (for_each_visit _ _ _ _ (sid, yh)
                    (fun y a a' _ => requirements_of_entry_extends self g y a a')
                    H1 Hentry)
          as (a2 & a2' & m2 & H2 & _).
        unfold requirements_of_entry in H2.
        rewrite (proj2 (Z.gtb_lt yh 0) Hyh), Hsub in H2.
        destruct (Subject.teacher_ids subject); [congruence|].
        cbn [Py.list_truthy] in H2. rewrite Hweeks in H2. discriminate.
      - destruct (Hraise e eq_refl) as [-> _]. reflexivity. }
    split; [exact Hgen|].
    intros Hvalid. unfold generate_schedule. rewrite Hvalid, Hgen.
    repeat split.
  - intros Hnone.
    destruct (_generate_lesson_requirements self) as [l|e] eqn:E.
    + revert E. unfold _generate_lesson_requirements.
      intros E. f_equal. revert E.
      apply (for_each_invariant (fun l : list Requirement.t => l = [])); [reflexivity|].
      intros g a a' Hg ->.
      destruct (negb (Py.list_truthy (ClassGroup.subject_hours g)));
        [congruence|].
      apply (for_each_invariant (fun l : list Requirement.t => l = []));
        [reflexivity|].
      intros [sid yh] b b' Hentry ->. unfold requirements_of_entry.
      destruct (yh >? 0) eqn:Ey; [|congruence]. apply Z.gtb_lt in Ey.
      destruct (subject_by_id self sid) as [subject|] eqn:Es; [|congruence].
      rewrite (Hnone g sid yh subject Hg Hentry Ey Es). cbn. congruence.
    + destruct (Hraise e eq_refl) as [_ (g & sid & yh & subject & H1 & H2 & H3 & H4 & H5)].
      exfalso. apply H5. eauto.
Qed.

Lemma derivation_division_by_zero_witness :
  Institution.academic_weeks (institution Cases.no_weeks) = 0
  /\ _generate_lesson_requirements Cases.no_weeks = Py.Raise Py.ZeroDivisionError
  /\ error (generate_schedule Cases.no_weeks Sample.no_message Sample.empty_state)
     = Some (Sample.no_message Py.ZeroDivisionError).
Proof.
  assert (H0 : Institution.academic_weeks (institution Cases.no_weeks) = 0)
    by reflexivity.
  split; [exact H0|].
  destruct (proj1 (derivation_division_by_zero Cases.no_weeks Sample.no_message
                     Sample.empty_state H0)) as (H1 & H2).
  { exists Sample.group, "chem", 80, Sample.chemistry.
    repeat split; try (vm_compute; auto; fail); try (cbn; lia); discriminate. }
  split; [exact H1|].
  apply H2. vm_compute. reflexivity.
Defined.

(** ** Decimal text of integers *)

Lemma str_injective (n m : Z) : Py.str n = Py.str m -> n = m.
Proof.
  unfold Py.str. intros H.
  assert (Hnil : forall z, Z.to_int z <> Decimal.Pos Decimal.Nil
                           /\ Z.to_int z <> Decimal.Neg Decimal.Nil).
  { intros z. split; intros E; pose proof (f_equal Z.of_int E) as E';
      rewrite DecimalZ.of_to in E'; cbn in E'; subst z; discriminate E. }
  apply (f_equal NilZero.int_of_string) in H.
  rewrite !NilZero.isi in H by apply Hnil.
  injection H as H. now apply DecimalZ.to_int_inj.
Qed.

Lemma append_cancel (p a b : string) : p +:+ a = p +:+ b -> a = b.
Proof.
  induction p as [|c p IH]; cbn; [auto|]. intros [= H]. auto.
Qed.

Lemma nth_error_seq_start (a n i k : nat) :
  nth_error (seq a n) i = Some k -> k = (a + i)%nat.
Proof.
  revert a i. induction n as [|n IH]; intros a [|i]; cbn; try discriminate.
  - intros [= <-]. lia.
  - intros H. apply IH in H. lia.
Qed.

(** X12.  The requirements that one entry emits are numbered: the [i]-th
    carries the id [group.id-subject_id-i], the ids are pairwise distinct,
    and all carry the subject's teacher list and one and the same priority,
    that of [_calculate_priority]. *)
Theorem emitted_requirements_are_numbered (self : ScheduleGenerator)
  (group : ClassGroup.t) (subject_id : string) (yearly_hours : Z) :
  List.NoDup (List.map Requirement.id (emitted self group (subject_id, yearly_hours)))
  /\ (forall i r,
        nth_error (emitted self group (subject_id, yearly_hours)) i = Some r ->
        Requirement.id r
        = ClassGroup.id group +:+ "-" +:+ subject_id +:+ "-" +:+ Py.str (Z.of_nat i)
        /\ exists subject,
             subject_by_id self subject_id = Some subject
             /\ Requirement.available_teacher_ids r = Subject.teacher_ids subject
             /\ Requirement.subject_type r = Subject.type subject
             /\ Requirement.priority r = _calculate_priority self subject group).
Proof.
  unfold emitted, requirements_of_entry.
  destruct (yearly_hours >? 0);
    [|split; [constructor|intros [|i] r; discriminate]].
  destruct (subject_by_id self subject_id) as [subject|];
    [|split; [constructor|intros [|i] r; discriminate]].
  destruct (Py.list_truthy _);
    [|split; [constructor|intros [|i] r; discriminate]].
  destruct (_ =? 0); [split; [constructor|intros [|i] r; discriminate]|].
  rewrite fold_left_snoc. cbn [app]. unfold Py.range.
  rewrite !map_map. split.
  - apply Finite.Injective_map_NoDup_in; [|apply seq_NoDup].
    intros a b _ _ H. cbn in H.
    repeat apply append_cancel in H. apply str_injective in H. lia.
  - intros i r Hi. rewrite nth_error_map in Hi.
    destruct (nth_error (seq 0 _) i) as [k|] eqn:Ek; [|discriminate].
    cbn in Hi. injection Hi as <-.
    apply nth_error_seq_start in Ek. subst k.
    cbn. split; [reflexivity|]. exists subject. auto.
Qed.

(** ** The classrooms offered, by kind *)

Lemma suitable_theory_kinds (self : ScheduleGenerator)
  (subject_type subject_id teacher_id : string) (c : Classroom.t) :
  String.eqb subject_type "lab" = false ->
  In c (_get_suitable_classrooms_for_teacher self subject_type subject_id teacher_id) ->
  Classroom.type c = "theory"
  \/ (Classroom.type c = "teacher_lab"
      /\ ((exists teacher,
             teacher_by_id self teacher_id = Some teacher
             /\ Teacher.home_classroom teacher = Some (Classroom.id c))
          \/ forall t, In t (teachers self) ->
               Py.opt_eqb (Teacher.home_classroom t) (Classroom.id c) = false)).
Proof.
  intros Ety. unfold _get_suitable_classrooms_for_teacher. rewrite Ety.
  rewrite !in_app_iff, !filter_In. intros [[H|H]|H].
  - destruct (teacher_by_id self teacher_id) as [teacher|]; [|destruct H].
    destruct (Py.opt_truthy (Teacher.home_classroom teacher)); [|destruct H].
    destruct (Py.next _ (classrooms self)) as [lab|] eqn:E; [|destruct H].
    destruct (String.eqb (Classroom.type lab) "teacher_lab") eqn:El; [|destruct H].
    destruct H as [<-|[]]. right. split; [now apply String.eqb_eq|].
    left. exists teacher. split; [reflexivity|].
    unfold Py.next in E. apply find_some in E. destruct E as [_ E].
    unfold Py.opt_eqb in E.
    destruct (Teacher.home_classroom teacher) as [h|]; [|discriminate].
    apply String.eqb_eq in E. now subst.
  - left. now apply String.eqb_eq.
  - destruct H as [_ H]. apply Bool.andb_true_iff in H. destruct H as [H1 H2].
    right. split; [now apply String.eqb_eq|]. right. intros t Ht.
    apply Bool.negb_true_iff in H2.
    apply Bool.not_true_iff_false. intros E.
    apply Bool.not_true_iff_false in H2. apply H2.
    apply existsb_exists. eauto.
Qed.

(** X13.  The rooms of the search and the rooms of the diagnostics.  For a
    subject that is not a lab subject, a classroom offered to a teacher is a
    theory room, or a teacher lab that is the teacher's own home classroom or
    that no teacher has as home classroom; it is always one of the classrooms
    the diagnostics count as suitable.  For a lab subject the inclusion goes
    the other way: what the diagnostics count as suitable is offered by the
    search, and the search offers more only where a lab has a specialization
    made of whitespace. *)
Theorem offered_and_suitable_classrooms (self : ScheduleGenerator)
  (subject_type subject_id teacher_id : string) (c : Classroom.t) :
  (String.eqb subject_type "lab" = false ->
   In c (_get_suitable_classrooms_for_teacher self subject_type subject_id teacher_id) ->
   In c (_get_suitable_classrooms_for_subject_type self subject_type subject_id)
   /\ (Classroom.type c = "theory"
       \/ (Classroom.type c = "teacher_lab"
           /\ ((exists teacher,
                  teacher_by_id self teacher_id = Some teacher
                  /\ Teacher.home_classroom teacher = Some (Classroom.id c))
               \/ forall t, In t (teachers self) ->
                    Py.opt_eqb (Teacher.home_classroom t) (Classroom.id c) = false))))
  /\ (In c (_get_suitable_classrooms_for_subject_type self "lab" subject_id) ->
      In c (_get_suitable_classrooms_for_teacher self "lab" subject_id teacher_id))
  /\ (In c (_get_suitable_classrooms_for_teacher self "lab" subject_id teacher_id) ->
      In c (_get_suitable_classrooms_for_subject_type self "lab" subject_id)
      \/ (Py.opt_truthy (Classroom.specialization c) = true
          /\ specialization_blank c = true)).
Proof.
  split; [|split].
  - intros Ety Hc. split; [|now apply (suitable_theory_kinds self subject_type subject_id teacher_id)].
    pose proof (suitable_in_classrooms _ _ _ _ _ Hc) as Hin.
    unfold _get_suitable_classrooms_for_subject_type. rewrite Ety.
    apply filter_In. split; [assumption|].
    destruct (suitable_theory_kinds _ _ _ _ _ Ety Hc) as [->|[-> _]]; reflexivity.
  - rewrite suitable_for_lab.
    unfold _get_suitable_classrooms_for_subject_type,
      _get_specialized_classrooms_for_subject.
    cbn [String.eqb Ascii.eqb Bool.eqb andb].
    fold (specialized_for subject_id). rewrite filter_truthy.
    destruct (existsb (specialized_for subject_id) (classrooms self)); [auto|].
    rewrite !filter_In. intros [Hin H]. split; [assumption|].
    unfold blank_lab. apply Bool.andb_true_iff in H. destruct H as [-> ->].
    reflexivity.
  - rewrite suitable_for_lab.
    unfold _get_suitable_classrooms_for_subject_type,
      _get_specialized_classrooms_for_subject.
    cbn [String.eqb Ascii.eqb Bool.eqb andb].
    fold (specialized_for subject_id). rewrite filter_truthy.
    destruct (existsb (specialized_for subject_id) (classrooms self)); [auto|].
    rewrite !filter_In. intros [Hin H]. unfold blank_lab in H.
    apply Bool.andb_true_iff in H. destruct H as [Hlab H].
    destruct (Py.opt_truthy (Classroom.specialization c)) eqn:Et.
    + right. split; [reflexivity|]. exact H.
    + left. split; [assumption|]. now rewrite Hlab.
Qed.

Lemma offered_and_suitable_classrooms_witness :
  String.eqb "theory" "lab" = false
  /\ In Sample.bobs_room
       (_get_suitable_classrooms_for_teacher Sample.generator "theory" "math" "t2")
  /\ In Sample.bobs_room
       (_get_suitable_classrooms_for_subject_type Sample.generator "theory" "math").
Proof.
  assert (H0 : String.eqb "theory" "lab" = false) by reflexivity.
  assert (H1 : In Sample.bobs_room
                 (_get_suitable_classrooms_for_teacher Sample.generator
                    "theory" "math" "t2"))
    by (left; reflexivity).
  split; [exact H0|]. split; [exact H1|].
  exact (proj1 (proj1 (offered_and_suitable_classrooms Sample.generator
                         "theory" "math" "t2" Sample.bobs_room) H0 H1)).
Defined.

(** ** What the optimizer checks *)

Lemma hosts_listed_subject_commit (self : ScheduleGenerator) (st : State)
  (r : Requirement.t) (s : Slot.t) :
  List.NoDup (List.map Classroom.id (classrooms self)) ->
  Forall (hosts_listed_subject self) (schedule st) ->
  feasible self st r s ->
  Forall (hosts_listed_subject self) (schedule st ++ [s]).
Proof.
  intros Hnd Hinv Hs. apply Forall_app. split; [assumption|].
  constructor; [|constructor].
  intros lab Hlab Hty Htruthy Hblank.
  destruct (feasible_classroom _ _ _ _ Hs) as (c & Hc & Eid).
  pose proof (classroom_by_id_unique self c Hnd
                (suitable_in_classrooms _ _ _ _ _ Hc)) as Hlookup.
  rewrite <- Eid, Hlab in Hlookup. injection Hlookup as ->.
  rewrite (feasible_subject _ _ _ _ Hs).
  destruct (String.eqb (Requirement.subject_type r) "lab") eqn:Er.
  - apply String.eqb_eq in Er. rewrite Er, suitable_for_lab in Hc.
    destruct (existsb _ (classrooms self)); apply filter_In in Hc;
      destruct Hc as [_ Hc].
    + unfold specialized_for in Hc. apply Bool.andb_true_iff in Hc.
      destruct Hc as [_ Hc]. now apply str_in_In.
    + unfold blank_lab in Hc. rewrite Htruthy, Hblank in Hc.
      rewrite Bool.andb_false_r in Hc. discriminate.
  - destruct (suitable_theory_kinds _ _ _ _ _ Er Hc) as [E|[E _]];
      rewrite E in Hty; discriminate.
Qed.

(** X14.  The checks of the optimizer pass on every schedule that
    [generate_schedule] returns, the classroom ids being distinct: in a
    teacher lab with an owner every slot is the owner's (the list of other
    teachers' lessons is empty), and in a lab whose specialization is not
    blank every slot holds a subject of the specialization. *)
Theorem optimizer_checks_pass (self : ScheduleGenerator)
  (str_error : Py.Error -> string) (st : State) (lab : Classroom.t) :
  List.NoDup (List.map Classroom.id (classrooms self)) ->
  In lab (classrooms self) ->
  let lessons_in_lab :=
    List.filter (fun s => String.eqb (Slot.classroom_id s) (Classroom.id lab))
      (result_schedule (generate_schedule self str_error st)) in
  (Classroom.type lab = "teacher_lab" ->
   forall owner,
     owner_of self (Classroom.id lab) = Some owner ->
     List.filter
       (fun s => negb (String.eqb (Slot.teacher_id s) (Teacher.id owner)))
       lessons_in_lab = [])
  /\ (Classroom.type lab = "lab" ->
      Py.opt_truthy (Classroom.specialization lab) = true ->
      specialization_blank lab = false ->
      List.filter
        (fun subject_id => negb (Py.str_in subject_id (specialization_subjects lab)))
        (List.map Slot.subject_id lessons_in_lab) = []).
Proof.
  intros Hnd Hlab lessons_in_lab.
  pose proof (classroom_by_id_unique self lab Hnd Hlab) as Hlookup.
  assert (Hempty : forall {A} (p : A -> bool) (l : list A),
            (forall x, In x l -> p x = false) -> List.filter p l = []).
  { intros A p l. induction l as [|x l IH]; [reflexivity|]. intros H. cbn.
    rewrite (H x) by (simpl; auto). apply IH. intros y Hy. apply H. simpl. auto. }
  split.
  - intros Hty owner Howner. apply Hempty. intros s Hs.
    apply filter_In in Hs. destruct Hs as [Hs Eid]. apply String.eqb_eq in Eid.
    assert (Hinv : Forall (owner_only self)
                     (result_schedule (generate_schedule self str_error st))).
    { apply (committed_invariant self (Forall (owner_only self)));
        [constructor|apply owner_only_commit]. }
    rewrite List.Forall_forall in Hinv.
    rewrite (Hinv s Hs lab owner); [now rewrite String.eqb_refl| |assumption..].
    now rewrite Eid.
  - intros Hty Htruthy Hblank. apply Hempty. intros sid Hsid.
    apply in_map_iff in Hsid. destruct Hsid as (s & <- & Hs).
    apply filter_In in Hs. destruct Hs as [Hs Eid]. apply String.eqb_eq in Eid.
    assert (Hinv : Forall (hosts_listed_subject self)
                     (result_schedule (generate_schedule self str_error st))).
    { apply (committed_invariant self (Forall (hosts_listed_subject self)));
        [constructor|].
      intros st0 r0 s0. now apply hosts_listed_subject_commit. }
    rewrite List.Forall_forall in Hinv.
    apply Bool.negb_false_iff, str_in_In.
    apply (Hinv s Hs lab); auto. now rewrite Eid.
Qed.

Lemma optimizer_checks_pass_witness :
  List.NoDup (List.map Classroom.id (classrooms Sample.generator))
  /\ In Sample.bobs_room (classrooms Sample.generator)
  /\ List.filter
       (fun s => negb (String.eqb (Slot.teacher_id s) (Teacher.id Sample.bob)))
       (List.filter
          (fun s => String.eqb (Slot.classroom_id s)
                      (Classroom.id Sample.bobs_room))
          (result_schedule
             (generate_schedule Sample.generator Sample.no_message
                Sample.empty_state))) = [].
Proof.
  assert (H0 : List.NoDup (List.map Classroom.id (classrooms Sample.generator))).
  { cbn. repeat constructor; cbn; intuition discriminate. }
  assert (H1 : In Sample.bobs_room (classrooms Sample.generator))
    by (cbn; auto).
  split; [exact H0|]. split; [exact H1|].
  apply (proj1 (optimizer_checks_pass Sample.generator Sample.no_message
                  Sample.empty_state Sample.bobs_room H0 H1)).
  - reflexivity.
  - vm_compute. reflexivity.
Defined.

(** ** Nothing is ever removed *)

Lemma log_classroom_info_appended (self : ScheduleGenerator) (st : State) :
  appended st (_log_classroom_info self st).
Proof. unfold _log_classroom_info. repeat appended_step. Qed.

Lemma scan_inr_appended {A S} (st : State) (l : list A)
  (body : A -> S -> S + State) (s : S) (r : State) :
  (forall x s r, body x s = inr r -> appended st r) ->
  scan l body s = inr r -> appended st r.
Proof. intros H. now apply (scan_inr (fun r => appended st r)). Qed.

Lemma analyze_time_slot_conflicts_appended (self : ScheduleGenerator)
  (st : State) (r : Requirement.t) (ts : list (nat * Teacher.t))
  (cs : list Classroom.t) :
  appended st (_analyze_time_slot_conflicts self st r ts cs).
Proof.
  unfold _analyze_time_slot_conflicts.
  match goal with |- context [scan ?l ?b ?s] =>
    destruct (scan l b s) as [sm|st'] eqn:E end.
  - repeat appended_step.
  - revert E. apply scan_inr_appended. intros day sm st1.
    apply scan_inr_appended. intros n sm' st2.
    destruct (busy_at _ _ _ day n); [discriminate|].
    match goal with |- context [fold_left ?f ?l ?a] =>
      destruct (fold_left f l a) as [ats sm1] end.
    destruct (negb (Py.list_truthy ats)); [discriminate|].
    match goal with |- context [fold_left ?f ?l ?a] =>
      destruct (fold_left f l a) as [acs sm2] end.
    destruct (Py.list_truthy acs); [|discriminate].
    intros [= <-]. repeat apply appended_log_after. apply appended_refl.
Qed.

Lemma report_no_suitable_classroom_appended (self : ScheduleGenerator)
  (st : State) (r : Requirement.t) :
  appended st (report_no_suitable_classroom self st r).
Proof. unfold report_no_suitable_classroom. repeat appended_step. Qed.

Lemma analyze_scheduling_failure_appended (self : ScheduleGenerator)
  (st : State) (r : Requirement.t) :
  appended st (_analyze_scheduling_failure self st r).
Proof.
  unfold _analyze_scheduling_failure.
  destruct (negb (Py.list_truthy (Requirement.available_teacher_ids r)));
    [repeat apply appended_log_after; apply appended_refl|].
  match goal with |- context [fold_left ?f ?l (?a, ?s)] =>
    pose proof (fold_pair_appended f l a s) as H1;
    destruct (fold_left f l (a, s)) as [existing st1] end.
  cbn [snd] in H1.
  assert (E1 : appended st st1).
  { eapply appended_trans; [apply appended_log|]. apply H1. intros acc st0 x.
    destruct (Py.next _ (teacher_objects self)); cbn [snd];
      [apply appended_refl|apply appended_log]. }
  clear H1.
  destruct (negb (Py.list_truthy existing)); [now apply appended_log_after|].
  match goal with |- context [fold_left ?f ?l (?a, ?s)] =>
    pose proof (fold_pair_appended f l a s) as H2;
    destruct (fold_left f l (a, s)) as [avail st2] end.
  cbn [snd] in H2.
  assert (E2 : appended st st2).
  { eapply appended_trans; [exact E1|]. apply H2. intros acc st0 x.
    case_if; cbn [snd]; [apply appended_refl|apply appended_log]. }
  clear H2.
  destruct (negb (Py.list_truthy avail)); [now apply appended_log_after|].
  destruct (negb (Py.list_truthy _)).
  - eapply appended_trans; [exact E2|apply report_no_suitable_classroom_appended].
  - eapply appended_trans; [exact E2|apply analyze_time_slot_conflicts_appended].
Qed.

Lemma optimize_schedule_distribution_appended (self : ScheduleGenerator)
  (st : State) :
  appended st (_optimize_schedule_distribution self st).
Proof. unfold _optimize_schedule_distribution. repeat appended_step. Qed.

Lemma schedule_lesson_appended (self : ScheduleGenerator) (st st' : State)
  (r : Requirement.t) (b : bool) :
  _schedule_lesson self st r = Py.Ok (st', b) -> appended st st'.
Proof.
  unfold _schedule_lesson.
  destruct (_find_available_slots self st r) as [l|e]; [|discriminate].
  cbn [Py.bind]. destruct (negb (Py.list_truthy l)).
  - intros [= <- <-]. apply appended_log.
  - destruct (_select_best_slot self st l r) as [s|].
    + intros [= <- <-]. split; [exists [s]|eexists]; reflexivity.
    + intros [= <- <-]. apply appended_refl.
Qed.

(** X15.  Nothing is removed during a run: the diagnostics, the optimizer
    and the classroom report only append log lines and leave the schedule as
    it is, a scheduling step only appends, and so does the whole loop, which
    appends as many slots as its scheduled counter grows. *)
Theorem run_is_append_only (self : ScheduleGenerator) :
  (forall st r,
     schedule (_analyze_scheduling_failure self st r) = schedule st
     /\ appended st (_analyze_scheduling_failure self st r))
  /\ (forall st,
        schedule (_optimize_schedule_distribution self st) = schedule st
        /\ appended st (_optimize_schedule_distribution self st)
        /\ schedule (_log_classroom_info self st) = schedule st
        /\ appended st (_log_classroom_info self st))
  /\ (forall st r st' b,
        _schedule_lesson self st r = Py.Ok (st', b) -> appended st st')
  /\ (forall reqs st sc fc,
        appended st (fst (schedule_requirements self reqs st sc fc))
        /\ forall sc' fc',
             snd (schedule_requirements self reqs st sc fc) = Py.Ok (sc', fc') ->
             Py.len (schedule (fst (schedule_requirements self reqs st sc fc)))
             = Py.len (schedule st) + (sc' - sc)).
Proof.
  split; [|split; [|split]].
  - intros st r. split; [apply analyze_scheduling_failure_schedule
                         |apply analyze_scheduling_failure_appended].
  - intros st.
    split; [apply optimize_schedule_distribution_schedule|].
    split; [apply optimize_schedule_distribution_appended|].
    split; [apply log_classroom_info_schedule|apply log_classroom_info_appended].
  - intros st r st' b. apply schedule_lesson_appended.
  - intros reqs st sc fc. split.
    + revert st sc fc. induction reqs as [|r reqs IH]; intros st sc fc; cbn.
      * apply appended_refl.
      * destruct (_schedule_lesson self st r) as [[st1 b]|e] eqn:E;
          [|apply appended_refl].
        apply schedule_lesson_appended in E. destruct b.
        -- eapply appended_trans; [exact E|apply IH].
        -- eapply appended_trans; [exact E|].
           eapply appended_trans; [apply analyze_scheduling_failure_appended|apply IH].
    + intros sc' fc' H.
      destruct (schedule_requirements self reqs st sc fc) as [st' res] eqn:E.
      cbn in H. subst res. cbn [fst].
      apply schedule_requirements_counts in E. lia.
Qed.

Lemma run_is_append_only_witness :
  _schedule_lesson Sample.generator Sample.empty_state
    Sample.chemistry_requirement
  = Py.Ok ({| schedule := [Sample.chemistry_slot];
              logs := ["✅ Scheduled Chemistry for Group 1 on Monday lesson 2 in room 101 with Ann Lee"] |},
           true)
  /\ appended Sample.empty_state
       {| schedule := [Sample.chemistry_slot];
          logs := ["✅ Scheduled Chemistry for Group 1 on Monday lesson 2 in room 101 with Ann Lee"] |}.
Proof.
  assert (H1 : _schedule_lesson Sample.generator Sample.empty_state
                 Sample.chemistry_requirement
               = Py.Ok ({| schedule := [Sample.chemistry_slot];
                           logs := ["✅ Scheduled Chemistry for Group 1 on Monday lesson 2 in room 101 with Ann Lee"] |},
                        true))
    by (vm_compute; reflexivity).
  split; [exact H1|].
  exact (proj1 (proj2 (proj2 (run_is_append_only Sample.generator))) _ _ _ _ H1).
Defined.

(** ** A failure is final *)

Lemma is_slot_available_antitone (self : ScheduleGenerator) (st st' : State)
  (g t c d : string) (n : Z) :
  (forall x, In x (schedule st) -> In x (schedule st')) ->
  _is_slot_available self st' g t c d n = true ->
  _is_slot_available self st g t c d n = true.
Proof.
  intros Hincl. unfold _is_slot_available.
  destruct (existsb _ (schedule st')) eqn:E'; [discriminate|].
  destruct (existsb _ (schedule st)) eqn:E; [|auto].
  apply existsb_exists in E. destruct E as (x & Hx & Hp).
  apply Bool.not_true_iff_false in E'. exfalso. apply E'.
  apply existsb_exists. eauto.
Qed.

Lemma feasible_antitone (self : ScheduleGenerator) (st st' : State)
  (r : Requirement.t) (s : Slot.t) :
  (forall x, In x (schedule st) -> In x (schedule st')) ->
  feasible self st' r s -> feasible self st r s.
Proof.
  intros Hincl [H1 H2 H3 H4 H5 H6 H7 H8].
  constructor; auto. now apply (is_slot_available_antitone self st st').
Qed.

(** X16.  A committed slot blocks its group, its teacher and its classroom
    at its day and lesson, availability only shrinks as the schedule grows,
    and so a failure is final: a requirement for which the search finds
    nothing finds nothing either once more slots are committed, and
    [_schedule_lesson] then answers [False]. *)
Theorem failure_is_final (self : ScheduleGenerator) (st st' : State)
  (r : Requirement.t) (hm : Z * Z) :
  start_clock self = Py.Ok hm ->
  (forall x, In x (schedule st) -> In x (schedule st')) ->
  (forall s g t c,
     In s (schedule st) ->
     g = Slot.class_group_id s \/ t = Slot.teacher_id s \/ c = Slot.classroom_id s ->
     _is_slot_available self st g t c (Slot.day s) (Slot.lesson_number s) = false)
  /\ (forall g t c d n,
        _is_slot_available self st' g t c d n = true ->
        _is_slot_available self st g t c d n = true)
  /\ (_find_available_slots self st r = Py.Ok [] ->
      _find_available_slots self st' r = Py.Ok []
      /\ exists st'', _schedule_lesson self st' r = Py.Ok (st'', false)).
Proof.
  intros Hclock Hincl. split; [|split].
  - intros s g t c Hs Hor. unfold _is_slot_available.
    replace (existsb _ (schedule st)) with true; [reflexivity|].
    symmetry. apply existsb_exists. exists s. split; [assumption|].
    rewrite !String.eqb_refl, Z.eqb_refl, !Bool.andb_true_r.
    destruct Hor as [-> | [-> | ->]]; rewrite String.eqb_refl;
      rewrite ?Bool.orb_true_r; reflexivity.
  - intros g t c d n. now apply is_slot_available_antitone.
  - intros Hnone.
    destruct (find_available_slots_returns self st' r hm Hclock) as [l Hl].
    assert (l = []) as ->.
    { destruct l as [|s l]; [reflexivity|]. exfalso.
      pose proof (find_available_slots_feasible self st' r _ Hl) as Hs.
      apply Forall_inv in Hs.
      apply (feasible_antitone self st st') in Hs; [|assumption].
      destruct (find_available_slots_complete self st r [] s Hnone Hs)
        as (s' & [] & _). }
    split; [exact Hl|].
    destruct (schedule_lesson_verdict self st' r [] Hl) as [st'' H]. eauto.
Qed.

Lemma failure_is_final_witness :
  start_clock Sample.crowded = Py.Ok (9, 0)
  /\ _find_available_slots Sample.crowded Cases.crowded_state
       Cases.second_group_requirement = Py.Ok []
  /\ _find_available_slots Sample.crowded
       {| schedule := schedule Cases.crowded_state ++ [Sample.chemistry_slot];
          logs := [] |}
       Cases.second_group_requirement = Py.Ok [].
Proof.
  assert (H0 : start_clock Sample.crowded = Py.Ok (9, 0)) by reflexivity.
  assert (H1 : forall x, In x (schedule Cases.crowded_state) ->
                 In x (schedule
                         {| schedule := schedule Cases.crowded_state
                                        ++ [Sample.chemistry_slot];
                            logs := [] |}))
    by (intros x Hx; cbn [schedule]; apply in_app_iff; left; exact Hx).
  assert (H2 : _find_available_slots Sample.crowded Cases.crowded_state
                 Cases.second_group_requirement = Py.Ok [])
    by (vm_compute; reflexivity).
  split; [exact H0|]. split; [exact H2|].
  exact (proj1 (proj2 (proj2 (failure_is_final Sample.crowded
                                Cases.crowded_state _
                                Cases.second_group_requirement (9, 0) H0 H1))
                 H2)).
Defined.

(** ** The first steps of the diagnostics *)

Lemma next_object_none {A} (p : A -> bool) (idx : list nat) (l : list A) :
  List.find p l = None ->
  Py.next (fun t : nat * A => p (snd t)) (combine idx l) = None.
Proof.
  unfold Py.next. revert idx. induction l as [|x l IH]; intros [|i idx]; cbn; auto.
  destruct (p x); [discriminate|]. auto.
Qed.

(** X17.  The first two steps of the diagnostics.  For a requirement with no
    teacher the diagnostics write the failure line and one critical line,
    and nothing else; for a requirement none of whose teachers exists they
    write the failure line, one warning per teacher id, in order, and one
    critical line. *)
Theorem diagnostics_of_missing_teachers (self : ScheduleGenerator) (st : State)
  (r : Requirement.t) :
  (Requirement.available_teacher_ids r = [] ->
   logs (_analyze_scheduling_failure self st r)
   = logs st
     ++ ["❌ Failed to schedule: " +:+ Requirement.subject_name r
         +:+ " for " +:+ Requirement.group_name r;
         "   🚫 CRITICAL: No teachers assigned to subject " +:+ Py.quote
         +:+ Requirement.subject_name r +:+ Py.quote])
  /\ (Requirement.available_teacher_ids r <> [] ->
      (forall teacher_id,
         In teacher_id (Requirement.available_teacher_ids r) ->
         teacher_by_id self teacher_id = None) ->
      logs (_analyze_scheduling_failure self st r)
      = logs st
        ++ ["❌ Failed to schedule: " +:+ Requirement.subject_name r
            +:+ " for " +:+ Requirement.group_name r]
        ++ List.map
             (fun teacher_id =>
                "   ⚠️ WARNING: Teacher ID " +:+ teacher_id
                +:+ " assigned to subject but not found in system")
             (Requirement.available_teacher_ids r)
        ++ ["   🚫 CRITICAL: None of the assigned teachers exist in the system"]).
Proof.
  unfold _analyze_scheduling_failure. split.
  - intros ->. cbn. now rewrite <- app_assoc.
  - intros Hne Hnone.
    destruct (Requirement.available_teacher_ids r) as [|t0 ts] eqn:Eids;
      [congruence|].
    cbn [Py.list_truthy negb]. rewrite <- Eids in *. clear Eids Hne.
    unfold teacher_objects.
    match goal with |- context [fold_left ?f ?l (?a, ?z)] =>
      assert (Hfold : forall ids s0,
                (forall tid, In tid ids -> teacher_by_id self tid = None) ->
                fold_left f ids ([], s0)
                = ([], fold_left
                         (fun s1 tid =>
                            log s1 ("   ⚠️ WARNING: Teacher ID " +:+ tid
                                    +:+ " assigned to subject but not found in system"))
                         ids s0))
    end.
    { induction ids as [|tid ids IH]; intros s0 Hids; [reflexivity|].
      cbn [fold_left].
      rewrite (next_object_none
                 (fun t => String.eqb (Teacher.id t) tid)
                 (seq 0 (List.length (teachers self))) (teachers self))
        by (apply Hids; simpl; auto).
      apply IH. intros x Hx. apply Hids. simpl. auto. }
    rewrite Hfold by assumption.
    cbn [Py.list_truthy negb].
    assert (Hlogs : forall ids s0,
              logs (fold_left
                      (fun s tid =>
                         log s ("   ⚠️ WARNING: Teacher ID " +:+ tid
                                +:+ " assigned to subject but not found in system"))
                      ids s0)
              = logs s0
                ++ List.map
                     (fun tid => "   ⚠️ WARNING: Teacher ID " +:+ tid
                                 +:+ " assigned to subject but not found in system")
                     ids).
    { induction ids as [|tid ids IH]; intros s0; cbn [fold_left List.map].
      - now rewrite app_nil_r.
      - rewrite IH. cbn [log logs]. now rewrite <- app_assoc. }
    cbn [log logs]. rewrite Hlogs. cbn [log logs].
    now rewrite <- !app_assoc.
Qed.

Lemma diagnostics_of_missing_teachers_witness :
  Requirement.available_teacher_ids Cases.orphan_requirement = []
  /\ logs (_analyze_scheduling_failure Sample.generator Sample.empty_state
             Cases.orphan_requirement)
     = ["❌ Failed to schedule: Drawing for Group 1";
        "   🚫 CRITICAL: No teachers assigned to subject " +:+ Py.quote
        +:+ "Drawing" +:+ Py.quote].
Proof.
  assert (H0 : Requirement.available_teacher_ids Cases.orphan_requirement = [])
    by reflexivity.
  split; [exact H0|].
  exact (proj1 (diagnostics_of_missing_teachers Sample.generator
                  Sample.empty_state Cases.orphan_requirement) H0).
Defined.

(** * The priority of a requirement *)

Lemma existsb_filter {A : Type} (f : A -> bool) (l : list A) :
  existsb f l = Py.list_truthy (List.filter f l).
Proof.
  induction l as [|x l IH]; [reflexivity|].
  cbn [existsb List.filter]. destruct (f x); [reflexivity|exact IH].
Qed.

(** X18.  The priority of a subject for a group is the number of its
    teachers, less a tenth of the students (rounded down), less 10 for a lab
    subject, less 20 when [_get_specialized_classrooms_for_subject] finds a
    classroom for the subject, whatever the type of the subject; so a group
    with more students never comes later for the same subject, and the
    bonuses move a subject by at most 30. *)
Theorem priority_terms (self : ScheduleGenerator) (subject : Subject.t)
  (group : ClassGroup.t) :
  _calculate_priority self subject group
  = Py.len (Subject.teacher_ids subject)
    - ClassGroup.students_count group / 10
    - (if String.eqb (Subject.type subject) "lab" then 10 else 0)
    - (if Py.list_truthy
            (_get_specialized_classrooms_for_subject self (Subject.id subject))
       then 20 else 0)
  /\ (forall larger,
        ClassGroup.students_count group <= ClassGroup.students_count larger ->
        _calculate_priority self subject larger
        <= _calculate_priority self subject group)
  /\ Py.len (Subject.teacher_ids subject)
     - ClassGroup.students_count group / 10 - 30
     <= _calculate_priority self subject group
     <= Py.len (Subject.teacher_ids subject)
        - ClassGroup.students_count group / 10.
Proof.
  unfold _calculate_priority, _get_specialized_classrooms_for_subject.
  rewrite existsb_filter.
  set (bonus := Py.list_truthy _).
  split; [|split].
  - destruct (String.eqb _ _), bonus; lia.
  - intros larger Hle.
    pose proof (Z.div_le_mono _ _ 10 ltac:(lia) Hle).
    destruct (String.eqb _ _), bonus; lia.
  - destruct (String.eqb _ _), bonus; lia.
Qed.

(** * The endpoint *)

Lemma stored_rows_clean (sched : list Slot.t) :
  no_double_booking sched ->
  forall i j r1 r2,
    i <> j ->
    nth_error (List.map slot_create sched) i = Some r1 ->
    nth_error (List.map slot_create sched) j = Some r2 ->
    ~ double_booked r1 r2.
Proof.
  intros Hndb i j r1 r2 Hij H1 H2 (Hd & Hn & Hor).
  rewrite nth_error_map in H1, H2.
  destruct (nth_error sched i) as [s1|] eqn:E1; [|discriminate].
  destruct (nth_error sched j) as [s2|] eqn:E2; [|discriminate].
  cbn in H1, H2. injection H1 as <-. injection H2 as <-. cbn in Hd, Hn, Hor.
  destruct (Hndb i j s1 s2 Hij E1 E2 Hd Hn) as (Hg & Ht & Hc). tauto.
Qed.

(** X19.  A request that clears first: the tables other than the schedule
    are left as they were; without an institution the request is refused with
    status 400, after the stored schedule has been cleared; otherwise the
    stored schedule becomes the generated one, which is empty exactly when
    the run failed, and no two of its rows book a group, a teacher or a
    classroom twice. *)
Theorem endpoint_replaces_the_schedule (str_error : Py.Error -> string)
  (db : Database) :
  let db' := fst (generate_schedule_endpoint str_error true db) in
  let response := snd (generate_schedule_endpoint str_error true db) in
  (db_institutions db' = db_institutions db
   /\ db_class_groups db' = db_class_groups db
   /\ db_subjects db' = db_subjects db
   /\ db_teachers db' = db_teachers db
   /\ db_classrooms db' = db_classrooms db)
  /\ (db_institutions db = [] ->
      response = HTTPException 400 "Institution not configured"
      /\ db_schedule_slots db' = [])
  /\ (forall result,
        response = Returned result ->
        db_schedule_slots db' = List.map slot_create (result_schedule result)
        /\ (db_schedule_slots db' <> [] <-> success result = true))
  /\ (forall i j r1 r2,
        i <> j ->
        nth_error (db_schedule_slots db') i = Some r1 ->
        nth_error (db_schedule_slots db') j = Some r2 ->
        ~ double_booked r1 r2).
Proof.
  unfold generate_schedule_endpoint. cbn [clear_schedule db_institutions].
  destruct (db_institutions db) as [|institution rest] eqn:Ei; cbn [hd_error fst snd].
  { split; [cbn; auto|]. split; [auto|]. split; [discriminate|].
    intros [|i] j r1 r2 _ H; discriminate. }
  set (result := generate_schedule _ str_error _).
  pose proof (success_iff_schedule
                (generator_of institution (clear_schedule db)) str_error
                {| schedule := []; logs := [] |}) as Hsucc.
  fold result in Hsucc.
  assert (Hndb : no_double_booking (result_schedule result)).
  { apply (committed_invariant
             (generator_of institution (clear_schedule db)) no_double_booking);
      [exact no_double_booking_nil|apply no_double_booking_commit]. }
  assert (Hrows : db_schedule_slots
                    (if success result then
                       if Py.list_truthy (List.map slot_create (result_schedule result))
                       then create_schedule_slots_bulk (clear_schedule db)
                              (List.map slot_create (result_schedule result))
                       else clear_schedule db
                     else clear_schedule db)
                  = List.map slot_create (result_schedule result)).
  { assert (Hfail : success result = false -> result_schedule result = []).
    { intros Es. destruct (result_schedule result) as [|s l]; [reflexivity|].
      assert (H : success result = true) by (apply Hsucc; discriminate).
      congruence. }
    destruct (success result) eqn:Es.
    - destruct (List.map slot_create (result_schedule result)) eqn:Em; reflexivity.
    - now rewrite (Hfail eq_refl). }
  split; [|split; [discriminate|split]].
  - destruct (success result); [destruct (Py.list_truthy _)|]; cbn; auto.
  - intros res [= <-]. split; [exact Hrows|]. rewrite Hrows.
    rewrite Hsucc. split; intros H E; apply H.
    + now rewrite E.
    + now apply map_eq_nil in E.
  - rewrite Hrows. now apply stored_rows_clean.
Qed.

(** X20.  A request that does not clear first appends: with an institution,
    the stored schedule grows by the generated rows, the generator not
    reading what is stored; so the same request sent twice stores the
    generated rows twice, and whenever the run succeeds the stored schedule
    then holds one row at two places, which books its group twice. *)
Theorem endpoint_accumulates (str_error : Py.Error -> string) (db : Database)
  (institution : Institution.t) :
  hd_error (db_institutions db) = Some institution ->
  let result :=
    generate_schedule (generator_of institution db) str_error
      {| schedule := []; logs := [] |} in
  let rows := List.map slot_create (result_schedule result) in
  let once := fst (generate_schedule_endpoint str_error false db) in
  let twice := fst (generate_schedule_endpoint str_error false once) in
  snd (generate_schedule_endpoint str_error false db) = Returned result
  /\ snd (generate_schedule_endpoint str_error false once) = Returned result
  /\ db_schedule_slots once = db_schedule_slots db ++ rows
  /\ db_schedule_slots twice = db_schedule_slots db ++ rows ++ rows
  /\ (success result = true ->
      exists i j r,
        i <> j
        /\ nth_error (db_schedule_slots twice) i = Some r
        /\ nth_error (db_schedule_slots twice) j = Some r
        /\ double_booked r r).
Proof.
  intros Hinst result rows once twice.
  pose proof (success_iff_schedule (generator_of institution db) str_error
                {| schedule := []; logs := [] |}) as Hsucc.
  fold result in Hsucc.
  assert (Hstep : forall d,
            db_institutions d = db_institutions db ->
            db_class_groups d = db_class_groups db ->
            db_subjects d = db_subjects db ->
            db_teachers d = db_teachers db ->
            db_classrooms d = db_classrooms db ->
            snd (generate_schedule_endpoint str_error false d) = Returned result
            /\ db_schedule_slots (fst (generate_schedule_endpoint str_error false d))
               = db_schedule_slots d ++ rows
            /\ db_institutions (fst (generate_schedule_endpoint str_error false d))
               = db_institutions db
            /\ db_class_groups (fst (generate_schedule_endpoint str_error false d))
               = db_class_groups db
            /\ db_subjects (fst (generate_schedule_endpoint str_error false d))
               = db_subjects db
            /\ db_teachers (fst (generate_schedule_endpoint str_error false d))
               = db_teachers db
            /\ db_classrooms (fst (generate_schedule_endpoint str_error false d))
               = db_classrooms db).
  { intros d E1 E2 E3 E4 E5. unfold generate_schedule_endpoint.
    rewrite E1, Hinst. unfold generator_of. rewrite E2, E3, E4, E5.
    fold (generator_of institution db). fold result. cbn [fst snd].
    split; [reflexivity|].
    assert (Hfail : success result = false -> result_schedule result = []).
    { intros Es. destruct (result_schedule result) as [|s l]; [reflexivity|].
      assert (H : success result = true) by (apply Hsucc; discriminate).
      congruence. }
    destruct (success result) eqn:Es.
    - fold rows. destruct rows as [|x l] eqn:Er; cbn; rewrite ?app_nil_r; auto 10.
    - assert (Hrows : rows = [])
        by exact (f_equal (List.map slot_create) (Hfail eq_refl)).
      rewrite Hrows, app_nil_r. auto 10. }
  destruct (Hstep db eq_refl eq_refl eq_refl eq_refl eq_refl)
    as (R1 & S1 & E1 & E2 & E3 & E4 & E5).
  fold once in S1, E1, E2, E3, E4, E5.
  destruct (Hstep once E1 E2 E3 E4 E5) as (R2 & S2 & _).
  fold twice in S2.
  split; [exact R1|]. split; [exact R2|]. split; [exact S1|].
  assert (Htwice : db_schedule_slots twice = db_schedule_slots db ++ rows ++ rows)
    by (now rewrite S2, S1, <- app_assoc).
  split; [exact Htwice|].
  intros Es. apply Hsucc in Es.
  destruct (result_schedule result) as [|s l] eqn:Er; [congruence|].
  subst rows.
  exists (List.length (db_schedule_slots db)),
    (List.length (db_schedule_slots db) + List.length (List.map slot_create (s :: l)))%nat,
    (slot_create s).
  split; [cbn; lia|]. rewrite Htwice. split; [|split].
  - rewrite nth_error_app2 by lia. now rewrite Nat.sub_diag.
  - rewrite nth_error_app2 by lia. rewrite nth_error_app2 by lia.
    match goal with |- nth_error _ ?k = _ =>
      replace k with 0%nat by lia
    end.
    reflexivity.
  - unfold double_booked. auto.
Qed.

Lemma endpoint_accumulates_witness :
  hd_error (db_institutions Cases.database) = Some Sample.college
  /\ exists i j r,
       i <> j
       /\ nth_error
            (db_schedule_slots
               (fst (generate_schedule_endpoint Sample.no_message false
                       (fst (generate_schedule_endpoint Sample.no_message false
                               Cases.database))))) i = Some r
       /\ nth_error
            (db_schedule_slots
               (fst (generate_schedule_endpoint Sample.no_message false
                       (fst (generate_schedule_endpoint Sample.no_message false
                               Cases.database))))) j = Some r
       /\ double_booked r r.
Proof.
  assert (H0 : hd_error (db_institutions Cases.database) = Some Sample.college)
    by reflexivity.
  split; [exact H0|].
  apply (proj2 (proj2 (proj2 (proj2
           (endpoint_accumulates Sample.no_message Cases.database
              Sample.college H0))))).
  vm_compute. reflexivity.
Defined.
